(** * MediCare backend: a shallow embedding of [server.js]

    [server.js] holds two variants of the same Express + Mongoose backend.
    The first one (Zod schemas [registerSchema], [loginSchema],
    [appointmentZ]) is embedded in [Module V1], the second one (schemas
    [registerSchema], [loginSchema], [appointmentSchema]) in [Module V2].
    Both share the data model, the token and password helpers and the
    persistence operations defined first.

    Conventions of the embedding.
    - A collection is the list of its documents in insertion order.
    - A handler is a computation in the monad [M]: it threads the database,
      may throw (the [try]/[catch] of the handlers), and records every
      persistence call in a log.
    - What the JavaScript libraries compute and the source does not fix
      (Zod's e-mail test and default messages, [new Date(string)], the text
      of [err.message], PCRE outside the fragment interpreted here,
      MongoDB's reading of a filter with operators, Mongoose's casts of
      values of another type than the path, the signing secrets read from
      the environment) is a field of [Runtime].
    - What differs from one request to the next (clock, the fresh ObjectId
      Mongoose draws, the salt bcrypt draws) is a field of [Env].
    - bcrypt and JSON Web Tokens are symbolic: a digest records the
      plaintext it was computed from and is compared through the 72 bytes
      bcrypt reads of it, a token records the key and claims it was
      signed with, and neither can be built without them.
    - A character is a code point below 256. *)

From Stdlib Require Import String Ascii List ZArith Bool QArith Lia.
From Stdlib Require Import Permutation Sorted.
Import ListNotations.
Local Open Scope list_scope.
Local Open Scope Z_scope.
Local Open Scope string_scope.

Set Implicit Arguments.

(* ================================================================= *)
(** ** Characters and strings *)

Definition code (c : ascii) : nat := nat_of_ascii c.

Definition in_range (lo hi : nat) (c : ascii) : bool :=
  (lo <=? code c)%nat && (code c <=? hi)%nat.

(** [\d] of a JavaScript regular expression. *)
Definition is_digit (c : ascii) : bool := in_range 48 57 c.

Definition is_hex (c : ascii) : bool :=
  is_digit c || in_range 97 102 c || in_range 65 70 c.

(** [\s] of a JavaScript regular expression, below code point 256. *)
Definition is_space (c : ascii) : bool :=
  in_range 9 13 c || (code c =? 32)%nat || (code c =? 160)%nat.

Definition is_upper (c : ascii) : bool :=
  in_range 65 90 c || in_range 192 214 c || in_range 216 222 c.

Definition to_lower (c : ascii) : ascii :=
  if is_upper c then ascii_of_nat (code c + 32) else c.

Fixpoint string_map (f : ascii -> ascii) (s : string) : string :=
  match s with
  | EmptyString => EmptyString
  | String c s' => String (f c) (string_map f s')
  end.

Fixpoint string_forall (p : ascii -> bool) (s : string) : bool :=
  match s with
  | EmptyString => true
  | String c s' => p c && string_forall p s'
  end.

Fixpoint string_exists (p : ascii -> bool) (s : string) : bool :=
  match s with
  | EmptyString => false
  | String c s' => p c || string_exists p s'
  end.

(** [String.prototype.toLowerCase]. *)
Definition toLowerCase (s : string) : string := string_map to_lower s.

Fixpoint trim_start (s : string) : string :=
  match s with
  | EmptyString => EmptyString
  | String c s' => if is_space c then trim_start s' else s
  end.

Definition string_rev (s : string) : string :=
  string_of_list_ascii (rev (list_ascii_of_string s)).

(** [String.prototype.trim]. *)
Definition trim (s : string) : string :=
  string_rev (trim_start (string_rev (trim_start s))).

Definition len (s : string) : nat := String.length s.

(** JavaScript truthiness of a string-valued field that may be absent. *)
Definition truthy (o : option string) : bool :=
  match o with
  | Some s => negb (s =? "")
  | None => false
  end.

Fixpoint join (sep : string) (l : list string) : string :=
  match l with
  | [] => ""
  | [x] => x
  | x :: rest => x ++ sep ++ join sep rest
  end.

(* ================================================================= *)
(** ** Identifiers, roles, passwords, tokens *)

(** An ObjectId in its canonical form: 24 lower-case hexadecimal digits. *)
Definition ObjectId : Type := string.

Inductive Role : Type := patient | admin.

Definition role_eqb (a b : Role) : bool :=
  match a, b with
  | patient, patient | admin, admin => true
  | _, _ => false
  end.

Definition role_string (r : Role) : string :=
  match r with patient => "patient" | admin => "admin" end.

Inductive Status : Type := pending | confirmed | cancelled.

Definition status_string (s : Status) : string :=
  match s with
  | pending => "pending"
  | confirmed => "confirmed"
  | cancelled => "cancelled"
  end.

(** The value of a [password] field.  [Bcrypt cost salt p] is the digest
    [bcrypt.hash] returns for the plaintext [p]; [Plain p] is the plaintext
    itself, stored as it came.  bcrypt reads a password through its key
    only, so one digest may stand for several plaintexts: two digests of
    the model are the same string whenever cost, salt and key agree, and
    no statement relies on two digests being different. *)
Inductive Password : Type :=
| Bcrypt (cost : nat) (salt : string) (plaintext : string)
| Plain (plaintext : string).

(** The UTF-8 encoding of a string of code points below 256: one byte
    below 128, a lead and a trail byte from there on. *)
Definition utf8_lead (c : ascii) : ascii := ascii_of_nat (192 + code c / 64).

Definition utf8_trail (c : ascii) : ascii :=
  ascii_of_nat (128 + code c mod 64).

Fixpoint utf8 (s : string) : list ascii :=
  match s with
  | EmptyString => []
  | String c s' =>
      if (code c <? 128)%nat then c :: utf8 s'
      else utf8_lead c :: utf8_trail c :: utf8 s'
  end.

Definition is_nul (c : ascii) : bool := (code c =? 0)%nat.

(** The first [n] bytes of [period] repeated without end; [cur] is what
    is left of the round being read. *)
Fixpoint cycled (n : nat) (period cur : list ascii) : list ascii :=
  match n with
  | O => []
  | S n' =>
      match cur with
      | c :: rest => c :: cycled n' period rest
      | [] =>
          match period with
          | c :: rest => c :: cycled n' period rest
          | [] => []
          end
      end
  end.

(** The key bcrypt sets its cipher up with: the UTF-8 bytes of the
    password followed by a NUL, read round and round for 72 bytes.  A
    password is told from another by this key alone; what it holds
    beyond its first 72 bytes is never read. *)
Definition bcrypt_key (plaintext : string) : string :=
  let bytes := (utf8 plaintext ++ [zero])%list in
  string_of_list_ascii (cycled 72 bytes bytes).

Definition bcrypt_hash (plaintext : string) (cost : nat) (salt : string)
  : Password := Bcrypt cost salt plaintext.

Definition bcrypt_compare (plaintext : string) (stored : Password) : bool :=
  match stored with
  | Bcrypt _ _ p => bcrypt_key plaintext =? bcrypt_key p
  | Plain _ => false
  end.

Definition is_hashed (p : Password) : bool :=
  match p with Bcrypt _ _ _ => true | Plain _ => false end.

(** The payload the handlers sign: [{ id, role }], the role being absent
    when the signed object has [role: undefined]. *)
Record Claims : Type := mkClaims {
  c_id : ObjectId;
  c_role : option Role
}.

(** A token is either a string that is no token signed by anybody, or the
    signature of claims under a key, with its [iat] and [exp] (seconds). *)
Inductive Token : Type :=
| Garbage (s : string)
| Jwt (key : string) (claims : Claims) (iat exp : Z).

(** [jwt.sign(payload, key, { expiresIn })] at clock [now] (milliseconds). *)
Definition jwt_sign (payload : Claims) (key : string) (expiresIn : Z)
    (now : Z) : Token :=
  Jwt key payload (now / 1000) (now / 1000 + expiresIn).

(** [jwt.verify(token, key)] at clock [now]: the claims, or [None] where
    the library throws (bad signature, malformed or expired token). *)
Definition jwt_verify (t : Token) (key : string) (now : Z) : option Claims :=
  match t with
  | Garbage _ => None
  | Jwt k c _ exp => if (k =? key) && (now / 1000 <? exp)%Z then Some c else None
  end.

Definition minutes_15 : Z := 15 * 60.
Definition days_7 : Z := 7 * 24 * 60 * 60.

(* ================================================================= *)
(** ** JSON values *)

#[local] Unset Elimination Schemes.
Inductive json : Type :=
| JNull
| JBool (b : bool)
| JNum (q : Q)
| JStr (s : string)
| JDate (ms : Z)
| JHash (p : Password)
| JTok (t : Token)
| JArr (items : list json)
| JObj (fields : list (string * json)).
#[local] Set Elimination Schemes.

(** A value of a request (a field of the JSON body, a parameter of the
    query string) is built from [JNull], [JBool], [JNum], [JStr], [JArr]
    and [JObj]; [JNum] carries the value of the number as parsed. *)

(** JavaScript truthiness of a value of the request that may be absent. *)
Definition js_truthy (v : option json) : bool :=
  match v with
  | None | Some JNull => false
  | Some (JBool b) => b
  | Some (JNum q) => negb (Qeq_bool q 0)
  | Some (JStr s) => negb (s =? "")
  | Some _ => true
  end.


(** Top-level lookup in an object. *)
Definition get (k : string) (j : json) : option json :=
  match j with
  | JObj fields =>
      option_map snd (find (fun kv => (fst kv =? k)) fields)
  | _ => None
  end.

(** Mongoose's [select('-key')] on a serialized document. *)
Definition deselect (k : string) (j : json) : json :=
  match j with
  | JObj fields => JObj (filter (fun kv => negb (fst kv =? k)) fields)
  | other => other
  end.

(** Mongoose's [populate(path, 'a b c')] projection: [_id] and the listed keys. *)
Definition project (keys : list string) (j : json) : json :=
  match j with
  | JObj fields =>
      JObj (filter (fun kv => existsb (String.eqb (fst kv)) ("_id" :: keys)) fields)
  | other => other
  end.

Definition opt_field (k : string) (v : option json) : list (string * json) :=
  match v with
  | Some j => [(k, j)]
  | None => []
  end.

(** [res.status(code).json(body)]. *)
Record Response : Type := mkResponse {
  status : nat;
  body : json
}.

(* ================================================================= *)
(** ** Data model: the four Mongoose schemas *)

Record User : Type := mkUser {
  u_id : ObjectId;
  u_name : string;
  u_email : string;
  u_phone : string;
  u_password : Password;
  u_role : Role;
  u_joinDate : Z;
  u_isActive : bool
}.

(** A path of a stored document that is not required: absent, [null],
    or a value. *)
Inductive Field (A : Type) : Type :=
| Absent
| Null
| Value (a : A).

Arguments Absent {A}.
Arguments Null {A}.

(** [rating] and [reviews] have defaults, so they are never absent; they
    are [None] when [null] was stored. *)
Record Doctor : Type := mkDoctor {
  d_id : ObjectId;
  d_name : string;
  d_specialty : string;
  d_rating : option Q;
  d_reviews : option Q;
  d_location : Field string;
  d_availability : Field string;
  d_fee : Field string;
  d_image : Field string
}.

Record Appointment : Type := mkAppointment {
  a_id : ObjectId;
  a_doctor : ObjectId;
  a_doctorName : string;
  a_specialty : string;
  a_patient : ObjectId;
  a_patientName : string;
  a_date : Z;
  a_time : string;
  a_symptoms : string;
  a_phone : string;
  a_status : Status;
  a_createdAt : Z
}.

Record Feedback : Type := mkFeedback {
  f_id : ObjectId;
  f_patient : Field string;
  f_doctor : Field string;
  f_rating : Field Q;
  f_comment : Field string;
  f_date : Z
}.

Record DB : Type := mkDB {
  users : list User;
  doctors : list Doctor;
  appointments : list Appointment;
  feedbacks : list Feedback
}.

Definition empty_db : DB := mkDB [] [] [] [].

(** *** Documents as the JSON [res.json] sends *)

Definition user_doc (u : User) : json :=
  JObj [("_id", JStr (u_id u)); ("name", JStr (u_name u));
        ("email", JStr (u_email u)); ("phone", JStr (u_phone u));
        ("password", JHash (u_password u));
        ("role", JStr (role_string (u_role u)));
        ("joinDate", JDate (u_joinDate u));
        ("isActive", JBool (u_isActive u)); ("__v", JNum 0)].

(** A path as it is serialized: left out when absent. *)
Definition field_json {A : Type} (f : A -> json) (v : Field A) : option json :=
  match v with
  | Absent => None
  | Null => Some JNull
  | Value a => Some (f a)
  end.

Definition number_or_null (q : option Q) : json :=
  match q with
  | Some r => JNum r
  | None => JNull
  end.

Definition doctor_doc (d : Doctor) : json :=
  JObj ([("_id", JStr (d_id d)); ("name", JStr (d_name d));
         ("specialty", JStr (d_specialty d));
         ("rating", number_or_null (d_rating d));
         ("reviews", number_or_null (d_reviews d))]
        ++ opt_field "location" (field_json JStr (d_location d))
        ++ opt_field "availability" (field_json JStr (d_availability d))
        ++ opt_field "fee" (field_json JStr (d_fee d))
        ++ opt_field "image" (field_json JStr (d_image d))
        ++ [("__v", JNum 0)])%list.

(** An appointment, its [doctor] and [patient] paths given as they are to
    be sent: the bare ids, or what [populate] put in their place. *)
Definition appointment_doc_with (doctor patient : json) (a : Appointment)
  : json :=
  JObj [("_id", JStr (a_id a)); ("doctor", doctor);
        ("doctorName", JStr (a_doctorName a));
        ("specialty", JStr (a_specialty a)); ("patient", patient);
        ("patientName", JStr (a_patientName a));
        ("date", JDate (a_date a)); ("time", JStr (a_time a));
        ("symptoms", JStr (a_symptoms a)); ("phone", JStr (a_phone a));
        ("status", JStr (status_string (a_status a)));
        ("createdAt", JDate (a_createdAt a)); ("__v", JNum 0)].

Definition appointment_doc (a : Appointment) : json :=
  appointment_doc_with (JStr (a_doctor a)) (JStr (a_patient a)) a.

Definition feedback_doc (f : Feedback) : json :=
  JObj ([("_id", JStr (f_id f))]
        ++ opt_field "patient" (field_json JStr (f_patient f))
        ++ opt_field "doctor" (field_json JStr (f_doctor f))
        ++ opt_field "rating" (field_json JNum (f_rating f))
        ++ opt_field "comment" (field_json JStr (f_comment f))
        ++ [("date", JDate (f_date f)); ("__v", JNum 0)])%list.

(* ================================================================= *)
(** ** Errors, library parameters, request environment *)

(** One issue of a [ZodError]. *)
Inductive Issue : Type :=
| invalid_type (path : string)
| too_small (path : string) (minimum : nat)
| wrong_length (path : string) (exact : nat)
| invalid_email (path : string)
| invalid_regex (path : string)
| custom (message : string).

(** Why a path of a document built from a request body fails the
    schema; the message of the error quotes the value. *)
Inductive Failure : Type :=
| is_required
| cast_failed (v : json)
| below_min (v : Q)
| above_max (v : Q).

(** What a handler's [catch] can receive.  [ValidationError path] is
    Mongoose's ValidationError for a required path left empty;
    [ValidationFailed failures] is the ValidationError of a document
    built from the values of a request body, with every failing path and
    its failure. *)
Inductive Err : Type :=
| ZodError (issues : list Issue)
| CastError (path : string)
| ValidationError (path : string)
| ValidationFailed (failures : list (string * Failure))
| DuplicateKey (path : string)
| RegexError
| TypeError.

Definition is_ZodError (e : Err) : bool :=
  match e with ZodError _ => true | _ => false end.

Record Runtime : Type := mkRuntime {
  (** [z.string().email()] *)
  isEmail : string -> bool;
  (** Zod's default message of an issue *)
  zodDefaultMessage : Issue -> string;
  (** [new Date(s).getTime()], [None] for an Invalid Date *)
  parseDate : string -> option Z;
  (** [err.message] *)
  errMessage : Err -> string;
  (** the ObjectId a string of length other than 24 casts to, if any *)
  castOtherId : string -> option ObjectId;
  (** MongoDB's [$regex] with option [i], for a pattern outside the
      fragment interpreted by [compile]: [None] when the server rejects
      the pattern, else the test it performs on a string *)
  pcreOther : string -> option (string -> bool);
  (** PCRE's caseless comparison of two characters of which one at least
      is outside ASCII *)
  caselessOther : ascii -> ascii -> bool;
  (** [Doctor.find(q)] for a filter with a value other than a string
      under [specialty] or under [$regex] (an array or an object of the
      query string, read as [$in] or as operators): the error Mongoose or
      the server raises, else the test the filter puts on a document *)
  mongoFilter : json -> Err + (Doctor -> bool);
  (** Mongoose's cast to a String path of a value that is neither a
      string nor [null] (a number, a boolean, an array, an object):
      [None] for a CastError *)
  castOtherString : json -> option string;
  (** Mongoose's cast to a Number path of a value that is neither a
      number nor [null]: [None] for a CastError, [Some None] for [null] *)
  castOtherNumber : json -> option (option Q);
  JWT_SECRET : string;
  JWT_REFRESH_SECRET : string
}.

Record Env : Type := mkEnv {
  now : Z;
  fresh : ObjectId;
  salt : string
}.

(** [e.message] of an issue: the message given in the schema for a
    refinement, the library's default otherwise. *)
Definition issue_message (L : Runtime) (i : Issue) : string :=
  match i with
  | custom m => m
  | other => zodDefaultMessage L other
  end.

(* ================================================================= *)
(** ** The handler monad: database state, exceptions, persistence log *)

Inductive Collection : Type := Users | Doctors | Appointments | Feedbacks.

Inductive DbOp : Type :=
| DbRead (c : Collection)
| DbWrite (c : Collection).

Definition M (A : Type) : Type :=
  DB -> list DbOp -> (Err + A) * DB * list DbOp.

Definition ret {A : Type} (a : A) : M A :=
  fun db tr => (inr a, db, tr).

Definition bind {A B : Type} (m : M A) (k : A -> M B) : M B :=
  fun db tr =>
    match m db tr with
    | (inl e, db', tr') => (inl e, db', tr')
    | (inr a, db', tr') => k a db' tr'
    end.

Definition throw {A : Type} (e : Err) : M A :=
  fun db tr => (inl e, db, tr).

(** [try { m } catch (err) { h err }] *)
Definition try_catch {A : Type} (m : M A) (h : Err -> M A) : M A :=
  fun db tr =>
    match m db tr with
    | (inl e, db', tr') => h e db' tr'
    | (inr a, db', tr') => (inr a, db', tr')
    end.

(** A value or a thrown error, as a computation. *)
Definition lift {A : Type} (r : Err + A) : M A :=
  match r with
  | inl e => throw e
  | inr a => ret a
  end.

Definition call (op : DbOp) : M unit :=
  fun db tr => (inr tt, db, (tr ++ [op])%list).

Definition read_db : M DB := fun db tr => (inr db, db, tr).

Definition write_db (db' : DB) : M unit := fun _ tr => (inr tt, db', tr).

Declare Scope handler_scope.
Delimit Scope handler_scope with handler.
Notation "x <- m ;; k" := (bind m (fun x => k))
  (at level 100, m at next level, right associativity) : handler_scope.
Notation "m ;; k" := (bind m (fun _ => k))
  (at level 100, right associativity) : handler_scope.
Local Open Scope handler_scope.

(** What the client of a request observes: a response, or nothing when
    the handler's promise rejects with no [catch] around it. *)
Inductive Outcome : Type :=
| Sent (r : Response)
| Unhandled (e : Err).

Definition outcome_of (r : Err + Response) : Outcome :=
  match r with
  | inl e => Unhandled e
  | inr resp => Sent resp
  end.

(** Running a handler on a database, the log empty at the start. *)
Definition run (h : M Response) (db : DB) : Outcome * DB * list DbOp :=
  match h db [] with
  | (r, db', tr) => (outcome_of r, db', tr)
  end.

Definition outcome (h : M Response) (db : DB) : Outcome := fst (fst (run h db)).
Definition db_after (h : M Response) (db : DB) : DB := snd (fst (run h db)).
Definition log_of (h : M Response) (db : DB) : list DbOp := snd (run h db).

Definition is_write (op : DbOp) : bool :=
  match op with DbWrite _ => true | DbRead _ => false end.

(* ================================================================= *)
(** ** MongoDB's [$regex] with [$options: 'i']

    The handlers hand the [search] parameter to MongoDB as a PCRE pattern,
    matched anywhere in the name and without regard to case.  [compile]
    interprets the patterns written with ordinary characters, [.], [|]
    and parentheses; a pattern using any other PCRE syntax (escapes,
    anchors, classes, quantifiers) or holding a NUL is left to
    [pcreOther].  The option [s] is not given, so [.] matches any
    character but a line feed.  Letters of ASCII are compared through
    their lower case; what two characters of which one is outside ASCII
    compare to depends on the Unicode tables of the server's PCRE and is
    [caselessOther].  A pattern arrives in the request line, which Node
    bounds well below the size the server accepts for a pattern, so the
    size of a pattern is not modelled. *)

Inductive regex : Type :=
| Never
| Empty
| Chr (c : ascii)
| Any
| Seq (a b : regex)
| Alt (a b : regex).

Fixpoint nullable (r : regex) : bool :=
  match r with
  | Never | Chr _ | Any => false
  | Empty => true
  | Seq a b => nullable a && nullable b
  | Alt a b => nullable a || nullable b
  end.

Definition line_feed : ascii := ascii_of_nat 10.

Definition is_ascii (c : ascii) : bool := (code c <? 128)%nat.

(** Caseless comparison of two characters. *)
Definition same_letter (L : Runtime) (a b : ascii) : bool :=
  if is_ascii a && is_ascii b then Ascii.eqb (to_lower a) (to_lower b)
  else caselessOther L a b.

(** What is left of [r] after it has read [x]. *)
Fixpoint deriv (L : Runtime) (x : ascii) (r : regex) : regex :=
  match r with
  | Never | Empty => Never
  | Chr c => if same_letter L c x then Empty else Never
  | Any => if Ascii.eqb x line_feed then Never else Empty
  | Seq a b =>
      if nullable a then Alt (Seq (deriv L x a) b) (deriv L x b)
      else Seq (deriv L x a) b
  | Alt a b => Alt (deriv L x a) (deriv L x b)
  end.

(** Does [r] match some prefix of [s]? *)
Fixpoint matches_prefix (L : Runtime) (r : regex) (s : string) : bool :=
  nullable r ||
  match s with
  | EmptyString => false
  | String x s' => matches_prefix L (deriv L x r) s'
  end.

(** Does [r] match somewhere in [s]?  (An unanchored pattern.) *)
Fixpoint search (L : Runtime) (r : regex) (s : string) : bool :=
  matches_prefix L r s ||
  match s with
  | EmptyString => false
  | String _ s' => search L r s'
  end.

(** What [compile] does not interpret: the rest of PCRE's syntax, and the
    NUL, which ends a pattern or has it refused, by the server's version. *)
Definition uninterpreted (c : ascii) : bool :=
  existsb (Ascii.eqb c) (list_ascii_of_string "\^$[]{}*+?")
  || is_nul c.

(** Characters with a meaning of their own in a PCRE pattern. *)
Definition metachar (c : ascii) : bool :=
  uninterpreted c || existsb (Ascii.eqb c) (list_ascii_of_string ".|()").

(** A group under construction: the alternatives already closed and the
    items of the current one, both most recent first. *)
Record Frame : Type := mkFrame {
  alts : list regex;
  items : list regex
}.

Definition empty_frame : Frame := mkFrame [] [].

Definition seq_of (items_rev : list regex) : regex :=
  fold_left (fun acc r => Seq r acc) items_rev Empty.

Definition close (f : Frame) : regex :=
  fold_left (fun acc r => Alt r acc) (alts f) (seq_of (items f)).

Definition push (r : regex) (f : Frame) : Frame :=
  mkFrame (alts f) (r :: items f).

Inductive Parse : Type :=
| Parsed (r : regex)
| Invalid
| Uninterpreted.

(** The nesting of groups up to which [compile] interprets a pattern;
    PCRE puts a limit of its own on it, beyond this one. *)
Definition nesting_limit : nat := 128.

Fixpoint parse (p : string) (cur : Frame) (stack : list Frame) : Parse :=
  match p with
  | EmptyString =>
      match stack with
      | [] => Parsed (close cur)
      | _ :: _ => Invalid
      end
  | String c rest =>
      if Ascii.eqb c "(" then
        if (nesting_limit <=? List.length stack)%nat then Uninterpreted
        else parse rest empty_frame (cur :: stack)
      else if Ascii.eqb c ")" then
        match stack with
        | [] => Invalid
        | parent :: stack' => parse rest (push (close cur) parent) stack'
        end
      else if Ascii.eqb c "|" then
        parse rest (mkFrame (seq_of (items cur) :: alts cur) []) stack
      else if Ascii.eqb c "." then parse rest (push Any cur) stack
      else if uninterpreted c then Uninterpreted
      else parse rest (push (Chr c) cur) stack
  end.

Definition compile (p : string) : Parse :=
  if string_exists uninterpreted p then Uninterpreted
  else parse p empty_frame [].

(** [{ $regex: p, $options: 'i' }] as a test on a string; [None] when the
    server refuses the pattern. *)
Definition mongo_regex (L : Runtime) (p : string) : option (string -> bool) :=
  match compile p with
  | Parsed r => Some (search L r)
  | Invalid => None
  | Uninterpreted => pcreOther L p
  end.

(** Case-insensitive literal containment, the reading of [search] as a
    plain substring. *)
Fixpoint ci_prefix (L : Runtime) (p s : string) : bool :=
  match p, s with
  | EmptyString, _ => true
  | String _ _, EmptyString => false
  | String a p', String b s' => same_letter L a b && ci_prefix L p' s'
  end.

Fixpoint ci_contains (L : Runtime) (p s : string) : bool :=
  ci_prefix L p s ||
  match s with
  | EmptyString => false
  | String _ s' => ci_contains L p s'
  end.

(* ================================================================= *)
(** ** Persistence: the Mongoose model methods the handlers call *)

Definition set_users (db : DB) (us : list User) : DB :=
  mkDB us (doctors db) (appointments db) (feedbacks db).

Definition set_doctors (db : DB) (ds : list Doctor) : DB :=
  mkDB (users db) ds (appointments db) (feedbacks db).

Definition set_appointments (db : DB) (l : list Appointment) : DB :=
  mkDB (users db) (doctors db) l (feedbacks db).

Definition set_feedbacks (db : DB) (fs : list Feedback) : DB :=
  mkDB (users db) (doctors db) (appointments db) fs.

Definition id_in (id : ObjectId) (l : list ObjectId) : bool :=
  existsb (String.eqb id) l.

(** Stable insertion sort, greatest first; [gt a b] is "a sorts strictly
    before b". *)
Fixpoint insert_desc {A : Type} (gt : A -> A -> bool) (x : A) (l : list A)
  : list A :=
  match l with
  | [] => [x]
  | y :: l' => if gt y x then y :: insert_desc gt x l' else x :: l
  end.

Definition sort_desc {A : Type} (gt : A -> A -> bool) (l : list A) : list A :=
  fold_right (insert_desc gt) [] l.

Definition empty_password (p : Password) : bool :=
  match p with
  | Plain s => s =? ""
  | Bcrypt _ _ _ => false
  end.

(** The filter of [Doctor.find(q)]: the value under [specialty] and the
    value under [$regex] of [name], each when present. *)
Record DoctorQuery : Type := mkDoctorQuery {
  q_specialty : option json;
  q_name : option json
}.

(** The filter as the document handed to Mongoose. *)
Definition query_doc (q : DoctorQuery) : json :=
  JObj (opt_field "specialty" (q_specialty q)
        ++ opt_field "name"
             (option_map
                (fun v => JObj [("$regex", v); ("$options", JStr "i")])
                (q_name q)))%list.

(** A condition that is absent or is a string. *)
Definition string_condition (v : option json) : option (option string) :=
  match v with
  | None => Some None
  | Some (JStr s) => Some (Some s)
  | Some _ => None
  end.

Section Persistence.

Variable L : Runtime.

(** Mongoose's cast of a string to an ObjectId: 24 hexadecimal digits. *)
Definition castObjectId (s : string) : option ObjectId :=
  if (len s =? 24)%nat then
    if string_forall is_hex s then Some (toLowerCase s) else None
  else castOtherId L s.

(** *** User *)

(** [User.findOne({ email })]; the path is declared [lowercase: true]. *)
Definition User_findOne (email : string) : M (option User) :=
  call (DbRead Users) ;;
  db <- read_db ;;
  ret (find (fun u => u_email u =? toLowerCase email) (users db)).

Definition User_findById (id : ObjectId) : M (option User) :=
  call (DbRead Users) ;;
  db <- read_db ;;
  ret (find (fun u => u_id u =? id) (users db)).

(** [User.create({ name, email, phone, password, role })]: setters
    ([trim], [lowercase]), defaults, [required] validators, then the
    insert under the unique indexes on [_id] and [email]. *)
Definition User_create (env : Env) (name email phone : string)
    (password : Password) (role : option Role) : M User :=
  call (DbWrite Users) ;;
  db <- read_db ;;
  let u := mkUser (fresh env) (trim name) (toLowerCase email) phone password
             (match role with Some r => r | None => patient end)
             (now env) true in
  if u_name u =? "" then throw (ValidationError "name")
  else if u_email u =? "" then throw (ValidationError "email")
  else if u_phone u =? "" then throw (ValidationError "phone")
  else if empty_password (u_password u) then throw (ValidationError "password")
  else if id_in (u_id u) (map u_id (users db))
       then throw (DuplicateKey "_id")
  else if existsb (fun v => u_email v =? u_email u) (users db)
       then throw (DuplicateKey "email")
  else write_db (set_users db (users db ++ [u])%list) ;; ret u.

(** [User.find({ role: 'patient' })] *)
Definition User_find_patients : M (list User) :=
  call (DbRead Users) ;;
  db <- read_db ;;
  ret (filter (fun u => role_eqb (u_role u) patient) (users db)).

Definition User_count : M nat :=
  call (DbRead Users) ;;
  db <- read_db ;;
  ret (List.length (users db)).

Definition User_count_patients : M nat :=
  l <- User_find_patients ;; ret (List.length l).

(** *** Doctor *)

Definition Doctor_findById (id : string) : M (option Doctor) :=
  call (DbRead Doctors) ;;
  match castObjectId id with
  | None => throw (CastError "_id")
  | Some oid =>
      db <- read_db ;;
      ret (find (fun d => d_id d =? oid) (doctors db))
  end.

Definition specialty_matches (specialty : option string) (d : Doctor)
  : bool :=
  match specialty with
  | Some sp => d_specialty d =? sp
  | None => true
  end.

(** [Doctor.find(q)].  With strings, [q.specialty] is an exact value and
    [q.name] a [{ $regex, $options: 'i' }] condition, each when present;
    any other filter is read by [mongoFilter]. *)
Definition Doctor_find (q : DoctorQuery) : M (list Doctor) :=
  call (DbRead Doctors) ;;
  db <- read_db ;;
  match string_condition (q_specialty q), string_condition (q_name q) with
  | Some specialty, Some None =>
      ret (filter (specialty_matches specialty) (doctors db))
  | Some specialty, Some (Some pattern) =>
      match mongo_regex L pattern with
      | None => throw RegexError
      | Some test =>
          ret (filter (fun d => specialty_matches specialty d
                                && test (d_name d))
                 (doctors db))
      end
  | _, _ =>
      match mongoFilter L (query_doc q) with
      | inl e => throw e
      | inr test => ret (filter test (doctors db))
      end
  end.

(** *** Casting the values of a request body to the paths of a schema *)

(** Mongoose's cast to a String path; [None] for a CastError. *)
Definition castString (v : option json) : option (Field string) :=
  match v with
  | None => Some Absent
  | Some JNull => Some Null
  | Some (JStr s) => Some (Value s)
  | Some other =>
      match castOtherString L other with
      | Some s => Some (Value s)
      | None => None
      end
  end.

(** Mongoose's cast to a Number path; [None] for a CastError. *)
Definition castNumber (v : option json) : option (Field Q) :=
  match v with
  | None => Some Absent
  | Some JNull => Some Null
  | Some (JNum q) => Some (Value q)
  | Some other =>
      match castOtherNumber L other with
      | Some (Some q) => Some (Value q)
      | Some None => Some Null
      | None => None
      end
  end.

(** The value a cast was refused for. *)
Definition refused (v : option json) : Failure :=
  cast_failed (match v with Some j => j | None => JNull end).

(** A String path. *)
Definition optional_string (v : option json) : Failure + Field string :=
  match castString v with
  | Some f => inr f
  | None => inl (refused v)
  end.

(** A String path declared [required: true]: a non-empty string. *)
Definition required_string (v : option json) : Failure + string :=
  match castString v with
  | Some (Value s) => if s =? "" then inl is_required else inr s
  | Some _ => inl is_required
  | None => inl (refused v)
  end.

(** A Number path, with its [required], [min] and [max] when declared. *)
Definition number_path (required : bool) (min max : option Q)
    (v : option json) : Failure + Field Q :=
  match castNumber v with
  | Some (Value q) =>
      if match min with Some m => negb (Qle_bool m q) | None => false end
      then inl (below_min q)
      else if match max with Some m => negb (Qle_bool q m) | None => false end
      then inl (above_max q)
      else inr (Value q)
  | Some f => if required then inl is_required else inr f
  | None => inl (refused v)
  end.

Definition failure_of {A : Type} (path : string) (r : Failure + A)
  : list (string * Failure) :=
  match r with
  | inl x => [(path, x)]
  | inr _ => []
  end.

(** The default of a Number path applies when the path is absent. *)
Definition with_default (dflt : Q) (f : Field Q) : option Q :=
  match f with
  | Absent => Some dflt
  | Null => None
  | Value q => Some q
  end.

Definition of_option {A : Type} (o : option A) : Field A :=
  match o with
  | Some a => Value a
  | None => Absent
  end.

(** A doctor document written in the source, the schema's defaults
    filled in. *)
Definition new_doctor (id : ObjectId) (name specialty : string)
    (rating reviews : option Q)
    (location availability fee image : option string) : Doctor :=
  mkDoctor id name specialty
    (with_default (45 # 10) (of_option rating))
    (with_default 0 (of_option reviews))
    (of_option location) (of_option availability) (of_option fee)
    (of_option image).

(** The document [doctorSchema] makes of the values of a body, or its
    ValidationError. *)
Definition doctor_of (env : Env)
    (name specialty rating reviews location availability fee image
       : option json) : Err + Doctor :=
  let name' := required_string name in
  let specialty' := required_string specialty in
  let rating' := number_path false None None rating in
  let reviews' := number_path false None None reviews in
  let location' := optional_string location in
  let availability' := optional_string availability in
  let fee' := optional_string fee in
  let image' := optional_string image in
  match name', specialty', rating', reviews', location', availability', fee',
        image' with
  | inr n, inr s, inr ra, inr re, inr l, inr a, inr f, inr i =>
      inr (mkDoctor (fresh env) n s (with_default (45 # 10) ra)
             (with_default 0 re) l a f i)
  | _, _, _, _, _, _, _, _ =>
      inl (ValidationFailed
             (failure_of "name" name' ++ failure_of "specialty" specialty'
              ++ failure_of "rating" rating' ++ failure_of "reviews" reviews'
              ++ failure_of "location" location'
              ++ failure_of "availability" availability'
              ++ failure_of "fee" fee' ++ failure_of "image" image')%list)
  end.

(** Validation and insertion of one doctor document. *)
Definition insert_doctor (d : Doctor) : M Doctor :=
  db <- read_db ;;
  if d_name d =? "" then throw (ValidationError "name")
  else if d_specialty d =? "" then throw (ValidationError "specialty")
  else if id_in (d_id d) (map d_id (doctors db))
       then throw (DuplicateKey "_id")
  else write_db (set_doctors db (doctors db ++ [d])%list) ;; ret d.

(** [Doctor.create({ name, specialty, rating, reviews, location,
    availability, fee, image })] *)
Definition Doctor_create (env : Env)
    (name specialty rating reviews location availability fee image
       : option json) : M Doctor :=
  call (DbWrite Doctors) ;;
  d <- lift (doctor_of env name specialty rating reviews location
               availability fee image) ;;
  insert_doctor d.

Definition Doctor_count : M nat :=
  call (DbRead Doctors) ;;
  db <- read_db ;;
  ret (List.length (doctors db)).

(** *** Appointment *)

Definition Appointment_findById (id : string) : M (option Appointment) :=
  call (DbRead Appointments) ;;
  match castObjectId id with
  | None => throw (CastError "_id")
  | Some oid =>
      db <- read_db ;;
      ret (find (fun a => a_id a =? oid) (appointments db))
  end.

(** [Appointment.create({...})]; [date] is [None] for an Invalid Date or
    a string that does not cast to a date. *)
Definition Appointment_create (env : Env) (doctor : ObjectId)
    (doctorName specialty : string) (patient : ObjectId)
    (patientName : string) (date : option Z) (time symptoms phone : string)
    (st : option Status) : M Appointment :=
  call (DbWrite Appointments) ;;
  db <- read_db ;;
  match date with
  | None => throw (ValidationError "date")
  | Some d =>
      let a := mkAppointment (fresh env) doctor doctorName specialty patient
                 patientName d time symptoms phone
                 (match st with Some s => s | None => pending end)
                 (now env) in
      if time =? "" then throw (ValidationError "time")
      else if symptoms =? "" then throw (ValidationError "symptoms")
      else if phone =? "" then throw (ValidationError "phone")
      else if id_in (a_id a) (map a_id (appointments db))
           then throw (DuplicateKey "_id")
      else write_db (set_appointments db (appointments db ++ [a])%list) ;;
           ret a
  end.

Fixpoint replace_appointment (a : Appointment) (l : list Appointment)
  : list Appointment :=
  match l with
  | [] => []
  | b :: l' => if a_id b =? a_id a then a :: l'
               else b :: replace_appointment a l'
  end.

(** [appt.save()] of a document read from the collection. *)
Definition Appointment_save (a : Appointment) : M unit :=
  call (DbWrite Appointments) ;;
  db <- read_db ;;
  write_db (set_appointments db (replace_appointment a (appointments db))).

(** [Appointment.find({ patient: id })] *)
Definition Appointment_find_patient (id : ObjectId) : M (list Appointment) :=
  call (DbRead Appointments) ;;
  db <- read_db ;;
  ret (filter (fun a => a_patient a =? id) (appointments db)).

Definition Appointment_find_all : M (list Appointment) :=
  call (DbRead Appointments) ;;
  db <- read_db ;;
  ret (appointments db).

Definition Appointment_count : M nat :=
  l <- Appointment_find_all ;; ret (List.length l).

(** [populate(path, keys)]: the referenced document restricted to [_id]
    and [keys], or [null] when there is none. *)
Definition populated_doctor (keys : list string) (db : DB) (a : Appointment)
  : json :=
  match find (fun d => d_id d =? a_doctor a) (doctors db) with
  | Some d => project keys (doctor_doc d)
  | None => JNull
  end.

Definition populated_patient (keys : list string) (db : DB)
    (a : Appointment) : json :=
  match find (fun u => u_id u =? a_patient a) (users db) with
  | Some u => project keys (user_doc u)
  | None => JNull
  end.

(** *** Feedback *)

(** The document the feedback schema makes of the values of a body, or
    its ValidationError; [strict] tells whether [rating] and [comment] are
    declared [required]. *)
Definition feedback_of (env : Env) (strict : bool)
    (patient doctor rating comment : option json) : Err + Feedback :=
  let patient' := optional_string patient in
  let doctor' := optional_string doctor in
  let rating' := number_path strict (Some 1%Q) (Some 5%Q) rating in
  let comment' :=
    if strict
    then match required_string comment with
         | inr s => inr (Value s)
         | inl x => inl x
         end
    else optional_string comment in
  match patient', doctor', rating', comment' with
  | inr p, inr d, inr r, inr c =>
      inr (mkFeedback (fresh env) p d r c (now env))
  | _, _, _, _ =>
      inl (ValidationFailed
             (failure_of "patient" patient' ++ failure_of "doctor" doctor'
              ++ failure_of "rating" rating'
              ++ failure_of "comment" comment')%list)
  end.

(** [Feedback.create({ patient, doctor, rating, comment })] *)
Definition Feedback_create (env : Env) (strict : bool)
    (patient doctor rating comment : option json) : M Feedback :=
  call (DbWrite Feedbacks) ;;
  f <- lift (feedback_of env strict patient doctor rating comment) ;;
  db <- read_db ;;
  if id_in (f_id f) (map f_id (feedbacks db))
  then throw (DuplicateKey "_id")
  else write_db (set_feedbacks db (feedbacks db ++ [f])%list) ;; ret f.

Definition Feedback_find_all : M (list Feedback) :=
  call (DbRead Feedbacks) ;;
  db <- read_db ;;
  ret (feedbacks db).

End Persistence.

(* ================================================================= *)
(** ** Requests and Zod string schemas *)

(** A field of a body that goes through a Zod schema is [Some s] when the
    JSON body has a string there, and [None] when the key is absent or
    holds something else, which the schema refuses alike.  A field of a
    body that is handed to a model as it is, is the value under the key,
    [None] when the key is absent. *)
Record RegisterBody : Type := mkRegisterBody {
  rb_name : option string;
  rb_email : option string;
  rb_phone : option string;
  rb_password : option string;
  rb_confirmPassword : option string
}.

Record LoginBody : Type := mkLoginBody {
  lb_email : option string;
  lb_password : option string
}.

Record AppointmentBody : Type := mkAppointmentBody {
  ab_doctorId : option string;
  ab_date : option string;
  ab_time : option string;
  ab_symptoms : option string;
  ab_phone : option string
}.

Record DoctorBody : Type := mkDoctorBody {
  db_name : option json;
  db_specialty : option json;
  db_rating : option json;
  db_reviews : option json;
  db_location : option json;
  db_availability : option json;
  db_fee : option json;
  db_image : option json
}.

Record FeedbackBody : Type := mkFeedbackBody {
  fb_patient : option json;
  fb_doctor : option json;
  fb_rating : option json;
  fb_comment : option json
}.

(** The [Authorization] header. *)
Inductive Authorization : Type :=
| NoHeader
| NotBearer (header : string)
| Bearer (token : Token).

(** What [parse] returns for the three schemas. *)
Record RegisterData : Type := mkRegisterData {
  rd_name : string;
  rd_email : string;
  rd_phone : string;
  rd_password : string
}.

Record LoginData : Type := mkLoginData {
  ld_email : string;
  ld_password : string
}.

Record AppointmentData : Type := mkAppointmentData {
  ad_doctorId : string;
  ad_date : string;
  ad_time : string;
  ad_symptoms : string;
  ad_phone : string
}.

(** The checks chained on [z.string()]. *)
Inductive Check : Type :=
| z_min (n : nat)
| z_length (n : nat)
| z_email
| z_regex (test : string -> bool).

Definition check_issue (L : Runtime) (path : string) (s : string)
    (ck : Check) : list Issue :=
  match ck with
  | z_min n => if (n <=? len s)%nat then [] else [too_small path n]
  | z_length n => if (len s =? n)%nat then [] else [wrong_length path n]
  | z_email => if isEmail L s then [] else [invalid_email path]
  | z_regex test => if test s then [] else [invalid_regex path]
  end.

(** The issues [z.string().<checks>] raises on a field. *)
Definition z_string (L : Runtime) (path : string) (checks : list Check)
    (v : option string) : list Issue :=
  match v with
  | None => [invalid_type path]
  | Some s => flat_map (check_issue L path s) checks
  end.

Definition chars (s : string) : list ascii := list_ascii_of_string s.

Definition is_char (a : ascii) (c : ascii) : bool := Ascii.eqb c a.

(** [/^\d{4}-\d{2}-\d{2}$/] *)
Definition re_date (s : string) : bool :=
  match chars s with
  | [y1; y2; y3; y4; h1; m1; m2; h2; d1; d2] =>
      forallb is_digit [y1; y2; y3; y4; m1; m2; d1; d2]
      && is_char "-" h1 && is_char "-" h2
  | _ => false
  end.

(** [/^([0-1]?[0-9]|2[0-3]):[0-5][0-9]$/] *)
Definition re_time (s : string) : bool :=
  match chars s with
  | [h; colon; m1; m2] =>
      is_digit h && is_char ":" colon && in_range 48 53 m1 && is_digit m2
  | [h1; h2; colon; m1; m2] =>
      ((in_range 48 49 h1 && is_digit h2)
       || (is_char "2" h1 && in_range 48 51 h2))
      && is_char ":" colon && in_range 48 53 m1 && is_digit m2
  | _ => false
  end.

(** [/^[\d\+\-\s]{10,15}$/] *)
Definition re_phone (s : string) : bool :=
  (10 <=? len s)%nat && (len s <=? 15)%nat
  && string_forall
       (fun c => is_digit c || is_char "+" c || is_char "-" c || is_space c) s.

Definition json_error (code : nat) (message : string) : Response :=
  mkResponse code (JObj [("error", JStr message)]).

Definition token_truthy (t : option Token) : bool :=
  match t with
  | None => false
  | Some (Garbage s) => negb (s =? "")
  | Some (Jwt _ _ _ _) => true
  end.

(** What the seeding routine draws: the clock, the salt, and the fresh
    ObjectId of the [n]-th document it inserts. *)
Record SeedEnv : Type := mkSeedEnv {
  s_now : Z;
  s_salt : string;
  s_fresh : nat -> ObjectId
}.

Definition seed_env (se : SeedEnv) (n : nat) : Env :=
  mkEnv (s_now se) (s_fresh se n) (s_salt se).

Fixpoint insert_doctors (se : SeedEnv) (n : nat)
    (docs : list (ObjectId -> Doctor)) : M unit :=
  match docs with
  | [] => ret tt
  | doc :: rest =>
      insert_doctor (doc (s_fresh se n)) ;;
      insert_doctors se (S n) rest
  end.

(** [Doctor.insertMany(docs)], the [n]-th document under the [n]-th id. *)
Definition Doctor_insertMany (se : SeedEnv) (docs : list (ObjectId -> Doctor))
  : M unit :=
  call (DbWrite Doctors) ;; insert_doctors se 0 docs.

(* ================================================================= *)
(** * The first variant of [server.js] *)

Module V1.
Section Handlers.

Variable L : Runtime.

(** ** Zod schemas *)

(** [registerSchema]; the refinement runs unless a field has the wrong
    type. *)
Definition registerSchema (b : RegisterBody) : Err + RegisterData :=
  let shape :=
    (z_string L "name" [z_min 2] (rb_name b)
     ++ z_string L "email" [z_email] (rb_email b)
     ++ z_string L "phone" [z_min 6] (rb_phone b)
     ++ z_string L "password" [z_min 6] (rb_password b)
     ++ z_string L "confirmPassword" [z_min 6] (rb_confirmPassword b))%list in
  match rb_name b, rb_email b, rb_phone b, rb_password b,
        rb_confirmPassword b with
  | Some name, Some email, Some phone, Some password, Some confirm =>
      let issues :=
        (shape ++ if password =? confirm then []
                  else [custom "Passwords must match"])%list in
      match issues with
      | [] => inr (mkRegisterData name email phone password)
      | _ :: _ => inl (ZodError issues)
      end
  | _, _, _, _, _ => inl (ZodError shape)
  end.

Definition loginSchema (b : LoginBody) : Err + LoginData :=
  let issues :=
    (z_string L "email" [z_email] (lb_email b)
     ++ z_string L "password" [z_min 6] (lb_password b))%list in
  match issues, lb_email b, lb_password b with
  | [], Some email, Some password => inr (mkLoginData email password)
  | _, _, _ => inl (ZodError issues)
  end.

Definition appointmentZ (b : AppointmentBody) : Err + AppointmentData :=
  let issues :=
    (z_string L "doctorId" [z_length 24] (ab_doctorId b)
     ++ z_string L "date" [z_regex re_date] (ab_date b)
     ++ z_string L "time" [z_min 3] (ab_time b)
     ++ z_string L "symptoms" [z_min 5] (ab_symptoms b)
     ++ z_string L "phone" [z_min 6] (ab_phone b))%list in
  match issues, ab_doctorId b, ab_date b, ab_time b, ab_symptoms b,
        ab_phone b with
  | [], Some doctorId, Some date, Some time, Some symptoms, Some phone =>
      inr (mkAppointmentData doctorId date time symptoms phone)
  | _, _, _, _, _, _ => inl (ZodError issues)
  end.

(** ** JWT helpers and middleware *)

Definition generateTokens (env : Env) (user : User) : Token * Token :=
  let payload := mkClaims (u_id user) (Some (u_role user)) in
  (jwt_sign payload (JWT_SECRET L) minutes_15 (now env),
   jwt_sign payload (JWT_REFRESH_SECRET L) days_7 (now env)).

Definition authenticate (env : Env) (auth : Authorization)
    (next : Claims -> M Response) : M Response :=
  match auth with
  | Bearer token =>
      match jwt_verify token (JWT_SECRET L) (now env) with
      | Some payload => next payload
      | None => ret (json_error 401 "Invalid or expired token")
      end
  | NoHeader | NotBearer _ => ret (json_error 401 "Unauthorized")
  end.

Definition is_admin (user : Claims) : bool :=
  match c_role user with
  | Some admin => true
  | _ => false
  end.

Definition adminOnly (user : Claims) (next : M Response) : M Response :=
  if is_admin user then next
  else ret (json_error 403 "Admin access required").

(** The [catch] of the handlers that parse a body. *)
Definition on_error (err : Err) : M Response :=
  match err with
  | ZodError issues =>
      ret (json_error 400 (join ", " (map (issue_message L) issues)))
  | _ =>
      ret (mkResponse 500 (JObj [("error", JStr "Server error");
                                 ("details", JStr (errMessage L err))]))
  end.

(** The [catch] of the other handlers. *)
Definition on_fault (err : Err) : M Response :=
  ret (mkResponse 500 (JObj [("error", JStr "Server error");
                             ("details", JStr (errMessage L err))])).

(** ** Seed data *)

Definition seedDoctors : list (ObjectId -> Doctor) :=
  [ (fun id => new_doctor id "Dr. Sarah Johnson" "Cardiology"
       (Some (48 # 10)%Q) (Some (245 # 1)%Q) (Some "Downtown Medical Center")
       (Some "Mon-Fri 9AM-5PM") (Some "$100")
       (Some "https://placehold.co/600x400/007bff/ffffff?text=Dr+Sarah"));
    (fun id => new_doctor id "Dr. Michael Chen" "Dermatology"
       (Some (49 # 10)%Q) (Some (312 # 1)%Q) (Some "Skin Care Clinic")
       (Some "Mon-Sat 10AM-6PM") (Some "$80")
       (Some "https://placehold.co/600x400/28a745/ffffff?text=Dr+Michael"));
    (fun id => new_doctor id "Dr. Emily Rodriguez" "Pediatrics"
       (Some (47 # 10)%Q) (Some (189 # 1)%Q) (Some "Children's Hospital")
       (Some "Tue-Thu 8AM-4PM") (Some "$90")
       (Some "https://placehold.co/600x400/ffc107/ffffff?text=Dr+Emily"));
    (fun id => new_doctor id "Dr. James Wilson" "Orthopedics"
       (Some (46 # 10)%Q) (Some (278 # 1)%Q) (Some "Sports Medicine Center")
       (Some "Mon-Fri 9AM-5PM") (Some "$120")
       (Some "https://placehold.co/600x400/17a2b8/ffffff?text=Dr+James"));
    (fun id => new_doctor id "Dr. Lisa Anderson" "Neurology"
       (Some (49 # 10)%Q) (Some (156 # 1)%Q) (Some "Neurological Institute")
       (Some "Wed-Fri 1PM-7PM") (Some "$110")
       (Some "https://placehold.co/600x400/6610f2/ffffff?text=Dr+Lisa")) ].

(** [seedData]: the fifth fresh id goes to the administrator. *)
Definition seedData (se : SeedEnv) : M unit :=
  try_catch
    (docCount <- Doctor_count ;;
     (if (docCount =? 0)%nat
      then Doctor_insertMany se seedDoctors
      else ret tt) ;;
     userCount <- User_count ;;
     if (userCount =? 0)%nat then
       let hashed := bcrypt_hash "admin123" 10 (s_salt se) in
       User_create (seed_env se 5) "Admin" "admin@medicare.com"
         "9999999999" hashed (Some admin) ;;
       ret tt
     else ret tt)
    (fun _ => ret tt).

(** ** Routes *)

(** [GET /api/ping] *)
Definition get_ping (env : Env) : M Response :=
  ret (mkResponse 200 (JObj [("ok", JBool true); ("time", JDate (now env))])).

(** [POST /api/auth/register] *)
Definition post_auth_register (env : Env) (b : RegisterBody) : M Response :=
  try_catch
    (parsed <- lift (registerSchema b) ;;
     exists_ <- User_findOne (rd_email parsed) ;;
     match exists_ with
     | Some _ => ret (json_error 400 "Email already registered")
     | None =>
         let hashed := bcrypt_hash (rd_password parsed) 10 (salt env) in
         user <- User_create env (rd_name parsed) (rd_email parsed)
                   (rd_phone parsed) hashed None ;;
         let tokens := generateTokens env user in
         ret (mkResponse 200
                (JObj [("message", JStr "Registered");
                       ("user", JObj [("id", JStr (u_id user));
                                      ("name", JStr (u_name user));
                                      ("email", JStr (u_email user))]);
                       ("accessToken", JTok (fst tokens));
                       ("refreshToken", JTok (snd tokens))]))
     end)
    on_error.

(** [POST /api/auth/login] *)
Definition post_auth_login (env : Env) (b : LoginBody) : M Response :=
  try_catch
    (parsed <- lift (loginSchema b) ;;
     found <- User_findOne (ld_email parsed) ;;
     match found with
     | None => ret (json_error 401 "Invalid credentials")
     | Some user =>
         if negb (bcrypt_compare (ld_password parsed) (u_password user))
         then ret (json_error 401 "Invalid credentials")
         else
           let tokens := generateTokens env user in
           ret (mkResponse 200
                  (JObj [("message", JStr "Logged in");
                         ("user", JObj [("id", JStr (u_id user));
                                        ("name", JStr (u_name user));
                                        ("email", JStr (u_email user));
                                        ("role", JStr (role_string (u_role user)))]);
                         ("accessToken", JTok (fst tokens));
                         ("refreshToken", JTok (snd tokens))]))
     end)
    on_error.

(** [POST /api/auth/refresh] *)
Definition post_auth_refresh (env : Env) (refreshToken : option Token)
  : M Response :=
  match refreshToken with
  | Some token =>
      if negb (token_truthy refreshToken)
      then ret (json_error 400 "No refresh token provided")
      else
        match jwt_verify token (JWT_REFRESH_SECRET L) (now env) with
        | None => ret (json_error 403 "Invalid refresh token")
        | Some payload =>
            let accessToken :=
              jwt_sign (mkClaims (c_id payload) (c_role payload))
                (JWT_SECRET L) minutes_15 (now env) in
            ret (mkResponse 200 (JObj [("accessToken", JTok accessToken)]))
        end
  | None => ret (json_error 400 "No refresh token provided")
  end.

(** [GET /api/doctors] *)
Definition get_doctors (specialty search : option json) : M Response :=
  try_catch
    (let q := mkDoctorQuery
                (if js_truthy specialty then specialty else None)
                (if js_truthy search then search else None) in
     docs <- Doctor_find L q ;;
     ret (mkResponse 200
            (JArr (map (fun d => deselect "__v" (doctor_doc d)) docs))))
    on_fault.

(** [POST /api/admin/doctors] *)
Definition post_admin_doctors (env : Env) (auth : Authorization)
    (b : DoctorBody) : M Response :=
  authenticate env auth (fun user => adminOnly user (
    try_catch
      (if negb (js_truthy (db_name b)) || negb (js_truthy (db_specialty b))
       then ret (json_error 400 "name & specialty required")
       else
         d <- Doctor_create L env (db_name b) (db_specialty b) (db_rating b)
                (db_reviews b) (db_location b) (db_availability b)
                (db_fee b) (db_image b) ;;
         ret (mkResponse 200 (doctor_doc d)))
      on_fault)).

(** [POST /api/appointments] *)
Definition post_appointments (env : Env) (auth : Authorization)
    (b : AppointmentBody) : M Response :=
  authenticate env auth (fun user =>
    try_catch
      (parsed <- lift (appointmentZ b) ;;
       found <- Doctor_findById L (ad_doctorId parsed) ;;
       match found with
       | None => ret (json_error 404 "Doctor not found")
       | Some doctor =>
           let appointmentDate := parseDate L (ad_date parsed ++ "T00:00:00") in
           found_patient <- User_findById (c_id user) ;;
           match found_patient with
           | None => ret (json_error 404 "Patient not found")
           | Some patient_ =>
               appointment <-
                 Appointment_create env (d_id doctor) (d_name doctor)
                   (d_specialty doctor) (u_id patient_) (u_name patient_)
                   appointmentDate (ad_time parsed) (ad_symptoms parsed)
                   (ad_phone parsed) (Some confirmed) ;;
               ret (mkResponse 200
                      (JObj [("message", JStr "Appointment booked");
                             ("appointment", appointment_doc appointment)]))
           end
       end)
      on_error).

Definition later (a b : Appointment) : bool :=
  (a_date b <? a_date a)%Z
  || ((a_date a =? a_date b)%Z && (a_createdAt b <? a_createdAt a)%Z).

(** [GET /api/appointments] *)
Definition get_appointments (env : Env) (auth : Authorization) : M Response :=
  authenticate env auth (fun user =>
    try_catch
      (appts <- Appointment_find_patient (c_id user) ;;
       call (DbRead Doctors) ;;
       db <- read_db ;;
       ret (mkResponse 200
              (JArr (map (fun a =>
                            appointment_doc_with
                              (populated_doctor ["name"; "specialty"; "image"] db a)
                              (JStr (a_patient a)) a)
                       (sort_desc later appts)))))
      on_fault).

Definition cancel (a : Appointment) : Appointment :=
  mkAppointment (a_id a) (a_doctor a) (a_doctorName a) (a_specialty a)
    (a_patient a) (a_patientName a) (a_date a) (a_time a) (a_symptoms a)
    (a_phone a) cancelled (a_createdAt a).

(** [PATCH /api/appointments/:id/cancel] *)
Definition patch_appointments_cancel (env : Env) (auth : Authorization)
    (id : string) : M Response :=
  authenticate env auth (fun user =>
    try_catch
      (found <- Appointment_findById L id ;;
       match found with
       | None => ret (json_error 404 "Appointment not found")
       | Some appt =>
           if negb (a_patient appt =? c_id user) && negb (is_admin user)
           then ret (json_error 403 "Not allowed")
           else
             let appt' := cancel appt in
             Appointment_save appt' ;;
             ret (mkResponse 200
                    (JObj [("message", JStr "Appointment cancelled");
                           ("appointment", appointment_doc appt')]))
       end)
      on_fault).

(** [GET /api/admin/stats] *)
Definition get_admin_stats (env : Env) (auth : Authorization) : M Response :=
  authenticate env auth (fun user => adminOnly user (
    try_catch
      (totalUsers <- User_count_patients ;;
       totalAppointments <- Appointment_count ;;
       totalDoctors <- Doctor_count ;;
       ret (mkResponse 200
              (JObj [("totalUsers", JNum (Z.of_nat totalUsers # 1));
                     ("totalAppointments", JNum (Z.of_nat totalAppointments # 1));
                     ("totalDoctors", JNum (Z.of_nat totalDoctors # 1))])))
      on_fault)).

(** [GET /api/admin/appointments] *)
Definition get_admin_appointments (env : Env) (auth : Authorization)
  : M Response :=
  authenticate env auth (fun user => adminOnly user (
    try_catch
      (appts <- Appointment_find_all ;;
       call (DbRead Doctors) ;;
       call (DbRead Users) ;;
       db <- read_db ;;
       ret (mkResponse 200
              (JArr (map (fun a =>
                            appointment_doc_with
                              (populated_doctor ["name"; "specialty"] db a)
                              (populated_patient ["name"; "email"; "phone"] db a)
                              a)
                       (sort_desc (fun a b => (a_createdAt b <? a_createdAt a)%Z)
                          appts)))))
      on_fault)).

(** [GET /api/admin/users] *)
Definition get_admin_users (env : Env) (auth : Authorization) : M Response :=
  authenticate env auth (fun user => adminOnly user (
    try_catch
      (found <- User_find_patients ;;
       ret (mkResponse 200
              (JArr (map (fun u => deselect "password" (user_doc u))
                       (sort_desc (fun a b => (u_joinDate b <? u_joinDate a)%Z)
                          found)))))
      on_fault)).

(** [POST /api/feedback] *)
Definition post_feedback (env : Env) (b : FeedbackBody) : M Response :=
  try_catch
    (if negb (js_truthy (fb_rating b)) || negb (js_truthy (fb_comment b))
     then ret (json_error 400 "rating and comment required")
     else
       fb <- Feedback_create L env false (fb_patient b) (fb_doctor b)
               (fb_rating b) (fb_comment b) ;;
       ret (mkResponse 200 (feedback_doc fb)))
    on_fault.

(** [GET /api/feedback] *)
Definition get_feedback : M Response :=
  try_catch
    (all <- Feedback_find_all ;;
     ret (mkResponse 200
            (JArr (map feedback_doc
                     (sort_desc (fun a b => (f_date b <? f_date a)%Z) all)))))
    on_fault.

(** ** The server: one request, or the seeding at start-up *)

Inductive Request : Type :=
| Ping
| Register (b : RegisterBody)
| Login (b : LoginBody)
| Refresh (refreshToken : option Token)
| ListDoctors (specialty search : option json)
| CreateDoctor (auth : Authorization) (b : DoctorBody)
| Book (auth : Authorization) (b : AppointmentBody)
| MyAppointments (auth : Authorization)
| Cancel (auth : Authorization) (id : string)
| AdminStats (auth : Authorization)
| AdminAppointments (auth : Authorization)
| AdminUsers (auth : Authorization)
| PostFeedback (b : FeedbackBody)
| GetFeedback.

Definition handle (env : Env) (req : Request) : M Response :=
  match req with
  | Ping => get_ping env
  | Register b => post_auth_register env b
  | Login b => post_auth_login env b
  | Refresh t => post_auth_refresh env t
  | ListDoctors specialty search_ => get_doctors specialty search_
  | CreateDoctor auth b => post_admin_doctors env auth b
  | Book auth b => post_appointments env auth b
  | MyAppointments auth => get_appointments env auth
  | Cancel auth id => patch_appointments_cancel env auth id
  | AdminStats auth => get_admin_stats env auth
  | AdminAppointments auth => get_admin_appointments env auth
  | AdminUsers auth => get_admin_users env auth
  | PostFeedback b => post_feedback env b
  | GetFeedback => get_feedback
  end.

Inductive Event : Type :=
| Seed (se : SeedEnv)
| Handle (env : Env) (req : Request).

Definition step (db : DB) (ev : Event) : DB :=
  match ev with
  | Seed se => snd (fst (seedData se db []))
  | Handle env req => db_after (handle env req) db
  end.

(** The databases the server can reach from the empty one. *)
Inductive reachable : DB -> Prop :=
| reach_empty : reachable empty_db
| reach_step db ev : reachable db -> reachable (step db ev).

End Handlers.
End V1.

(* ================================================================= *)
(** * The second variant of [server.js] *)

Module V2.
Section Handlers.

Variable L : Runtime.

(** ** Zod schemas *)

Definition registerSchema (b : RegisterBody) : Err + RegisterData :=
  let shape :=
    (z_string L "name" [z_min 2] (rb_name b)
     ++ z_string L "email" [z_email] (rb_email b)
     ++ z_string L "phone" [z_regex re_phone] (rb_phone b)
     ++ z_string L "password" [z_min 6] (rb_password b)
     ++ z_string L "confirmPassword" [] (rb_confirmPassword b))%list in
  match rb_name b, rb_email b, rb_phone b, rb_password b,
        rb_confirmPassword b with
  | Some name, Some email, Some phone, Some password, Some confirm =>
      let issues :=
        (shape ++ if password =? confirm then []
                  else [custom "Passwords don't match"])%list in
      match issues with
      | [] => inr (mkRegisterData name email phone password)
      | _ :: _ => inl (ZodError issues)
      end
  | _, _, _, _, _ => inl (ZodError shape)
  end.

Definition loginSchema (b : LoginBody) : Err + LoginData :=
  let issues :=
    (z_string L "email" [z_email] (lb_email b)
     ++ z_string L "password" [z_min 6] (lb_password b))%list in
  match issues, lb_email b, lb_password b with
  | [], Some email, Some password => inr (mkLoginData email password)
  | _, _, _ => inl (ZodError issues)
  end.

Definition appointmentSchema (b : AppointmentBody) : Err + AppointmentData :=
  let issues :=
    (z_string L "doctorId" [z_length 24] (ab_doctorId b)
     ++ z_string L "date" [z_regex re_date] (ab_date b)
     ++ z_string L "time" [z_regex re_time] (ab_time b)
     ++ z_string L "symptoms" [z_min 10] (ab_symptoms b)
     ++ z_string L "phone" [z_regex re_phone] (ab_phone b))%list in
  match issues, ab_doctorId b, ab_date b, ab_time b, ab_symptoms b,
        ab_phone b with
  | [], Some doctorId, Some date, Some time, Some symptoms, Some phone =>
      inr (mkAppointmentData doctorId date time symptoms phone)
  | _, _, _, _, _, _ => inl (ZodError issues)
  end.

(** ** JWT helpers and middleware *)

(** [generateTokens(user)]: the access token carries [{ id, role }], the
    refresh token [{ id }] alone. *)
Definition generateTokens (env : Env) (id : ObjectId) (role : option Role)
  : Token * Token :=
  (jwt_sign (mkClaims id role) (JWT_SECRET L) minutes_15 (now env),
   jwt_sign (mkClaims id None) (JWT_REFRESH_SECRET L) days_7 (now env)).

Definition authenticate (env : Env) (auth : Authorization)
    (next : Claims -> M Response) : M Response :=
  match auth with
  | Bearer token =>
      match jwt_verify token (JWT_SECRET L) (now env) with
      | Some payload => next payload
      | None => ret (json_error 401 "Invalid or expired token")
      end
  | NoHeader | NotBearer _ => ret (json_error 401 "Access denied")
  end.

Definition is_admin (user : Claims) : bool :=
  match c_role user with
  | Some admin => true
  | _ => false
  end.

Definition adminOnly (user : Claims) (next : M Response) : M Response :=
  if is_admin user then next
  else ret (json_error 403 "Admin access required").

(** [err.errors?.[0]?.message || fallback] *)
Definition first_message (err : Err) (fallback : string) : string :=
  match err with
  | ZodError (i :: _) =>
      if issue_message L i =? "" then fallback else issue_message L i
  | _ => fallback
  end.

(** ** Seed data *)

Definition doctors_seed : list (ObjectId -> Doctor) :=
  [ (fun id => new_doctor id "Dr. Sarah Johnson" "Cardiology"
       (Some (48 # 10)%Q) (Some (245 # 1)%Q) (Some "Downtown Medical Center")
       (Some "Mon-Fri 9AM-5PM") (Some "$100")
       (Some "https://placehold.co/600x400/007bff/ffffff?text=Dr+Johnson"));
    (fun id => new_doctor id "Dr. Michael Chen" "Dermatology"
       (Some (49 # 10)%Q) (Some (312 # 1)%Q) (Some "Skin Care Clinic")
       (Some "Mon-Sat 10AM-6PM") (Some "$80")
       (Some "https://placehold.co/600x400/28a745/ffffff?text=Dr+Chen")) ].

(** [seedData]: the second fresh id goes to the administrator. *)
Definition seedData (se : SeedEnv) : M unit :=
  docCount <- Doctor_count ;;
  (if (docCount =? 0)%nat then Doctor_insertMany se doctors_seed
   else ret tt) ;;
  userCount <- User_count ;;
  if (userCount =? 0)%nat then
    let hashed := bcrypt_hash "admin123" 10 (s_salt se) in
    User_create (seed_env se 2) "Admin" "admin@medicare.com"
      "9999999999" hashed (Some admin) ;;
    ret tt
  else ret tt.

(** ** Routes *)

Definition user_summary (user : User) : json :=
  JObj [("id", JStr (u_id user)); ("name", JStr (u_name user));
        ("email", JStr (u_email user));
        ("role", JStr (role_string (u_role user)))].

(** [POST /api/auth/register] *)
Definition post_auth_register (env : Env) (b : RegisterBody) : M Response :=
  try_catch
    (data <- lift (registerSchema b) ;;
     exists_ <- User_findOne (rd_email data) ;;
     match exists_ with
     | Some _ => ret (json_error 400 "Email already exists")
     | None =>
         let hashed := bcrypt_hash (rd_password data) 10 (salt env) in
         user <- User_create env (rd_name data) (rd_email data)
                   (rd_phone data) hashed None ;;
         let tokens := generateTokens env (u_id user) (Some (u_role user)) in
         ret (mkResponse 200
                (JObj [("message", JStr "Registered successfully");
                       ("accessToken", JTok (fst tokens));
                       ("refreshToken", JTok (snd tokens));
                       ("user", user_summary user)]))
     end)
    (fun err => ret (json_error 400 (first_message err (errMessage L err)))).

(** [POST /api/auth/login] *)
Definition post_auth_login (env : Env) (b : LoginBody) : M Response :=
  try_catch
    (parsed <- lift (loginSchema b) ;;
     found <- User_findOne (ld_email parsed) ;;
     match found with
     | None => ret (json_error 401 "Invalid credentials")
     | Some user =>
         if negb (bcrypt_compare (ld_password parsed) (u_password user))
         then ret (json_error 401 "Invalid credentials")
         else
           let tokens := generateTokens env (u_id user) (Some (u_role user)) in
           ret (mkResponse 200
                  (JObj [("accessToken", JTok (fst tokens));
                         ("refreshToken", JTok (snd tokens));
                         ("user", user_summary user)]))
     end)
    (fun err => ret (json_error 400 (first_message err "Invalid input"))).

(** [POST /api/auth/refresh] *)
Definition post_auth_refresh (env : Env) (token : option Token)
  : M Response :=
  match token with
  | Some t =>
      if negb (token_truthy token) then ret (json_error 401 "No token")
      else
        match jwt_verify t (JWT_REFRESH_SECRET L) (now env) with
        | None => ret (json_error 403 "Invalid refresh token")
        | Some user =>
            let tokens := generateTokens env (c_id user) (c_role user) in
            ret (mkResponse 200 (JObj [("accessToken", JTok (fst tokens))]))
        end
  | None => ret (json_error 401 "No token")
  end.

(** [GET /api/doctors] *)
Definition get_doctors (specialty search : option json) : M Response :=
  let query := mkDoctorQuery
                 (if js_truthy specialty then specialty else None)
                 (if js_truthy search then search else None) in
  found <- Doctor_find L query ;;
  ret (mkResponse 200
         (JArr (map (fun d => deselect "__v" (doctor_doc d)) found))).

(** [POST /api/appointments] *)
Definition post_appointments (env : Env) (auth : Authorization)
    (b : AppointmentBody) : M Response :=
  authenticate env auth (fun user =>
    try_catch
      (data <- lift (appointmentSchema b) ;;
       found <- Doctor_findById L (ad_doctorId data) ;;
       match found with
       | None => ret (json_error 404 "Doctor not found")
       | Some doctor =>
           found_patient <- User_findById (c_id user) ;;
           match found_patient with
           | None => throw TypeError
           | Some patient_ =>
               appointment <-
                 Appointment_create env (d_id doctor) (d_name doctor)
                   (d_specialty doctor) (c_id user) (u_name patient_)
                   (parseDate L (ad_date data)) (ad_time data)
                   (ad_symptoms data) (ad_phone data) None ;;
               ret (mkResponse 200
                      (JObj [("message", JStr "Appointment booked");
                             ("appointment", appointment_doc appointment)]))
           end
       end)
      (fun err => ret (json_error 400 (first_message err (errMessage L err))))).

(** [GET /api/appointments] *)
Definition get_appointments (env : Env) (auth : Authorization) : M Response :=
  authenticate env auth (fun user =>
    appts <- Appointment_find_patient (c_id user) ;;
    call (DbRead Doctors) ;;
    db <- read_db ;;
    ret (mkResponse 200
           (JArr (map (fun a =>
                         appointment_doc_with
                           (populated_doctor ["name"; "specialty"] db a)
                           (JStr (a_patient a)) a)
                    (sort_desc (fun a b => (a_date b <? a_date a)%Z) appts))))).

(** [app.use('/api/admin', authenticate, adminOnly)] *)
Definition admin_route (env : Env) (auth : Authorization)
    (handler : M Response) : M Response :=
  authenticate env auth (fun user => adminOnly user handler).

(** [GET /api/admin/stats] *)
Definition get_admin_stats : M Response :=
  totalUsers <- User_count_patients ;;
  totalAppointments <- Appointment_count ;;
  totalDoctors <- Doctor_count ;;
  ret (mkResponse 200
         (JObj [("totalUsers", JNum (Z.of_nat totalUsers # 1));
                ("totalAppointments", JNum (Z.of_nat totalAppointments # 1));
                ("totalDoctors", JNum (Z.of_nat totalDoctors # 1))])).

(** [GET /api/admin/appointments] *)
Definition get_admin_appointments : M Response :=
  appts <- Appointment_find_all ;;
  call (DbRead Doctors) ;;
  call (DbRead Users) ;;
  db <- read_db ;;
  ret (mkResponse 200
         (JArr (map (fun a =>
                       appointment_doc_with
                         (populated_doctor ["name"] db a)
                         (populated_patient ["name"; "email"] db a) a)
                  (sort_desc (fun a b => (a_createdAt b <? a_createdAt a)%Z)
                     appts)))).

(** [GET /api/admin/users] *)
Definition get_admin_users : M Response :=
  found <- User_find_patients ;;
  ret (mkResponse 200
         (JArr (map (fun u => deselect "password" (user_doc u)) found))).

(** [GET /api/admin/feedback] *)
Definition get_admin_feedback : M Response :=
  all <- Feedback_find_all ;;
  ret (mkResponse 200
         (JArr (map feedback_doc
                  (sort_desc (fun a b => (f_date b <? f_date a)%Z) all)))).

(** [POST /api/feedback] *)
Definition post_feedback (env : Env) (b : FeedbackBody) : M Response :=
  fb <- Feedback_create L env true (fb_patient b) (fb_doctor b)
          (fb_rating b) (fb_comment b) ;;
  ret (mkResponse 200 (feedback_doc fb)).

(** ** The server *)

Inductive Request : Type :=
| Register (b : RegisterBody)
| Login (b : LoginBody)
| Refresh (token : option Token)
| ListDoctors (specialty search : option json)
| Book (auth : Authorization) (b : AppointmentBody)
| MyAppointments (auth : Authorization)
| AdminStats (auth : Authorization)
| AdminAppointments (auth : Authorization)
| AdminUsers (auth : Authorization)
| AdminFeedback (auth : Authorization)
| PostFeedback (b : FeedbackBody).

Definition handle (env : Env) (req : Request) : M Response :=
  match req with
  | Register b => post_auth_register env b
  | Login b => post_auth_login env b
  | Refresh t => post_auth_refresh env t
  | ListDoctors specialty search_ => get_doctors specialty search_
  | Book auth b => post_appointments env auth b
  | MyAppointments auth => get_appointments env auth
  | AdminStats auth => admin_route env auth get_admin_stats
  | AdminAppointments auth => admin_route env auth get_admin_appointments
  | AdminUsers auth => admin_route env auth get_admin_users
  | AdminFeedback auth => admin_route env auth get_admin_feedback
  | PostFeedback b => post_feedback env b
  end.

Inductive Event : Type :=
| Seed (se : SeedEnv)
| Handle (env : Env) (req : Request).

Definition step (db : DB) (ev : Event) : DB :=
  match ev with
  | Seed se => snd (fst (seedData se db []))
  | Handle env req => db_after (handle env req) db
  end.

Inductive reachable : DB -> Prop :=
| reach_empty : reachable empty_db
| reach_step db ev : reachable db -> reachable (step db ev).

End Handlers.
End V2.

(* ================================================================= *)
(** * Observations on a run, and the readings the statements use *)

Definition has_status (code : nat) (o : Outcome) : bool :=
  match o with
  | Sent r => (status r =? code)%nat
  | Unhandled _ => false
  end.

Definition no_write (tr : list DbOp) : bool :=
  forallb (fun op => negb (is_write op)) tr.

(** Some user holds the e-mail, compared the way the [email] path stores
    and queries it. *)
Definition email_taken (db : DB) (email : string) : bool :=
  existsb (fun u => u_email u =? toLowerCase email) (users db).

(** Why a login with well-formed credentials fails, when it does. *)
Inductive LoginFailure : Type := NoSuchUser | WrongPassword.

Definition login_failure (db : DB) (d : LoginData) : option LoginFailure :=
  match find (fun u => u_email u =? toLowerCase (ld_email d)) (users db) with
  | None => Some NoSuchUser
  | Some u =>
      if bcrypt_compare (ld_password d) (u_password u) then None
      else Some WrongPassword
  end.

Definition invalid_credentials : Outcome :=
  Sent (json_error 401 "Invalid credentials").

(** May the caller cancel the appointment?  The owning patient and an
    administrator may. *)
Definition may_cancel (user : Claims) (appt : Appointment) : bool :=
  (a_patient appt =? c_id user) || V1.is_admin user.

Definition cancelled_response (appt : Appointment) : Outcome :=
  Sent (mkResponse 200
          (JObj [("message", JStr "Appointment cancelled");
                 ("appointment", appointment_doc (V1.cancel appt))])).

(** The response of a booking that went through. *)
Definition booked_response (a : Appointment) : Response :=
  mkResponse 200
    (JObj [("message", JStr "Appointment booked");
           ("appointment", appointment_doc a)]).

(** The doctor a booking body refers to, if any. *)
Definition referred_doctor (L : Runtime) (db : DB) (b : AppointmentBody)
  : option Doctor :=
  match ab_doctorId b with
  | Some s =>
      match castObjectId L s with
      | Some id => find (fun d => d_id d =? id) (doctors db)
      | None => None
      end
  | None => None
  end.

(** A body field is present and passes a test. *)
Definition field_ok (test : string -> bool) (v : option string) : bool :=
  match v with
  | Some s => test s
  | None => false
  end.

(** Did [parse] return a value? *)
Definition accepted {A : Type} (r : Err + A) : bool :=
  match r with
  | inr _ => true
  | inl _ => false
  end.

(** The constraints [appointmentZ] puts on a booking body. *)
Definition V1_booking_constraints (b : AppointmentBody) : bool :=
  field_ok (fun s => (len s =? 24)%nat) (ab_doctorId b)
  && field_ok re_date (ab_date b)
  && field_ok (fun s => (3 <=? len s)%nat) (ab_time b)
  && field_ok (fun s => (5 <=? len s)%nat) (ab_symptoms b)
  && field_ok (fun s => (6 <=? len s)%nat) (ab_phone b).

(** The constraints [appointmentSchema] puts on a booking body. *)
Definition V2_booking_constraints (b : AppointmentBody) : bool :=
  field_ok (fun s => (len s =? 24)%nat) (ab_doctorId b)
  && field_ok re_date (ab_date b)
  && field_ok re_time (ab_time b)
  && field_ok (fun s => (10 <=? len s)%nat) (ab_symptoms b)
  && field_ok re_phone (ab_phone b).

Definition access_response (t : Token) : Outcome :=
  Sent (mkResponse 200 (JObj [("accessToken", JTok t)])).

(** The pattern that reads [p] character by character. *)
Fixpoint literal (p : string) : regex :=
  match p with
  | EmptyString => Empty
  | String c p' => Seq (Chr c) (literal p')
  end.

(** The specialty condition of a listing: an absent or empty parameter
    puts none. *)
Definition specialty_wanted (specialty : option string) (d : Doctor) : bool :=
  match specialty with
  | Some sp => (sp =? "") || (d_specialty d =? sp)
  | None => true
  end.

(** The listing under the reading of [search] as a literal substring,
    compared without regard to case. *)
Definition literal_listing (L : Runtime) (specialty search : option string)
    (db : DB) : list Doctor :=
  filter (fun d =>
            specialty_wanted specialty d
            && match search with
               | Some s => ci_contains L s (d_name d)
               | None => true
               end)
    (doctors db).

Definition not_line_feed (c : ascii) : bool := negb (Ascii.eqb c line_feed).

(** The listing [search = "."] gives: the doctors whose name has a
    character other than a line feed. *)
Definition dot_listing (specialty : option string) (db : DB) : list Doctor :=
  filter (fun d =>
            specialty_wanted specialty d
            && string_exists not_line_feed (d_name d))
    (doctors db).

Definition listing_response (l : list Doctor) : Outcome :=
  Sent (mkResponse 200 (JArr (map (fun d => deselect "__v" (doctor_doc d)) l))).

(** No search parameter, or one of ordinary characters: no PCRE
    metacharacter, no NUL. *)
Definition plain_search (search : option string) : bool :=
  match search with
  | Some s => negb (string_exists metachar s)
  | None => true
  end.





(** Every stored password is a bcrypt digest. *)
Definition all_hashed (db : DB) : Prop :=
  forallb (fun u => is_hashed (u_password u)) (users db) = true.

(** No two users have the same e-mail. *)
Definition emails_unique (db : DB) : Prop := NoDup (map u_email (users db)).

Definition users_ok (db : DB) : Prop := all_hashed db /\ emails_unique db.

(** A computation that keeps an invariant of the database, whether it
    returns or throws. *)
Definition keeps (I : DB -> Prop) {A : Type} (m : M A) : Prop :=
  forall db tr, I db -> I (snd (fst (m db tr))).



(* ================================================================= *)
(** * Sample data: a runtime, environments, documents, requests *)

(** The one filter with an operator the sample server is asked:
    [{ specialty: { $ne: s } }]. *)
Definition sample_filter (q : json) : Err + (Doctor -> bool) :=
  match q with
  | JObj [(path, JObj [(op, JStr s)])] =>
      if (path =? "specialty") && (op =? "$ne")
      then inr (fun d => negb (d_specialty d =? s))
      else inl (CastError path)
  | _ => inl (CastError "specialty")
  end.

(** The casts the sample server is asked: the number [7] and a boolean
    to a string, the string ['5'] and a boolean to a number. *)
Definition sample_string (v : json) : option string :=
  match v with
  | JNum q => if Qeq_bool q 7 then Some "7" else None
  | JBool b => Some (if b then "true" else "false")
  | _ => None
  end.

Definition sample_number (v : json) : option (option Q) :=
  match v with
  | JStr s => if s =? "5" then Some (Some 5%Q) else None
  | JBool b => Some (Some (if b then 1%Q else 0%Q))
  | _ => None
  end.

Definition sample_runtime : Runtime :=
  mkRuntime (string_exists (is_char "@")) (fun _ => "Invalid input")
    (fun s => if re_date (substring 0 10 s) then Some 1748736000000%Z else None)
    (fun _ => "error") (fun _ => None) (fun _ => None)
    Ascii.eqb sample_filter sample_string sample_number
    "supersecret_access" "supersecret_refresh".

Definition oid (last : string) : ObjectId := "64b7f0c2a1d3e4f5a6b7c8" ++ last.

Definition sample_env : Env := mkEnv 1750000000000 (oid "01") "salt-1".
Definition later_env : Env := mkEnv 1750000060000 (oid "02") "salt-2".

Definition alice_body : RegisterBody :=
  mkRegisterBody (Some "Alice") (Some "a@x.com") (Some "1234567890")
    (Some "secret1") (Some "secret1").

Definition alice : User :=
  mkUser (oid "a1") "Alice" "a@x.com" "1234567890"
    (Bcrypt 10 "salt-0" "secret1") patient 1740000000000 true.

Definition root : User :=
  mkUser (oid "a0") "Admin" "admin@medicare.com" "9999999999"
    (Bcrypt 10 "salt-0" "admin123") admin 1740000000000 true.

Definition sarah : Doctor :=
  new_doctor (oid "d1") "Dr. Sarah Johnson" "Cardiology" (Some (48 # 10)%Q)
    (Some (245 # 1)%Q) (Some "Downtown Medical Center")
    (Some "Mon-Fri 9AM-5PM") (Some "$100") None.

Definition amy : Doctor :=
  new_doctor (oid "d2") "Amy" "Pediatrics" None None None None None None.

Definition sample_db : DB := mkDB [root; alice] [sarah; amy] [] [].

(** An access token of [u], as either variant signs it at [sample_env]. *)
Definition access_token (u : User) : Token :=
  jwt_sign (mkClaims (u_id u) (Some (u_role u))) (JWT_SECRET sample_runtime)
    minutes_15 (now sample_env).

Definition booking_body : AppointmentBody :=
  mkAppointmentBody (Some (oid "d1")) (Some "2025-06-01") (Some "09:30")
    (Some "fever for 3 days") (Some "9999999999").

(** An appointment booked by [alice] with [sarah], and a database holding it. *)
Definition visit : Appointment :=
  mkAppointment (oid "b1") (oid "d1") "Dr. Sarah Johnson" "Cardiology"
    (oid "a1") "Alice" 1748736000000 "09:30" "fever for 3 days" "9999999999"
    confirmed 1749000000000.

Definition bob : User :=
  mkUser (oid "a2") "Bob" "b@x.com" "1234567891"
    (Bcrypt 10 "salt-0" "secret2") patient 1740000000000 true.

Definition booked_db : DB := mkDB [root; alice; bob] [sarah; amy] [visit] [].

(** A booking whose time and phone are in no format at all. *)
Definition loose_body : AppointmentBody :=
  mkAppointmentBody (Some (oid "d1")) (Some "2025-06-01") (Some "abc")
    (Some "fever for 3 days") (Some "abcdef").

(** A booking whose doctor id has the wrong length, and one whose doctor
    id has 24 characters that are not hexadecimal digits. *)
Definition short_id_body : AppointmentBody :=
  mkAppointmentBody (Some "abc") (Some "2025-06-01") (Some "09:30")
    (Some "fever for 3 days") (Some "9999999999").

Definition unknown_id_body : AppointmentBody :=
  mkAppointmentBody (Some (oid "ff")) (Some "2025-06-01") (Some "09:30")
    (Some "fever for 3 days") (Some "9999999999").

(** What the second variant stores for [booking_body] sent by [alice]. *)
Definition pending_visit : Appointment :=
  mkAppointment (oid "01") (oid "d1") "Dr. Sarah Johnson" "Cardiology"
    (oid "a1") "Alice" 1748736000000 "09:30" "fever for 3 days" "9999999999"
    pending 1750000000000.

(** A doctor id of 24 characters that are not hexadecimal digits. *)
Definition malformed_id_body : AppointmentBody :=
  mkAppointmentBody (Some "zzzzzzzzzzzzzzzzzzzzzzzz") (Some "2025-06-01")
    (Some "09:30") (Some "fever for 3 days") (Some "9999999999").

(** The token pair the second variant hands [root] at [sample_env], and
    the access token it returns for that refresh token at [later_env]. *)
Definition root_tokens : Token * Token :=
  V2.generateTokens sample_runtime sample_env (u_id root) (Some (u_role root)).

Definition refreshed_token : Token :=
  jwt_sign (mkClaims (u_id root) None) (JWT_SECRET sample_runtime) minutes_15
    (now later_env).

(** A doctor whose name is a single line feed. *)
Definition line_feed_doctor : Doctor :=
  new_doctor (oid "d3") (String line_feed "") "Neurology" None None None None
    None None.

Definition line_feed_db : DB := mkDB [root] [line_feed_doctor] [] [].

Definition sample_seed : SeedEnv :=
  mkSeedEnv 1740000000000 "salt-0"
    (fun n => oid (String (ascii_of_nat (97 + n)) "0")).


Definition registered_alice : User :=
  mkUser (oid "01") "Alice" "a@x.com" "1234567890"
    (Bcrypt 10 "salt-1" "secret1") patient 1750000000000 true.

(** The requests that only read. *)
Definition V1_reads_only (req : V1.Request) : bool :=
  match req with
  | V1.Ping | V1.Login _ | V1.Refresh _ | V1.ListDoctors _ _
  | V1.MyAppointments _ | V1.AdminStats _ | V1.AdminAppointments _
  | V1.AdminUsers _ | V1.GetFeedback => true
  | V1.Register _ | V1.CreateDoctor _ _ | V1.Book _ _ | V1.Cancel _ _
  | V1.PostFeedback _ => false
  end.

Definition V2_reads_only (req : V2.Request) : bool :=
  match req with
  | V2.Login _ | V2.Refresh _ | V2.ListDoctors _ _ | V2.MyAppointments _
  | V2.AdminStats _ | V2.AdminAppointments _ | V2.AdminUsers _
  | V2.AdminFeedback _ => true
  | V2.Register _ | V2.Book _ _ | V2.PostFeedback _ => false
  end.

(** The [Authorization] header of a request to a route behind
    [authenticate]. *)
Definition V1_authorization (req : V1.Request) : option Authorization :=
  match req with
  | V1.CreateDoctor auth _ | V1.Book auth _ | V1.MyAppointments auth
  | V1.Cancel auth _ | V1.AdminStats auth | V1.AdminAppointments auth
  | V1.AdminUsers auth => Some auth
  | _ => None
  end.

Definition V2_authorization (req : V2.Request) : option Authorization :=
  match req with
  | V2.Book auth _ | V2.MyAppointments auth | V2.AdminStats auth
  | V2.AdminAppointments auth | V2.AdminUsers auth | V2.AdminFeedback auth =>
      Some auth
  | _ => None
  end.

(** The routes behind [adminOnly]. *)
Definition V1_admin_route (req : V1.Request) : bool :=
  match req with
  | V1.CreateDoctor _ _ | V1.AdminStats _ | V1.AdminAppointments _
  | V1.AdminUsers _ => true
  | _ => false
  end.

Definition V2_admin_route (req : V2.Request) : bool :=
  match req with
  | V2.AdminStats _ | V2.AdminAppointments _ | V2.AdminUsers _
  | V2.AdminFeedback _ => true
  | _ => false
  end.

(** Does the header carry a token that verifies as an access token? *)
Definition verified (L : Runtime) (env : Env) (auth : Authorization)
  : option Claims :=
  match auth with
  | Bearer token => jwt_verify token (JWT_SECRET L) (now env)
  | NoHeader | NotBearer _ => None
  end.

(** A computation that leaves the database as it was and adds only reads
    to the log. *)
Definition quiet {A : Type} (m : M A) : Prop :=
  forall db tr,
    snd (fst (m db tr)) = db
    /\ exists ext, snd (m db tr) = (tr ++ ext)%list /\ no_write ext = true.

(** A computation that leaves the database as it was when it throws. *)
Definition fails_clean {A : Type} (m : M A) : Prop :=
  forall db tr,
    match fst (fst (m db tr)) with
    | inl _ => snd (fst (m db tr)) = db
    | inr _ => True
    end.

(** A computation that always answers 200. *)
Definition answers_200 (m : M Response) : Prop :=
  forall db tr, exists r, fst (fst (m db tr)) = inr r /\ status r = 200%nat.

(** A handler that leaves the database as it was unless it answers 200. *)
Definition all_or_nothing (m : M Response) : Prop :=
  forall db tr,
    has_status 200 (outcome_of (fst (fst (m db tr)))) = false ->
    snd (fst (m db tr)) = db.

(** The user document a registration stores. *)
Definition registered_user (env : Env) (d : RegisterData) : User :=
  mkUser (fresh env) (trim (rd_name d)) (toLowerCase (rd_email d))
    (rd_phone d) (bcrypt_hash (rd_password d) 10 (salt env)) patient
    (now env) true.

(** What a registration needs beyond the schema: a name that is not all
    white space, an e-mail nobody holds, an ObjectId no user has. *)
Definition can_register (env : Env) (db : DB) (d : RegisterData) : bool :=
  negb (trim (rd_name d) =? "") && negb (rd_email d =? "")
  && negb (email_taken db (rd_email d))
  && negb (id_in (fresh env) (map u_id (users db))).

Definition with_user (db : DB) (u : User) : DB :=
  set_users db (users db ++ [u])%list.

(** The claims the variants sign for a user. *)
Definition claims_of (u : User) : Claims :=
  mkClaims (u_id u) (Some (u_role u)).

(** A registration whose name is three blanks. *)
Definition blank_body : RegisterBody :=
  mkRegisterBody (Some "   ") (Some "b@x.com") (Some "1234567890")
    (Some "secret1") (Some "secret1").

Definition blank_data : RegisterData :=
  mkRegisterData "   " "b@x.com" "1234567890" "secret1".

Definition alice_data : RegisterData :=
  mkRegisterData "Alice" "a@x.com" "1234567890" "secret1".

(** Alice logs in writing her address in capitals. *)
Definition alice_login : LoginBody :=
  mkLoginBody (Some "A@X.COM") (Some "secret1").

Definition alice_login_data : LoginData := mkLoginData "A@X.COM" "secret1".

(** A pass phrase of 72 characters, and a registration and a login whose
    passwords start with it and end differently. *)
Definition pass_phrase : string :=
  "correct horse battery staple, correct horse battery staple, correct hors".

Definition long_body : RegisterBody :=
  mkRegisterBody (Some "Alice") (Some "a@x.com") (Some "1234567890")
    (Some (pass_phrase ++ "e1")) (Some (pass_phrase ++ "e1")).

Definition long_data : RegisterData :=
  mkRegisterData "Alice" "a@x.com" "1234567890" (pass_phrase ++ "e1").

Definition long_login : LoginBody :=
  mkLoginBody (Some "a@x.com") (Some (pass_phrase ++ "e2")).

Definition long_login_data : LoginData :=
  mkLoginData "a@x.com" (pass_phrase ++ "e2").

(** The appointment a booking stores. *)
Definition booked (env : Env) (doctor : Doctor) (patient_ : ObjectId)
    (patientName : string) (d : AppointmentData) (date : Z) (st : Status)
  : Appointment :=
  mkAppointment (fresh env) (d_id doctor) (d_name doctor)
    (d_specialty doctor) patient_ patientName date (ad_time d)
    (ad_symptoms d) (ad_phone d) st (now env).

Definition with_appointment (db : DB) (a : Appointment) : DB :=
  set_appointments db (appointments db ++ [a])%list.

(** The answer of the first variant's [catch] to an error that is not a
    schema error. *)
Definition server_error (L : Runtime) (e : Err) : Response :=
  mkResponse 500 (JObj [("error", JStr "Server error");
                        ("details", JStr (errMessage L e))]).

Definition booking_data : AppointmentData :=
  mkAppointmentData (oid "d1") "2025-06-01" "09:30" "fever for 3 days"
    "9999999999".

(** A runtime whose [Date] knows no thirteenth month. *)
Definition calendar_runtime : Runtime :=
  mkRuntime (isEmail sample_runtime) (zodDefaultMessage sample_runtime)
    (fun s => if substring 5 2 s =? "13" then None
              else parseDate sample_runtime s)
    (errMessage sample_runtime)
    (castOtherId sample_runtime) (pcreOther sample_runtime)
    (caselessOther sample_runtime) (mongoFilter sample_runtime)
    (castOtherString sample_runtime) (castOtherNumber sample_runtime)
    (JWT_SECRET sample_runtime) (JWT_REFRESH_SECRET sample_runtime).

Definition month13_body : AppointmentBody :=
  mkAppointmentBody (Some (oid "d1")) (Some "2025-13-01") (Some "09:30")
    (Some "fever for 3 days") (Some "9999999999").

Definition month13_data : AppointmentData :=
  mkAppointmentData (oid "d1") "2025-13-01" "09:30" "fever for 3 days"
    "9999999999".

(** A database from which [alice] has been deleted by hand. *)
Definition orphan_db : DB := mkDB [root] [sarah; amy] [] [].

Definition malformed_id_data : AppointmentData :=
  mkAppointmentData "zzzzzzzzzzzzzzzzzzzzzzzz" "2025-06-01" "09:30"
    "fever for 3 days" "9999999999".

(** The order of [sort({ date: -1, createdAt: -1 })]: [a] may stand before
    [b]. *)
Definition newest_first (a b : Appointment) : Prop :=
  (a_date b < a_date a)%Z
  \/ (a_date a = a_date b /\ (a_createdAt b <= a_createdAt a)%Z).

(** The order of [sort({ date: -1 })]. *)
Definition latest_date_first (a b : Appointment) : Prop :=
  (a_date b <= a_date a)%Z.

Definition mine (user : Claims) (db : DB) : list Appointment :=
  filter (fun a => a_patient a =? c_id user) (appointments db).

(** What one request can do to the database.  [st] is the status a new
    appointment gets, [cancels] tells whether the variant has the
    cancelling route. *)
Inductive change (st : Status) (cancels : bool) (db : DB) : DB -> Prop :=
| no_change : change st cancels db db
| user_added (u : User) :
    u_role u = patient ->
    id_in (u_id u) (map u_id (users db)) = false ->
    change st cancels db (with_user db u)
| doctor_added (d : Doctor) :
    id_in (d_id d) (map d_id (doctors db)) = false ->
    change st cancels db (set_doctors db (doctors db ++ [d])%list)
| appointment_added (a : Appointment) (doctor : Doctor) (patient_ : User) :
    In doctor (doctors db) -> In patient_ (users db) ->
    a_doctor a = d_id doctor -> a_doctorName a = d_name doctor ->
    a_specialty a = d_specialty doctor ->
    a_patient a = u_id patient_ -> a_patientName a = u_name patient_ ->
    a_status a = st ->
    id_in (a_id a) (map a_id (appointments db)) = false ->
    change st cancels db (with_appointment db a)
| appointment_cancelled (a : Appointment) :
    cancels = true ->
    find (fun b => a_id b =? a_id a) (appointments db) = Some a ->
    change st cancels db
      (set_appointments db
         (replace_appointment (V1.cancel a) (appointments db)))
| feedback_added (f : Feedback) :
    id_in (f_id f) (map f_id (feedbacks db)) = false ->
    change st cancels db (set_feedbacks db (feedbacks db ++ [f])%list).

(** From the database [db0], the computation ends in a database that
    satisfies [P], whether it returns or throws. *)
Definition ends {A : Type} (db0 : DB) (m : M A) (P : DB -> Prop) : Prop :=
  forall tr, P (snd (fst (m db0 tr))).

(** What the seeding can do to the database. *)
Definition seeded_admin (u : User) : Prop :=
  u_role u = admin /\ u_name u = "Admin" /\ u_email u = "admin@medicare.com"
  /\ bcrypt_compare "admin123" (u_password u) = true.

Definition seeded (db db' : DB) : Prop :=
  appointments db' = appointments db
  /\ feedbacks db' = feedbacks db
  /\ (exists ds, doctors db' = (doctors db ++ ds)%list
                 /\ (doctors db <> [] -> ds = []))
  /\ (users db' = users db
      \/ (users db = [] /\ exists u, users db' = [u] /\ seeded_admin u)).

(** Every administrator is the one the seeding creates. *)
Definition admins_seeded (db : DB) : Prop :=
  Forall (fun u => u_role u = admin -> seeded_admin u) (users db).

Definition statuses (ok : Status -> Prop) (db : DB) : Prop :=
  Forall (fun a => ok (a_status a)) (appointments db).

(** The doctor and the patient of an appointment exist, under the names
    the appointment carries. *)
Definition refers (db : DB) (a : Appointment) : Prop :=
  (exists d, In d (doctors db) /\ d_id d = a_doctor a
             /\ d_name d = a_doctorName a /\ d_specialty d = a_specialty a)
  /\ (exists u, In u (users db) /\ u_id u = a_patient a
                /\ u_name u = a_patientName a).

Definition references_ok (db : DB) : Prop :=
  Forall (refers db) (appointments db).

Definition sound (ok : Status -> Prop) (db : DB) : Prop :=
  statuses ok db /\ admins_seeded db /\ references_ok db.

(** What one request does to the collections: nothing, or one document
    added at the end of one collection, or, where the variant has the
    cancelling route, one appointment replaced by its cancelled self, all
    the others in place. *)
Definition only_appends (cancels : bool) (db db' : DB) : Prop :=
  db' = db
  \/ (exists u, db' = set_users db (users db ++ [u])%list)
  \/ (exists d, db' = set_doctors db (doctors db ++ [d])%list)
  \/ (exists a, db' = set_appointments db (appointments db ++ [a])%list)
  \/ (exists f, db' = set_feedbacks db (feedbacks db ++ [f])%list)
  \/ (cancels = true
      /\ exists before a after,
           appointments db = (before ++ a :: after)%list
           /\ db' = set_appointments db
                      (before ++ V1.cancel a :: after)%list).

(** A run of each variant: seeding, the registration of [alice_body], a
    booking by the new user with the first seeded doctor. *)
Definition alice_token : Token :=
  jwt_sign (mkClaims (oid "01") (Some patient))
    (JWT_SECRET sample_runtime) minutes_15 (now later_env).

Definition seeded_booking : AppointmentBody :=
  mkAppointmentBody (Some (oid "a0")) (Some "2025-06-01") (Some "09:30")
    (Some "fever for 3 days") (Some "9999999999").

Definition V1_events : list V1.Event :=
  [V1.Seed sample_seed; V1.Handle sample_env (V1.Register alice_body);
   V1.Handle later_env (V1.Book (Bearer alice_token) seeded_booking)].

Definition V2_events : list V2.Event :=
  [V2.Seed sample_seed; V2.Handle sample_env (V2.Register alice_body);
   V2.Handle later_env (V2.Book (Bearer alice_token) seeded_booking)].

Definition V1_clinic : DB :=
  fold_left (V1.step sample_runtime) V1_events empty_db.
Definition V2_clinic : DB :=
  fold_left (V2.step sample_runtime) V2_events empty_db.


(** The administrator the seeding creates under the [k]-th fresh id. *)
Definition admin_user (se : SeedEnv) (k : nat) : User :=
  mkUser (s_fresh se k) "Admin" "admin@medicare.com" "9999999999"
    (Bcrypt 10 (s_salt se) "admin123") admin (s_now se) true.

(** The documents [insertMany] stores, the [i]-th under the [n + i]-th
    fresh id. *)
Fixpoint seeded_doctors (se : SeedEnv) (n : nat)
    (docs : list (ObjectId -> Doctor)) : list Doctor :=
  match docs with
  | [] => []
  | doc :: rest => doc (s_fresh se n) :: seeded_doctors se (S n) rest
  end.

(** A document of the seed list passes the model's validation and takes
    the id it is given. *)
Definition seedable (doc : ObjectId -> Doctor) : Prop :=
  forall id, d_name (doc id) <> "" /\ d_specialty (doc id) <> ""
             /\ d_id (doc id) = id.

Definition admin_login : LoginBody :=
  mkLoginBody (Some "admin@medicare.com") (Some "admin123").

Definition V1_seeded : DB := snd (fst (V1.seedData sample_seed empty_db [])).


(** A doctor sent without rating or reviews, and feedback bodies. *)
Definition kim_body : DoctorBody :=
  mkDoctorBody (Some (JStr "Dr. Kim")) (Some (JStr "Oncology")) None None None
    None None None.

Definition nameless_body : DoctorBody :=
  mkDoctorBody None (Some (JStr "Oncology")) None None None None None None.

(** A doctor sent with [rating: null] and a location. *)
Definition unrated_body : DoctorBody :=
  mkDoctorBody (Some (JStr "Dr. Lee")) (Some (JStr "Urology")) (Some JNull)
    None (Some (JStr "Pune")) None None None.

Definition praise : FeedbackBody :=
  mkFeedbackBody (Some (JStr "Alice")) (Some (JStr "Dr. Sarah Johnson"))
    (Some (JNum (5 # 1))) (Some (JStr "Very kind")).

Definition six_stars : FeedbackBody :=
  mkFeedbackBody (Some (JStr "Alice")) (Some (JStr "Dr. Sarah Johnson"))
    (Some (JNum (6 # 1))) (Some (JStr "Very kind")).

Definition no_comment : FeedbackBody :=
  mkFeedbackBody (Some (JStr "Alice")) (Some (JStr "Dr. Sarah Johnson"))
    (Some (JNum (5 # 1))) None.

(** Feedback whose rating is the string ['5'] and whose comment is the
    number [7]. *)
Definition loose_praise : FeedbackBody :=
  mkFeedbackBody None None (Some (JStr "5")) (Some (JNum (7 # 1))).


(** The orders of [sort({ createdAt: -1 })] and, on feedback, of
    [sort({ date: -1 })]. *)
Definition latest_created_first (a b : Appointment) : Prop :=
  (a_createdAt b <= a_createdAt a)%Z.

Definition latest_feedback_first (f g : Feedback) : Prop :=
  (f_date g <= f_date f)%Z.

(* ================================================================= *)
(** * Basic facts *)

Lemma find_existsb {A : Type} (f : A -> bool) (l : list A) :
  existsb f l = true -> exists x, find f l = Some x /\ f x = true.
Proof.
  induction l as [|a l IH]; simpl; [discriminate|].
  destruct (f a) eqn:Ha.
  - intros _. exists a. split; [reflexivity | exact Ha].
  - simpl. exact IH.
Qed.

Section SchemaFacts.

Variable L : Runtime.

(** A schema only ever throws a [ZodError]. *)
Lemma V1_registerSchema_inl b e :
  V1.registerSchema L b = inl e -> exists issues, e = ZodError issues.
Proof.
  unfold V1.registerSchema.
  destruct (rb_name b), (rb_email b), (rb_phone b), (rb_password b),
    (rb_confirmPassword b);
    try (intros H; injection H as <-; eauto).
  match goal with |- context [match ?l with [] => _ | _ :: _ => _ end] =>
    destruct l end; intros H; [discriminate | injection H as <-; eauto].
Qed.

Lemma V2_registerSchema_inl b e :
  V2.registerSchema L b = inl e -> exists issues, e = ZodError issues.
Proof.
  unfold V2.registerSchema.
  destruct (rb_name b), (rb_email b), (rb_phone b), (rb_password b),
    (rb_confirmPassword b);
    try (intros H; injection H as <-; eauto).
  match goal with |- context [match ?l with [] => _ | _ :: _ => _ end] =>
    destruct l end; intros H; [discriminate | injection H as <-; eauto].
Qed.

(** What [parse] returns is the body it was given. *)
Lemma V1_registerSchema_inr b d :
  V1.registerSchema L b = inr d ->
  rb_name b = Some (rd_name d) /\ rb_email b = Some (rd_email d)
  /\ rb_phone b = Some (rd_phone d) /\ rb_password b = Some (rd_password d).
Proof.
  unfold V1.registerSchema.
  destruct (rb_name b), (rb_email b), (rb_phone b), (rb_password b),
    (rb_confirmPassword b); try discriminate.
  match goal with |- context [match ?l with [] => _ | _ :: _ => _ end] =>
    destruct l end; intros H; [injection H as <-; auto | discriminate].
Qed.

Lemma V2_registerSchema_inr b d :
  V2.registerSchema L b = inr d ->
  rb_name b = Some (rd_name d) /\ rb_email b = Some (rd_email d)
  /\ rb_phone b = Some (rd_phone d) /\ rb_password b = Some (rd_password d).
Proof.
  unfold V2.registerSchema.
  destruct (rb_name b), (rb_email b), (rb_phone b), (rb_password b),
    (rb_confirmPassword b); try discriminate.
  match goal with |- context [match ?l with [] => _ | _ :: _ => _ end] =>
    destruct l end; intros H; [injection H as <-; auto | discriminate].
Qed.

End SchemaFacts.

(* ================================================================= *)
(** * Registration with an e-mail already in use *)

Section RegisterTaken.

Variable L : Runtime.
Variables (env : Env) (db : DB).

Lemma User_findOne_taken email tr :
  email_taken db email = true ->
  exists u, User_findOne email db tr = (inr (Some u), db, (tr ++ [DbRead Users])%list).
Proof.
  intros H. apply find_existsb in H as (u & Hu & _).
  exists u. unfold User_findOne, bind, call, read_db, ret. now rewrite Hu.
Qed.

Lemma V1_register_taken b d :
  V1.registerSchema L b = inr d ->
  email_taken db (rd_email d) = true ->
  run (V1.post_auth_register L env b) db
  = (Sent (json_error 400 "Email already registered"), db, [DbRead Users]).
Proof.
  intros Hs Ht.
  destruct (User_findOne_taken _ [] Ht) as (u & Hu).
  unfold run, V1.post_auth_register, try_catch, bind, lift.
  rewrite Hs. unfold ret at 1. rewrite Hu. reflexivity.
Qed.

Lemma V2_register_taken b d :
  V2.registerSchema L b = inr d ->
  email_taken db (rd_email d) = true ->
  run (V2.post_auth_register L env b) db
  = (Sent (json_error 400 "Email already exists"), db, [DbRead Users]).
Proof.
  intros Hs Ht.
  destruct (User_findOne_taken _ [] Ht) as (u & Hu).
  unfold run, V2.post_auth_register, try_catch, bind, lift.
  rewrite Hs. unfold ret at 1. rewrite Hu. reflexivity.
Qed.

Lemma V1_register_invalid b issues :
  V1.registerSchema L b = inl (ZodError issues) ->
  run (V1.post_auth_register L env b) db
  = (Sent (json_error 400 (join ", " (map (issue_message L) issues))), db, []).
Proof.
  intros Hs. unfold run, V1.post_auth_register, try_catch, bind, lift.
  rewrite Hs. reflexivity.
Qed.

Lemma V2_register_invalid b issues :
  V2.registerSchema L b = inl (ZodError issues) ->
  run (V2.post_auth_register L env b) db
  = (Sent (json_error 400
             (V2.first_message L (ZodError issues)
                (errMessage L (ZodError issues)))), db, []).
Proof.
  intros Hs. unfold run, V2.post_auth_register, try_catch, bind, lift.
  rewrite Hs. reflexivity.
Qed.

End RegisterTaken.

(** C1, as the code has it.  A registration whose e-mail is already held
    by a user is answered with status 400 in both variants (message
    "Email already registered" / "Email already exists" when the body
    passes the schema, the schema's own message otherwise), the database
    is left as it was and no write is issued, so no second user with that
    e-mail comes into being. *)
Theorem register_taken_email_rejected
    (L : Runtime) (env : Env) (db : DB) (b : RegisterBody) (email : string)
    (Hemail : rb_email b = Some email)
    (Htaken : email_taken db email = true) :
  (has_status 400 (outcome (V1.post_auth_register L env b) db) = true
   /\ db_after (V1.post_auth_register L env b) db = db
   /\ no_write (log_of (V1.post_auth_register L env b) db) = true
   /\ (forall d, V1.registerSchema L b = inr d ->
       outcome (V1.post_auth_register L env b) db
       = Sent (json_error 400 "Email already registered")))
  /\
  (has_status 400 (outcome (V2.post_auth_register L env b) db) = true
   /\ db_after (V2.post_auth_register L env b) db = db
   /\ no_write (log_of (V2.post_auth_register L env b) db) = true
   /\ (forall d, V2.registerSchema L b = inr d ->
       outcome (V2.post_auth_register L env b) db
       = Sent (json_error 400 "Email already exists"))).
Proof.
  split.
  - assert (Hin : forall d, V1.registerSchema L b = inr d ->
              run (V1.post_auth_register L env b) db
              = (Sent (json_error 400 "Email already registered"), db,
                 [DbRead Users])).
    { intros d Hd. apply V1_register_taken with (d := d); [exact Hd|].
      apply V1_registerSchema_inr in Hd as (_ & He & _).
      rewrite Hemail in He. injection He as <-. exact Htaken. }
    unfold outcome, db_after, log_of.
    destruct (V1.registerSchema L b) as [e|d] eqn:Hs.
    + destruct (V1_registerSchema_inl _ _ Hs) as (issues & ->).
      rewrite (V1_register_invalid L env db _ Hs). cbn.
      repeat split; auto. intros d Hd; discriminate.
    + rewrite (Hin d eq_refl). cbn. repeat split; auto.
  - assert (Hin : forall d, V2.registerSchema L b = inr d ->
              run (V2.post_auth_register L env b) db
              = (Sent (json_error 400 "Email already exists"), db,
                 [DbRead Users])).
    { intros d Hd. apply V2_register_taken with (d := d); [exact Hd|].
      apply V2_registerSchema_inr in Hd as (_ & He & _).
      rewrite Hemail in He. injection He as <-. exact Htaken. }
    unfold outcome, db_after, log_of.
    destruct (V2.registerSchema L b) as [e|d] eqn:Hs.
    + destruct (V2_registerSchema_inl _ _ Hs) as (issues & ->).
      rewrite (V2_register_invalid L env db _ Hs). cbn.
      repeat split; auto. intros d Hd; discriminate.
    + rewrite (Hin d eq_refl). cbn. repeat split; auto.
Qed.

Lemma register_taken_email_rejected_witness :
  rb_email alice_body = Some "a@x.com"
  /\ email_taken sample_db "a@x.com" = true
  /\ outcome (V1.post_auth_register sample_runtime sample_env alice_body)
       sample_db
     = Sent (json_error 400 "Email already registered")
  /\ db_after (V2.post_auth_register sample_runtime sample_env alice_body)
       sample_db = sample_db.
Proof.
  pose proof (@register_taken_email_rejected sample_runtime sample_env
                sample_db alice_body "a@x.com" eq_refl eq_refl) as H.
  destruct H as ((_ & _ & _ & H1) & (_ & H2 & _)).
  split; [reflexivity|]. split; [reflexivity|]. split; [|exact H2].
  apply (H1 (mkRegisterData "Alice" "a@x.com" "1234567890" "secret1")).
  reflexivity.
Defined.

(** C1 as stated fails: the duplicate e-mail is answered with 400, not 409. *)
Lemma register_taken_email_is_not_409 :
  email_taken sample_db "a@x.com" = true
  /\ has_status 409
       (outcome (V1.post_auth_register sample_runtime sample_env alice_body)
          sample_db) = false
  /\ has_status 409
       (outcome (V2.post_auth_register sample_runtime sample_env alice_body)
          sample_db) = false
  /\ has_status 400
       (outcome (V1.post_auth_register sample_runtime sample_env alice_body)
          sample_db) = true
  /\ has_status 400
       (outcome (V2.post_auth_register sample_runtime sample_env alice_body)
          sample_db) = true.
Proof. vm_compute. repeat split. Qed.

(* ================================================================= *)
(** * Login failures *)

Section LoginFailures.

Variable L : Runtime.

Lemma V1_login_failure env db b d cause :
  V1.loginSchema L b = inr d ->
  login_failure db d = Some cause ->
  run (V1.post_auth_login L env b) db = (invalid_credentials, db, [DbRead Users]).
Proof.
  intros Hs Hf.
  unfold run, V1.post_auth_login, try_catch, bind, lift, User_findOne, call,
    read_db, bind.
  rewrite Hs. cbn.
  unfold login_failure in Hf.
  destruct (find _ (users db)) as [u|]; [|reflexivity].
  destruct (bcrypt_compare _ _); [discriminate | reflexivity].
Qed.

Lemma V2_login_failure env db b d cause :
  V2.loginSchema L b = inr d ->
  login_failure db d = Some cause ->
  run (V2.post_auth_login L env b) db = (invalid_credentials, db, [DbRead Users]).
Proof.
  intros Hs Hf.
  unfold run, V2.post_auth_login, try_catch, bind, lift, User_findOne, call,
    read_db, bind.
  rewrite Hs. cbn.
  unfold login_failure in Hf.
  destruct (find _ (users db)) as [u|]; [|reflexivity].
  destruct (bcrypt_compare _ _); [discriminate | reflexivity].
Qed.

Lemma loginSchema_same b : V2.loginSchema L b = V1.loginSchema L b.
Proof. reflexivity. Qed.

Lemma V1_loginSchema_inl b e :
  V1.loginSchema L b = inl e -> exists issues, e = ZodError issues.
Proof.
  unfold V1.loginSchema.
  destruct (_ ++ _)%list; destruct (lb_email b), (lb_password b);
    try discriminate; intros H; injection H as <-; eauto.
Qed.

(** One request against two databases: unless a login goes through, the
    answer does not depend on the database, hence not on whether the
    e-mail is known. *)
Lemma V1_login_same_body env1 env2 db1 db2 b :
  has_status 200 (outcome (V1.post_auth_login L env1 b) db1) = false ->
  has_status 200 (outcome (V1.post_auth_login L env2 b) db2) = false ->
  outcome (V1.post_auth_login L env1 b) db1
  = outcome (V1.post_auth_login L env2 b) db2.
Proof.
  unfold outcome, run, V1.post_auth_login, try_catch, bind, lift,
    User_findOne, call, read_db, bind.
  destruct (V1.loginSchema L b) as [e|d] eqn:Hs.
  - destruct (V1_loginSchema_inl _ Hs) as (issues & ->). reflexivity.
  - cbn.
    destruct (find _ (users db1)) as [u1|], (find _ (users db2)) as [u2|];
      cbn;
      repeat match goal with
      | |- context [bcrypt_compare ?p ?h] => destruct (bcrypt_compare p h); cbn
      end;
      try reflexivity; try discriminate.
    all: intros H1 H2; discriminate.
Qed.

Lemma V2_login_same_body env1 env2 db1 db2 b :
  has_status 200 (outcome (V2.post_auth_login L env1 b) db1) = false ->
  has_status 200 (outcome (V2.post_auth_login L env2 b) db2) = false ->
  outcome (V2.post_auth_login L env1 b) db1
  = outcome (V2.post_auth_login L env2 b) db2.
Proof.
  unfold outcome, run, V2.post_auth_login, try_catch, bind, lift,
    User_findOne, call, read_db, bind.
  rewrite loginSchema_same.
  destruct (V1.loginSchema L b) as [e|d] eqn:Hs.
  - destruct (V1_loginSchema_inl _ Hs) as (issues & ->). reflexivity.
  - cbn.
    destruct (find _ (users db1)) as [u1|], (find _ (users db2)) as [u2|];
      cbn;
      repeat match goal with
      | |- context [bcrypt_compare ?p ?h] => destruct (bcrypt_compare p h); cbn
      end;
      try reflexivity; try discriminate.
    all: intros H1 H2; discriminate.
Qed.

End LoginFailures.

(** C2.  Take two logins with well-formed credentials, on any two
    databases and at any two moments: one fails because no user has the
    e-mail, the other because the password does not verify.  In both
    variants the two runs give the same response, status 401 with body
    [{ error: 'Invalid credentials' }], issue the same persistence calls
    and leave their databases untouched. *)
Theorem login_failures_indistinguishable
    (L : Runtime) (env1 env2 : Env) (db1 db2 : DB) (b1 b2 : LoginBody)
    (d1 d2 : LoginData)
    (Hb1 : V1.loginSchema L b1 = inr d1)
    (Hb2 : V1.loginSchema L b2 = inr d2)
    (Hnone : login_failure db1 d1 = Some NoSuchUser)
    (Hwrong : login_failure db2 d2 = Some WrongPassword) :
  (outcome (V1.post_auth_login L env1 b1) db1
   = outcome (V1.post_auth_login L env2 b2) db2
   /\ outcome (V1.post_auth_login L env1 b1) db1 = invalid_credentials
   /\ log_of (V1.post_auth_login L env1 b1) db1
      = log_of (V1.post_auth_login L env2 b2) db2
   /\ db_after (V1.post_auth_login L env1 b1) db1 = db1
   /\ db_after (V1.post_auth_login L env2 b2) db2 = db2)
  /\
  (outcome (V2.post_auth_login L env1 b1) db1
   = outcome (V2.post_auth_login L env2 b2) db2
   /\ outcome (V2.post_auth_login L env1 b1) db1 = invalid_credentials
   /\ log_of (V2.post_auth_login L env1 b1) db1
      = log_of (V2.post_auth_login L env2 b2) db2
   /\ db_after (V2.post_auth_login L env1 b1) db1 = db1
   /\ db_after (V2.post_auth_login L env2 b2) db2 = db2).
Proof.
  unfold outcome, db_after, log_of.
  rewrite (V1_login_failure L env1 db1 b1 Hb1 Hnone).
  rewrite (V1_login_failure L env2 db2 b2 Hb2 Hwrong).
  rewrite <- loginSchema_same in Hb1, Hb2.
  rewrite (V2_login_failure L env1 db1 b1 Hb1 Hnone).
  rewrite (V2_login_failure L env2 db2 b2 Hb2 Hwrong).
  cbn. repeat split.
Qed.

Lemma login_failures_indistinguishable_witness :
  outcome (V1.post_auth_login sample_runtime sample_env
             (mkLoginBody (Some "nobody@x.com") (Some "secret1"))) sample_db
  = outcome (V1.post_auth_login sample_runtime later_env
               (mkLoginBody (Some "a@x.com") (Some "secret2"))) sample_db
  /\ outcome (V2.post_auth_login sample_runtime sample_env
                (mkLoginBody (Some "nobody@x.com") (Some "secret1"))) sample_db
     = outcome (V2.post_auth_login sample_runtime later_env
                  (mkLoginBody (Some "a@x.com") (Some "secret2"))) sample_db.
Proof.
  pose proof (@login_failures_indistinguishable sample_runtime sample_env
                later_env sample_db sample_db
                (mkLoginBody (Some "nobody@x.com") (Some "secret1"))
                (mkLoginBody (Some "a@x.com") (Some "secret2"))
                (mkLoginData "nobody@x.com" "secret1")
                (mkLoginData "a@x.com" "secret2")
                eq_refl eq_refl eq_refl eq_refl) as H.
  destruct H as ((H1 & _) & (H2 & _)).
  split; [exact H1 | exact H2].
Defined.

(* ================================================================= *)
(** * Cancelling an appointment *)

Lemma find_replace_appointment a oid l appt :
  find (fun b => a_id b =? oid) l = Some appt ->
  a_id a = oid ->
  find (fun b => a_id b =? oid) (replace_appointment a l) = Some a.
Proof.
  intros Hf Ha. induction l as [|b l IH]; simpl in *; [discriminate|].
  rewrite Ha. destruct (a_id b =? oid) eqn:Hb.
  - simpl. rewrite Ha, String.eqb_refl. reflexivity.
  - simpl. rewrite Hb. auto.
Qed.

Lemma replace_appointment_twice a l :
  replace_appointment a (replace_appointment a l) = replace_appointment a l.
Proof.
  induction l as [|b l IH]; simpl; [reflexivity|].
  destruct (a_id b =? a_id a) eqn:Hb; simpl.
  - now rewrite String.eqb_refl.
  - now rewrite Hb, IH.
Qed.

Lemma find_appointment_id oid l appt :
  find (fun b => a_id b =? oid) l = Some appt -> a_id appt = oid.
Proof.
  intros H. apply find_some in H as (_ & H). now apply String.eqb_eq.
Qed.

Section Cancel.

Variable L : Runtime.

Lemma cancel_run env token user id oid appt db :
  jwt_verify token (JWT_SECRET L) (now env) = Some user ->
  castObjectId L id = Some oid ->
  find (fun a => a_id a =? oid) (appointments db) = Some appt ->
  run (V1.patch_appointments_cancel L env (Bearer token) id) db
  = if may_cancel user appt
    then (cancelled_response appt,
          set_appointments db
            (replace_appointment (V1.cancel appt) (appointments db)),
          [DbRead Appointments; DbWrite Appointments])
    else (Sent (json_error 403 "Not allowed"), db, [DbRead Appointments]).
Proof.
  intros Hv Hc Hf.
  unfold run, V1.patch_appointments_cancel, V1.authenticate. rewrite Hv.
  unfold try_catch, bind, Appointment_findById, call, bind. rewrite Hc.
  unfold read_db, ret, bind. rewrite Hf.
  unfold may_cancel. destruct (a_patient appt =? c_id user); simpl;
    [reflexivity|].
  destruct (V1.is_admin user); reflexivity.
Qed.

End Cancel.

(** C3.  Cancelling an existing appointment as an authenticated caller.
    A caller who is neither the owning patient nor an administrator gets
    403 and the database stays as it was.  The owning patient or an
    administrator gets 200 with the record, whose status is now
    [cancelled] in the collection, every other document untouched.  A
    further cancellation by any authorized caller is answered the same way
    and changes nothing more. *)
Theorem cancel_appointment
    (L : Runtime) (env : Env) (token : Token) (user : Claims) (id : string)
    (oid : ObjectId) (appt : Appointment) (db : DB)
    (Hauth : jwt_verify token (JWT_SECRET L) (now env) = Some user)
    (Hid : castObjectId L id = Some oid)
    (Hfound : find (fun a => a_id a =? oid) (appointments db) = Some appt) :
  let h := V1.patch_appointments_cancel L env (Bearer token) id in
  (may_cancel user appt = false ->
   outcome h db = Sent (json_error 403 "Not allowed") /\ db_after h db = db)
  /\
  (may_cancel user appt = true ->
   outcome h db = cancelled_response appt
   /\ db_after h db
      = set_appointments db
          (replace_appointment (V1.cancel appt) (appointments db))
   /\ find (fun a => a_id a =? oid) (appointments (db_after h db))
      = Some (V1.cancel appt)
   /\ a_status (V1.cancel appt) = cancelled
   /\ forall (env' : Env) (token' : Token) (user' : Claims),
        jwt_verify token' (JWT_SECRET L) (now env') = Some user' ->
        may_cancel user' appt = true ->
        let h' := V1.patch_appointments_cancel L env' (Bearer token') id in
        outcome h' (db_after h db) = cancelled_response appt
        /\ db_after h' (db_after h db) = db_after h db).
Proof.
  intros h. unfold h, outcome, db_after.
  rewrite (cancel_run L env token id db Hauth Hid Hfound).
  pose proof (find_appointment_id _ _ Hfound) as Hoid.
  split; intros Hm; rewrite Hm; cbn [fst snd].
  - split; reflexivity.
  - assert (Hf' : find (fun a => a_id a =? oid)
                    (appointments
                       (set_appointments db
                          (replace_appointment (V1.cancel appt)
                             (appointments db))))
                  = Some (V1.cancel appt)).
    { cbn. now apply find_replace_appointment with (appt := appt). }
    repeat split; try assumption.
    + intros. rewrite (cancel_run L env' token' id _ H Hid Hf').
      assert (Hm' : may_cancel user' (V1.cancel appt) = true) by exact H0.
      now rewrite Hm'.
    + rewrite (cancel_run L env' token' id _ H Hid Hf').
      assert (Hm' : may_cancel user' (V1.cancel appt) = true) by exact H0.
      rewrite Hm'. cbn. unfold set_appointments; cbn.
      now rewrite replace_appointment_twice.
Qed.

Lemma cancel_appointment_witness :
  outcome (V1.patch_appointments_cancel sample_runtime sample_env
             (Bearer (access_token bob)) (oid "b1")) booked_db
  = Sent (json_error 403 "Not allowed")
  /\ outcome (V1.patch_appointments_cancel sample_runtime sample_env
                (Bearer (access_token alice)) (oid "b1")) booked_db
     = cancelled_response visit
  /\ outcome (V1.patch_appointments_cancel sample_runtime sample_env
                (Bearer (access_token root)) (oid "b1")) booked_db
     = cancelled_response visit.
Proof.
  split; [|split].
  - apply (@cancel_appointment sample_runtime sample_env (access_token bob)
             (mkClaims (oid "a2") (Some patient)) (oid "b1") (oid "b1") visit
             booked_db eq_refl eq_refl eq_refl).
    reflexivity.
  - apply (@cancel_appointment sample_runtime sample_env (access_token alice)
             (mkClaims (oid "a1") (Some patient)) (oid "b1") (oid "b1") visit
             booked_db eq_refl eq_refl eq_refl).
    reflexivity.
  - apply (@cancel_appointment sample_runtime sample_env (access_token root)
             (mkClaims (oid "a0") (Some admin)) (oid "b1") (oid "b1") visit
             booked_db eq_refl eq_refl eq_refl).
    reflexivity.
Defined.

(* ================================================================= *)
(** * Booking an appointment *)

Section Booking.

Variable L : Runtime.

Lemma V1_appointmentZ_inr b d :
  V1.appointmentZ L b = inr d ->
  ab_doctorId b = Some (ad_doctorId d) /\ ab_date b = Some (ad_date d)
  /\ ab_time b = Some (ad_time d) /\ ab_symptoms b = Some (ad_symptoms d)
  /\ ab_phone b = Some (ad_phone d).
Proof.
  unfold V1.appointmentZ.
  destruct (_ ++ _)%list; [|discriminate].
  destruct (ab_doctorId b), (ab_date b), (ab_time b), (ab_symptoms b),
    (ab_phone b); try discriminate.
  intros H; injection H as <-; auto.
Qed.

Lemma V2_appointmentSchema_inr b d :
  V2.appointmentSchema L b = inr d ->
  ab_doctorId b = Some (ad_doctorId d) /\ ab_date b = Some (ad_date d)
  /\ ab_time b = Some (ad_time d) /\ ab_symptoms b = Some (ad_symptoms d)
  /\ ab_phone b = Some (ad_phone d).
Proof.
  unfold V2.appointmentSchema.
  destruct (_ ++ _)%list; [|discriminate].
  destruct (ab_doctorId b), (ab_date b), (ab_time b), (ab_symptoms b),
    (ab_phone b); try discriminate.
  intros H; injection H as <-; auto.
Qed.

Lemma V1_appointmentZ_inl b e :
  V1.appointmentZ L b = inl e -> exists issues, e = ZodError issues.
Proof.
  unfold V1.appointmentZ.
  destruct (_ ++ _)%list;
    destruct (ab_doctorId b), (ab_date b), (ab_time b), (ab_symptoms b),
      (ab_phone b); try discriminate; intros H; injection H as <-; eauto.
Qed.

Lemma V2_appointmentSchema_inl b e :
  V2.appointmentSchema L b = inl e -> exists issues, e = ZodError issues.
Proof.
  unfold V2.appointmentSchema.
  destruct (_ ++ _)%list;
    destruct (ab_doctorId b), (ab_date b), (ab_time b), (ab_symptoms b),
      (ab_phone b); try discriminate; intros H; injection H as <-; eauto.
Qed.

(** Every booking the first variant answers with 200 created one
    appointment, confirmed, carrying the names of the doctor the body
    refers to and of the caller's user record, and returned it. *)
Lemma V1_booking_success env auth b db r :
  outcome (V1.post_appointments L env auth b) db = Sent r ->
  status r = 200%nat ->
  exists (token : Token) (user : Claims) (doctor : Doctor) (patient_ : User)
         (a : Appointment),
    auth = Bearer token
    /\ jwt_verify token (JWT_SECRET L) (now env) = Some user
    /\ referred_doctor L db b = Some doctor
    /\ find (fun u => u_id u =? c_id user) (users db) = Some patient_
    /\ a_status a = confirmed
    /\ a_doctor a = d_id doctor /\ a_doctorName a = d_name doctor
    /\ a_specialty a = d_specialty doctor
    /\ a_patient a = u_id patient_ /\ a_patientName a = u_name patient_
    /\ db_after (V1.post_appointments L env auth b) db
       = set_appointments db (appointments db ++ [a])%list
    /\ r = booked_response a.
Proof.
  unfold outcome, db_after, run.
  destruct (V1.post_appointments L env auth b db []) as ((res, db'), tr) eqn:Hrun.
  cbn [fst snd]. intros Hres Hst.
  assert (Hno : forall r0 : Response,
            res = inr r0 -> status r0 <> 200%nat -> False).
  { intros r0 -> Hr0. injection Hres as <-. contradiction. }
  unfold V1.post_appointments, V1.authenticate in Hrun.
  destruct auth as [| |token]; try (cbn in Hrun; injection Hrun as <- <- <-;
    exfalso; eapply Hno; [reflexivity | discriminate]).
  destruct (jwt_verify token (JWT_SECRET L) (now env)) as [user|] eqn:Hv;
    [| cbn in Hrun; injection Hrun as <- <- <-;
       exfalso; eapply Hno; [reflexivity | discriminate]].
  unfold try_catch, bind, lift in Hrun.
  destruct (V1.appointmentZ L b) as [e|d] eqn:Hs.
  { destruct (V1_appointmentZ_inl _ Hs) as (issues & ->).
    cbn in Hrun. injection Hrun as <- <- <-.
    exfalso; eapply Hno; [reflexivity | discriminate]. }
  apply V1_appointmentZ_inr in Hs as (Hd & _).
  unfold referred_doctor. rewrite Hd.
  unfold ret at 1 in Hrun.
  unfold Doctor_findById, User_findById, Appointment_create, call, bind,
    read_db, ret, throw, write_db, V1.on_error in Hrun.
  destruct (castObjectId L (ad_doctorId d)) as [id|];
    [| cbn in Hrun; injection Hrun as <- <- <-;
       exfalso; eapply Hno; [reflexivity | discriminate]].
  cbn in Hrun.
  destruct (find (fun d0 => d_id d0 =? id) (doctors db)) as [doctor|];
    [| cbn in Hrun; injection Hrun as <- <- <-;
       exfalso; eapply Hno; [reflexivity | discriminate]].
  cbn in Hrun.
  destruct (find (fun u => u_id u =? c_id user) (users db)) as [patient_|] eqn:Hp;
    [| cbn in Hrun; injection Hrun as <- <- <-;
       exfalso; eapply Hno; [reflexivity | discriminate]].
  cbn in Hrun.
  destruct (parseDate L (ad_date d ++ "T00:00:00")) as [date|];
    [| cbn in Hrun; injection Hrun as <- <- <-;
       exfalso; eapply Hno; [reflexivity | discriminate]].
  cbn in Hrun.
  repeat match type of Hrun with
  | context [if ?c then _ else _] =>
      destruct c;
      [ cbn in Hrun; injection Hrun as <- <- <-;
        exfalso; eapply Hno; [reflexivity | discriminate] | cbn in Hrun ]
  end.
  injection Hrun as <- <- <-. injection Hres as <-.
  exists token, user, doctor, patient_.
  eexists. repeat split; try reflexivity; try assumption.
Qed.

End Booking.

Section BookingValidation.

Variable L : Runtime.

(** The schemas accept exactly the bodies meeting their constraints. *)
Lemma V1_appointmentZ_accepts b :
  accepted (V1.appointmentZ L b) = V1_booking_constraints b.
Proof.
  unfold V1.appointmentZ, V1_booking_constraints, z_string, field_ok.
  destruct (ab_doctorId b) as [s1|], (ab_date b) as [s2|],
    (ab_time b) as [s3|], (ab_symptoms b) as [s4|], (ab_phone b) as [s5|];
    cbn [flat_map check_issue app accepted andb];
    repeat match goal with
    | |- context [if ?c then _ else _] =>
        lazymatch type of c with bool => idtac end;
        lazymatch c with
        | andb _ _ => fail
        | _ => destruct c; cbn [app accepted andb]
        end
    end;
    try match goal with
    | |- context [match ?l with [] => _ | _ :: _ => _ end] => destruct l
    end;
    repeat (rewrite ?andb_false_r; cbn [andb accepted]); reflexivity.
Qed.

Lemma V2_appointmentSchema_accepts b :
  accepted (V2.appointmentSchema L b) = V2_booking_constraints b.
Proof.
  unfold V2.appointmentSchema, V2_booking_constraints, z_string, field_ok.
  destruct (ab_doctorId b) as [s1|], (ab_date b) as [s2|],
    (ab_time b) as [s3|], (ab_symptoms b) as [s4|], (ab_phone b) as [s5|];
    cbn [flat_map check_issue app accepted andb];
    repeat match goal with
    | |- context [if ?c then _ else _] =>
        lazymatch type of c with bool => idtac end;
        lazymatch c with
        | andb _ _ => fail
        | _ => destruct c; cbn [app accepted andb]
        end
    end;
    try match goal with
    | |- context [match ?l with [] => _ | _ :: _ => _ end] => destruct l
    end;
    repeat (rewrite ?andb_false_r; cbn [andb accepted]); reflexivity.
Qed.

(** A rejected body is answered before any persistence call. *)
Lemma V1_booking_rejected env token user b db :
  jwt_verify token (JWT_SECRET L) (now env) = Some user ->
  accepted (V1.appointmentZ L b) = false ->
  exists message,
    run (V1.post_appointments L env (Bearer token) b) db
    = (Sent (json_error 400 message), db, []).
Proof.
  intros Hv Ha.
  destruct (V1.appointmentZ L b) as [e|d] eqn:Hs; [|discriminate].
  destruct (V1_appointmentZ_inl _ _ Hs) as (issues & ->).
  eexists. unfold run, V1.post_appointments, V1.authenticate. rewrite Hv.
  unfold try_catch, bind, lift. rewrite Hs. reflexivity.
Qed.

Lemma V2_booking_rejected env token user b db :
  jwt_verify token (JWT_SECRET L) (now env) = Some user ->
  accepted (V2.appointmentSchema L b) = false ->
  exists message,
    run (V2.post_appointments L env (Bearer token) b) db
    = (Sent (json_error 400 message), db, []).
Proof.
  intros Hv Ha.
  destruct (V2.appointmentSchema L b) as [e|d] eqn:Hs; [|discriminate].
  destruct (V2_appointmentSchema_inl _ _ Hs) as (issues & ->).
  eexists. unfold run, V2.post_appointments, V2.authenticate. rewrite Hv.
  unfold try_catch, bind, lift. rewrite Hs. reflexivity.
Qed.

(** A caller who is not authenticated is answered 401, the body unread. *)
Lemma V1_booking_unauthenticated env auth b db :
  (forall token, auth = Bearer token ->
     jwt_verify token (JWT_SECRET L) (now env) = None) ->
  exists message,
    run (V1.post_appointments L env auth b) db
    = (Sent (json_error 401 message), db, []).
Proof.
  intros H. unfold run, V1.post_appointments, V1.authenticate.
  destruct auth as [| |token]; try (eexists; reflexivity).
  rewrite (H token eq_refl). eexists; reflexivity.
Qed.

Lemma V2_booking_unauthenticated env auth b db :
  (forall token, auth = Bearer token ->
     jwt_verify token (JWT_SECRET L) (now env) = None) ->
  exists message,
    run (V2.post_appointments L env auth b) db
    = (Sent (json_error 401 message), db, []).
Proof.
  intros H. unfold run, V2.post_appointments, V2.authenticate.
  destruct auth as [| |token]; try (eexists; reflexivity).
  rewrite (H token eq_refl). eexists; reflexivity.
Qed.

(** A well-formed id that no doctor has. *)
Lemma V1_booking_unknown_doctor env token user b d id db :
  jwt_verify token (JWT_SECRET L) (now env) = Some user ->
  V1.appointmentZ L b = inr d ->
  castObjectId L (ad_doctorId d) = Some id ->
  find (fun x => d_id x =? id) (doctors db) = None ->
  run (V1.post_appointments L env (Bearer token) b) db
  = (Sent (json_error 404 "Doctor not found"), db, [DbRead Doctors]).
Proof.
  intros Hv Hs Hc Hf.
  unfold run, V1.post_appointments, V1.authenticate. rewrite Hv.
  unfold try_catch, bind, lift. rewrite Hs. unfold ret at 1.
  unfold Doctor_findById, call, bind. rewrite Hc.
  unfold read_db, ret. now rewrite Hf.
Qed.

Lemma V2_booking_unknown_doctor env token user b d id db :
  jwt_verify token (JWT_SECRET L) (now env) = Some user ->
  V2.appointmentSchema L b = inr d ->
  castObjectId L (ad_doctorId d) = Some id ->
  find (fun x => d_id x =? id) (doctors db) = None ->
  run (V2.post_appointments L env (Bearer token) b) db
  = (Sent (json_error 404 "Doctor not found"), db, [DbRead Doctors]).
Proof.
  intros Hv Hs Hc Hf.
  unfold run, V2.post_appointments, V2.authenticate. rewrite Hv.
  unfold try_catch, bind, lift. rewrite Hs. unfold ret at 1.
  unfold Doctor_findById, call, bind. rewrite Hc.
  unfold read_db, ret. now rewrite Hf.
Qed.

(** Whoever the caller is, a rejected body is answered without any
    persistence call. *)
Lemma V1_booking_rejected_any env auth b db :
  accepted (V1.appointmentZ L b) = false ->
  exists o, run (V1.post_appointments L env auth b) db = (o, db, []).
Proof.
  intros Ha.
  destruct auth as [| |token]; try (eexists; reflexivity).
  destruct (jwt_verify token (JWT_SECRET L) (now env)) as [user|] eqn:Hv.
  - destruct (V1_booking_rejected env token b db Hv Ha) as (m & Hr). eauto.
  - eexists. unfold run, V1.post_appointments, V1.authenticate.
    rewrite Hv. reflexivity.
Qed.

Lemma V2_booking_rejected_any env auth b db :
  accepted (V2.appointmentSchema L b) = false ->
  exists o, run (V2.post_appointments L env auth b) db = (o, db, []).
Proof.
  intros Ha.
  destruct auth as [| |token]; try (eexists; reflexivity).
  destruct (jwt_verify token (JWT_SECRET L) (now env)) as [user|] eqn:Hv.
  - destruct (V2_booking_rejected env token b db Hv Ha) as (m & Hr). eauto.
  - eexists. unfold run, V2.post_appointments, V2.authenticate.
    rewrite Hv. reflexivity.
Qed.

End BookingValidation.

Section BookingOutcomes.

Variable L : Runtime.

(** Without a doctor the body refers to, no appointment is created. *)
Lemma V1_booking_without_doctor_run env auth b db :
  referred_doctor L db b = None ->
  exists o tr,
    run (V1.post_appointments L env auth b) db = (o, db, tr)
    /\ no_write tr = true.
Proof.
  intros Hr.
  unfold run, V1.post_appointments, V1.authenticate.
  destruct auth as [| |token]; try (do 2 eexists; cbn; split; reflexivity).
  destruct (jwt_verify token (JWT_SECRET L) (now env));
    [|do 2 eexists; cbn; split; reflexivity].
  unfold try_catch, bind, lift.
  destruct (V1.appointmentZ L b) as [e|d] eqn:Hs.
  - destruct (V1_appointmentZ_inl _ _ Hs) as (issues & ->).
    do 2 eexists; cbn; split; reflexivity.
  - apply V1_appointmentZ_inr in Hs as (Hd & _).
    unfold referred_doctor in Hr. rewrite Hd in Hr.
    unfold ret at 1. unfold Doctor_findById, call, bind.
    destruct (castObjectId L (ad_doctorId d));
      [|do 2 eexists; cbn; split; reflexivity].
    unfold read_db, ret. rewrite Hr.
    do 2 eexists; cbn; split; reflexivity.
Qed.

Lemma V1_booking_without_doctor env auth b db :
  referred_doctor L db b = None ->
  db_after (V1.post_appointments L env auth b) db = db
  /\ no_write (log_of (V1.post_appointments L env auth b) db) = true.
Proof.
  intros Hr.
  destruct (V1_booking_without_doctor_run env auth b db Hr)
    as (o & tr & Hrun & Hw).
  unfold db_after, log_of. rewrite Hrun. split; [reflexivity | exact Hw].
Qed.

Lemma V2_booking_without_doctor_run env auth b db :
  referred_doctor L db b = None ->
  exists o tr,
    run (V2.post_appointments L env auth b) db = (o, db, tr)
    /\ no_write tr = true.
Proof.
  intros Hr.
  unfold run, V2.post_appointments, V2.authenticate.
  destruct auth as [| |token]; try (do 2 eexists; cbn; split; reflexivity).
  destruct (jwt_verify token (JWT_SECRET L) (now env));
    [|do 2 eexists; cbn; split; reflexivity].
  unfold try_catch, bind, lift.
  destruct (V2.appointmentSchema L b) as [e|d] eqn:Hs.
  - destruct (V2_appointmentSchema_inl _ _ Hs) as (issues & ->).
    do 2 eexists; cbn; split; reflexivity.
  - apply V2_appointmentSchema_inr in Hs as (Hd & _).
    unfold referred_doctor in Hr. rewrite Hd in Hr.
    unfold ret at 1. unfold Doctor_findById, call, bind.
    destruct (castObjectId L (ad_doctorId d));
      [|do 2 eexists; cbn; split; reflexivity].
    unfold read_db, ret. rewrite Hr.
    do 2 eexists; cbn; split; reflexivity.
Qed.

Lemma V2_booking_without_doctor env auth b db :
  referred_doctor L db b = None ->
  db_after (V2.post_appointments L env auth b) db = db
  /\ no_write (log_of (V2.post_appointments L env auth b) db) = true.
Proof.
  intros Hr.
  destruct (V2_booking_without_doctor_run env auth b db Hr)
    as (o & tr & Hrun & Hw).
  unfold db_after, log_of. rewrite Hrun. split; [reflexivity | exact Hw].
Qed.

(** Every booking the second variant answers with 200 created one
    appointment and left its status at the schema's default, [pending]. *)
Lemma V2_booking_success env auth b db r :
  outcome (V2.post_appointments L env auth b) db = Sent r ->
  status r = 200%nat ->
  exists (doctor : Doctor) (patient_ : User) (a : Appointment),
    referred_doctor L db b = Some doctor
    /\ a_status a = pending
    /\ a_doctorName a = d_name doctor /\ a_specialty a = d_specialty doctor
    /\ a_patientName a = u_name patient_
    /\ db_after (V2.post_appointments L env auth b) db
       = set_appointments db (appointments db ++ [a])%list
    /\ r = booked_response a.
Proof.
  unfold outcome, db_after, run.
  destruct (V2.post_appointments L env auth b db []) as ((res, db'), tr) eqn:Hrun.
  cbn [fst snd]. intros Hres Hst.
  assert (Hno : forall r0 : Response,
            res = inr r0 -> status r0 <> 200%nat -> False).
  { intros r0 -> Hr0. injection Hres as <-. contradiction. }
  unfold V2.post_appointments, V2.authenticate in Hrun.
  destruct auth as [| |token]; try (cbn in Hrun; injection Hrun as <- <- <-;
    exfalso; eapply Hno; [reflexivity | discriminate]).
  destruct (jwt_verify token (JWT_SECRET L) (now env)) as [user|] eqn:Hv;
    [| cbn in Hrun; injection Hrun as <- <- <-;
       exfalso; eapply Hno; [reflexivity | discriminate]].
  unfold try_catch, bind, lift in Hrun.
  destruct (V2.appointmentSchema L b) as [e|d] eqn:Hs.
  { destruct (V2_appointmentSchema_inl _ _ Hs) as (issues & ->).
    cbn in Hrun. injection Hrun as <- <- <-.
    exfalso; eapply Hno; [reflexivity | discriminate]. }
  apply V2_appointmentSchema_inr in Hs as (Hd & _).
  unfold referred_doctor. rewrite Hd.
  unfold ret at 1 in Hrun.
  unfold Doctor_findById, User_findById, Appointment_create, call, bind,
    read_db, ret, throw, write_db in Hrun.
  destruct (castObjectId L (ad_doctorId d)) as [id|];
    [| cbn in Hrun; injection Hrun as <- <- <-;
       exfalso; eapply Hno; [reflexivity | discriminate]].
  cbn in Hrun.
  destruct (find (fun d0 => d_id d0 =? id) (doctors db)) as [doctor|];
    [| cbn in Hrun; injection Hrun as <- <- <-;
       exfalso; eapply Hno; [reflexivity | discriminate]].
  cbn in Hrun.
  destruct (find (fun u => u_id u =? c_id user) (users db)) as [patient_|] eqn:Hp;
    [| cbn in Hrun; injection Hrun as <- <- <-;
       exfalso; eapply Hno; [reflexivity | discriminate]].
  cbn in Hrun.
  destruct (parseDate L (ad_date d)) as [date|];
    [| cbn in Hrun; injection Hrun as <- <- <-;
       exfalso; eapply Hno; [reflexivity | discriminate]].
  cbn in Hrun.
  repeat match type of Hrun with
  | context [if ?c then _ else _] =>
      destruct c;
      [ cbn in Hrun; injection Hrun as <- <- <-;
        exfalso; eapply Hno; [reflexivity | discriminate] | cbn in Hrun ]
  end.
  injection Hrun as <- <- <-. injection Hres as <-.
  exists doctor, patient_.
  eexists. repeat split; try reflexivity; try assumption.
Qed.

End BookingOutcomes.

(** C4 at the failing input.  In the second variant the booking of
    [booking_body] by the patient [alice] is answered with 200, and the
    appointment it creates and returns has status [pending], not
    [confirmed]: the handler passes no [status] to [Appointment.create]
    and the schema's default applies.  (The first variant passes
    [status: 'confirmed'], see [V1_booking_success].) *)
Theorem V2_booking_is_pending :
  outcome (V2.post_appointments sample_runtime sample_env
             (Bearer (access_token alice)) booking_body) sample_db
  = Sent (booked_response pending_visit)
  /\ appointments
       (db_after (V2.post_appointments sample_runtime sample_env
                    (Bearer (access_token alice)) booking_body) sample_db)
     = [pending_visit]
  /\ a_status pending_visit = pending
  /\ get "status" (appointment_doc pending_visit) = Some (JStr "pending").
Proof. vm_compute. repeat split. Qed.

(** C5, as the code has it.  In both variants the body of a booking is
    parsed before the handler touches the database: whoever the caller,
    a rejected body leaves the log of persistence calls empty and the
    database as before, and an authenticated caller is answered 400.  Both
    schemas reject a date that is absent or does not match
    [\d{4}-\d{2}-\d{2}].  The second variant also rejects a time that does
    not match [([0-1]?[0-9]|2[0-3]):[0-5][0-9]] and a phone that is not 10
    to 15 characters among digits, [+], [-] and white space; the first
    variant asks of the time only 3 characters or more and of the phone
    only 6 or more. *)
Theorem booking_validation
    (L : Runtime) (env : Env) (auth : Authorization) (b : AppointmentBody)
    (db : DB) :
  let h1 := V1.post_appointments L env auth b in
  let h2 := V2.post_appointments L env auth b in
  let authenticated :=
    exists token user,
      auth = Bearer token
      /\ jwt_verify token (JWT_SECRET L) (now env) = Some user in
  (accepted (V1.appointmentZ L b) = false ->
   log_of h1 db = [] /\ db_after h1 db = db
   /\ (authenticated -> has_status 400 (outcome h1 db) = true))
  /\ (accepted (V2.appointmentSchema L b) = false ->
      log_of h2 db = [] /\ db_after h2 db = db
      /\ (authenticated -> has_status 400 (outcome h2 db) = true))
  /\ accepted (V1.appointmentZ L b) = V1_booking_constraints b
  /\ accepted (V2.appointmentSchema L b) = V2_booking_constraints b
  /\ (field_ok re_date (ab_date b) = false ->
      accepted (V1.appointmentZ L b) = false
      /\ accepted (V2.appointmentSchema L b) = false)
  /\ (field_ok re_time (ab_time b) = false ->
      accepted (V2.appointmentSchema L b) = false)
  /\ (field_ok re_phone (ab_phone b) = false ->
      accepted (V2.appointmentSchema L b) = false).
Proof.
  intros h1 h2 authenticated.
  split; [|split; [|split; [|split; [|split; [|split]]]]].
  - intros H.
    destruct (V1_booking_rejected_any L env auth b db H) as (o & Hr).
    unfold outcome, log_of, db_after, h1. rewrite Hr. cbn [fst snd].
    repeat split. intros (token & user & -> & Hv).
    destruct (V1_booking_rejected L env token b db Hv H) as (m & Hr').
    rewrite Hr' in Hr. now injection Hr as <-.
  - intros H.
    destruct (V2_booking_rejected_any L env auth b db H) as (o & Hr).
    unfold outcome, log_of, db_after, h2. rewrite Hr. cbn [fst snd].
    repeat split. intros (token & user & -> & Hv).
    destruct (V2_booking_rejected L env token b db Hv H) as (m & Hr').
    rewrite Hr' in Hr. now injection Hr as <-.
  - apply V1_appointmentZ_accepts.
  - apply V2_appointmentSchema_accepts.
  - intros H.
    rewrite V1_appointmentZ_accepts, V2_appointmentSchema_accepts.
    unfold V1_booking_constraints, V2_booking_constraints. rewrite H.
    now rewrite !andb_false_r.
  - intros H. rewrite V2_appointmentSchema_accepts.
    unfold V2_booking_constraints. rewrite H. now rewrite !andb_false_r.
  - intros H. rewrite V2_appointmentSchema_accepts.
    unfold V2_booking_constraints. rewrite H. now rewrite !andb_false_r.
Qed.

Lemma booking_validation_witness :
  log_of (V2.post_appointments sample_runtime sample_env
            (Bearer (access_token alice)) loose_body) sample_db = []
  /\ db_after (V2.post_appointments sample_runtime sample_env
                 (Bearer (access_token alice)) loose_body) sample_db
     = sample_db
  /\ has_status 400
       (outcome (V2.post_appointments sample_runtime sample_env
                   (Bearer (access_token alice)) loose_body) sample_db)
     = true.
Proof.
  pose proof (@booking_validation sample_runtime sample_env
                (Bearer (access_token alice)) loose_body sample_db) as H.
  destruct H as (_ & H & _). destruct (H eq_refl) as (Hl & Hd & Hs).
  split; [exact Hl|]. split; [exact Hd|]. apply Hs.
  exists (access_token alice), (mkClaims (oid "a1") (Some patient)).
  split; reflexivity.
Defined.

(** C5 as stated fails on the first variant: a time and a phone that are
    in no such format pass [appointmentZ], and the appointment is written. *)
Lemma V1_booking_accepts_loose_time_and_phone :
  field_ok re_time (ab_time loose_body) = false
  /\ field_ok re_phone (ab_phone loose_body) = false
  /\ has_status 200
       (outcome (V1.post_appointments sample_runtime sample_env
                   (Bearer (access_token alice)) loose_body) sample_db) = true
  /\ log_of (V1.post_appointments sample_runtime sample_env
               (Bearer (access_token alice)) loose_body) sample_db
     = [DbRead Doctors; DbRead Users; DbWrite Appointments]
  /\ map a_time
       (appointments
          (db_after (V1.post_appointments sample_runtime sample_env
                       (Bearer (access_token alice)) loose_body) sample_db))
     = ["abc"].
Proof. vm_compute. repeat split. Qed.

(** C9, as the code has it.  Take a booking whose body refers to no
    existing doctor.  Whoever the caller and whatever the answer, no
    appointment is created: the database is as before and no write is
    issued.  To an authenticated caller the answer is 404 "Doctor not
    found" when the body passes the schema and its [doctorId] is a
    well-formed ObjectId, and 400 when the body does not pass the schema. *)
Theorem booking_unknown_doctor
    (L : Runtime) (env : Env) (auth : Authorization) (b : AppointmentBody)
    (db : DB)
    (Hnone : referred_doctor L db b = None) :
  let h1 := V1.post_appointments L env auth b in
  let h2 := V2.post_appointments L env auth b in
  (db_after h1 db = db /\ no_write (log_of h1 db) = true)
  /\ (db_after h2 db = db /\ no_write (log_of h2 db) = true)
  /\ (forall token user,
        auth = Bearer token ->
        jwt_verify token (JWT_SECRET L) (now env) = Some user ->
        (forall s id,
           ab_doctorId b = Some s -> castObjectId L s = Some id ->
           (V1_booking_constraints b = true ->
            outcome h1 db = Sent (json_error 404 "Doctor not found"))
           /\ (V2_booking_constraints b = true ->
               outcome h2 db = Sent (json_error 404 "Doctor not found")))
        /\ (V1_booking_constraints b = false ->
            has_status 400 (outcome h1 db) = true)
        /\ (V2_booking_constraints b = false ->
            has_status 400 (outcome h2 db) = true)).
Proof.
  intros h1 h2.
  split; [apply V1_booking_without_doctor; exact Hnone|].
  split; [apply V2_booking_without_doctor; exact Hnone|].
  intros token user -> Hauth. split; [|split].
  - intros s id Hs Hc. unfold referred_doctor in Hnone.
    rewrite Hs, Hc in Hnone. split; intros Hok.
    + rewrite <- (V1_appointmentZ_accepts L) in Hok.
      destruct (V1.appointmentZ L b) as [e|d] eqn:Hd; [discriminate|].
      pose proof (V1_appointmentZ_inr _ _ Hd) as (Hid & _).
      rewrite Hs in Hid. injection Hid as ->.
      unfold outcome, h1.
      now rewrite (V1_booking_unknown_doctor L env token b db Hauth Hd Hc Hnone).
    + rewrite <- (V2_appointmentSchema_accepts L) in Hok.
      destruct (V2.appointmentSchema L b) as [e|d] eqn:Hd; [discriminate|].
      pose proof (V2_appointmentSchema_inr _ _ Hd) as (Hid & _).
      rewrite Hs in Hid. injection Hid as ->.
      unfold outcome, h2.
      now rewrite (V2_booking_unknown_doctor L env token b db Hauth Hd Hc Hnone).
  - intros Hbad. rewrite <- (V1_appointmentZ_accepts L) in Hbad.
    destruct (V1_booking_rejected L env token b db Hauth Hbad) as (m & Hr).
    unfold outcome, h1. now rewrite Hr.
  - intros Hbad. rewrite <- (V2_appointmentSchema_accepts L) in Hbad.
    destruct (V2_booking_rejected L env token b db Hauth Hbad) as (m & Hr).
    unfold outcome, h2. now rewrite Hr.
Qed.

Lemma booking_unknown_doctor_witness :
  referred_doctor sample_runtime sample_db unknown_id_body = None
  /\ outcome (V1.post_appointments sample_runtime sample_env
                (Bearer (access_token alice)) unknown_id_body) sample_db
     = Sent (json_error 404 "Doctor not found")
  /\ outcome (V2.post_appointments sample_runtime sample_env
                (Bearer (access_token alice)) unknown_id_body) sample_db
     = Sent (json_error 404 "Doctor not found")
  /\ db_after (V1.post_appointments sample_runtime sample_env
                 (Bearer (access_token alice)) unknown_id_body) sample_db
     = sample_db.
Proof.
  pose proof (@booking_unknown_doctor sample_runtime sample_env
                (Bearer (access_token alice)) unknown_id_body sample_db
                eq_refl) as H.
  destruct H as ((Hdb & _) & _ & H).
  destruct (H (access_token alice) (mkClaims (oid "a1") (Some patient))
              eq_refl eq_refl) as (H404 & _).
  destruct (H404 (oid "ff") (oid "ff") eq_refl eq_refl) as (H1 & H2).
  split; [reflexivity|].
  split; [exact (H1 eq_refl)|].
  split; [exact (H2 eq_refl) | exact Hdb].
Defined.

(** C9 as stated fails: a booking whose [doctorId] is not 24 characters
    long refers to no doctor and is answered with 400, not 404. *)
Lemma booking_short_doctor_id_is_400 :
  referred_doctor sample_runtime sample_db short_id_body = None
  /\ has_status 404
       (outcome (V1.post_appointments sample_runtime sample_env
                   (Bearer (access_token alice)) short_id_body) sample_db)
     = false
  /\ has_status 400
       (outcome (V1.post_appointments sample_runtime sample_env
                   (Bearer (access_token alice)) short_id_body) sample_db)
     = true
  /\ has_status 404
       (outcome (V2.post_appointments sample_runtime sample_env
                   (Bearer (access_token alice)) short_id_body) sample_db)
     = false
  /\ has_status 400
       (outcome (V2.post_appointments sample_runtime sample_env
                   (Bearer (access_token alice)) short_id_body) sample_db)
     = true.
Proof. vm_compute. repeat split. Qed.

(** A [doctorId] of 24 characters that are not hexadecimal digits passes
    both schemas and makes [Doctor.findById] throw a [CastError]: the
    first variant answers 500, the second 400, neither 404. *)
Example booking_malformed_doctor_id :
  V1_booking_constraints malformed_id_body = true
  /\ V2_booking_constraints malformed_id_body = true
  /\ has_status 500
       (outcome (V1.post_appointments sample_runtime sample_env
                   (Bearer (access_token alice)) malformed_id_body) sample_db)
     = true
  /\ has_status 400
       (outcome (V2.post_appointments sample_runtime sample_env
                   (Bearer (access_token alice)) malformed_id_body) sample_db)
     = true.
Proof. vm_compute. repeat split. Qed.

(* ================================================================= *)
(** * Refreshing an access token *)

Section Refresh.

Variable L : Runtime.

Lemma jwt_verify_sign payload key ttl t t' :
  (t' / 1000 < t / 1000 + ttl)%Z ->
  jwt_verify (jwt_sign payload key ttl t) key t' = Some payload.
Proof.
  intros H. unfold jwt_verify, jwt_sign. rewrite String.eqb_refl.
  apply Z.ltb_lt in H. now rewrite H.
Qed.

(** Both variants answer 403 to a token that does not verify. *)
Lemma refresh_invalid_token env t db :
  token_truthy (Some t) = true ->
  jwt_verify t (JWT_REFRESH_SECRET L) (now env) = None ->
  run (V1.post_auth_refresh L env (Some t)) db
  = (Sent (json_error 403 "Invalid refresh token"), db, [])
  /\ run (V2.post_auth_refresh L env (Some t)) db
     = (Sent (json_error 403 "Invalid refresh token"), db, []).
Proof.
  intros Ht Hv. unfold run, V1.post_auth_refresh, V2.post_auth_refresh.
  rewrite Ht, Hv. split; reflexivity.
Qed.

(** The first variant re-signs the claims of the refresh token it gave
    the user: same subject, same role, no password asked. *)
Lemma V1_refresh_keeps_claims env env' user db :
  (now env' / 1000 < now env / 1000 + days_7)%Z ->
  let holder := mkClaims (u_id user) (Some (u_role user)) in
  let fresh_access := jwt_sign holder (JWT_SECRET L) minutes_15 (now env') in
  run (V1.post_auth_refresh L env' (Some (snd (V1.generateTokens L env user))))
    db
  = (access_response fresh_access, db, [])
  /\ jwt_verify fresh_access (JWT_SECRET L) (now env') = Some holder.
Proof.
  intros Hexp holder fresh_access. split.
  - unfold run, V1.post_auth_refresh, V1.generateTokens. cbn [snd].
    rewrite jwt_verify_sign by exact Hexp. reflexivity.
  - apply jwt_verify_sign. unfold minutes_15. lia.
Qed.

(** The second variant signs its refresh tokens without the role, so the
    access token it derives from one carries no role either. *)
Lemma V2_refresh_loses_role env env' id role db :
  (now env' / 1000 < now env / 1000 + days_7)%Z ->
  let fresh_access :=
    jwt_sign (mkClaims id None) (JWT_SECRET L) minutes_15 (now env') in
  run (V2.post_auth_refresh L env' (Some (snd (V2.generateTokens L env id role))))
    db
  = (access_response fresh_access, db, [])
  /\ jwt_verify fresh_access (JWT_SECRET L) (now env')
     = Some (mkClaims id None).
Proof.
  intros Hexp fresh_access. split.
  - unfold run, V2.post_auth_refresh, V2.generateTokens. cbn [snd].
    rewrite jwt_verify_sign by exact Hexp. reflexivity.
  - apply jwt_verify_sign. unfold minutes_15. lia.
Qed.

End Refresh.

(** C6 at the failing input.  In the second variant the administrator
    [root] logs in and is given an access token with role [admin] and a
    refresh token; a minute later the refresh of that token is answered
    with 200 and an access token whose subject is [root] but which has no
    role, and the admin routes answer 403 to it. *)
Theorem V2_refresh_drops_role :
  outcome (V2.post_auth_login sample_runtime sample_env
             (mkLoginBody (Some "admin@medicare.com") (Some "admin123")))
    sample_db
  = Sent (mkResponse 200
            (JObj [("accessToken", JTok (fst root_tokens));
                   ("refreshToken", JTok (snd root_tokens));
                   ("user", V2.user_summary root)]))
  /\ jwt_verify (fst root_tokens) (JWT_SECRET sample_runtime) (now later_env)
     = Some (mkClaims (u_id root) (Some admin))
  /\ outcome (V2.post_auth_refresh sample_runtime later_env
                (Some (snd root_tokens))) sample_db
     = access_response refreshed_token
  /\ jwt_verify refreshed_token (JWT_SECRET sample_runtime) (now later_env)
     = Some (mkClaims (u_id root) None)
  /\ outcome (V2.handle sample_runtime later_env
                (V2.AdminStats (Bearer (fst root_tokens)))) sample_db
     = Sent (mkResponse 200
               (JObj [("totalUsers", JNum 1); ("totalAppointments", JNum 0);
                      ("totalDoctors", JNum 2)]))
  /\ outcome (V2.handle sample_runtime later_env
                (V2.AdminStats (Bearer refreshed_token))) sample_db
     = Sent (json_error 403 "Admin access required").
Proof. vm_compute. repeat split. Qed.

(* ================================================================= *)
(** * Listing doctors: the [search] parameter is a pattern *)

Section Patterns.

Variable L : Runtime.

Lemma matches_prefix_alt a b s :
  matches_prefix L (Alt a b) s
  = matches_prefix L a s || matches_prefix L b s.
Proof.
  revert a b. induction s as [|x s IH]; intros a b; simpl.
  - now rewrite !orb_false_r.
  - rewrite IH.
    destruct (nullable a), (nullable b),
      (matches_prefix L (deriv L x a) s), (matches_prefix L (deriv L x b) s);
      reflexivity.
Qed.

Lemma matches_prefix_never_seq r s :
  matches_prefix L (Seq Never r) s = false.
Proof. induction s as [|x s IH]; simpl; [reflexivity | exact IH]. Qed.

Lemma matches_prefix_empty_seq r s :
  matches_prefix L (Seq Empty r) s = matches_prefix L r s.
Proof.
  destruct s as [|x s]; simpl; [now rewrite orb_false_r|].
  now rewrite matches_prefix_alt, matches_prefix_never_seq.
Qed.

Lemma matches_prefix_literal p s :
  matches_prefix L (literal p) s = ci_prefix L p s.
Proof.
  revert s. induction p as [|a p IH]; intros s; simpl.
  - now destruct s.
  - destruct s as [|b s]; [reflexivity|]. simpl.
    destruct (same_letter L a b); simpl.
    + now rewrite matches_prefix_empty_seq.
    + apply matches_prefix_never_seq.
Qed.

Lemma search_literal p s : search L (literal p) s = ci_contains L p s.
Proof.
  induction s as [|b s IH]; cbn [search ci_contains];
    rewrite matches_prefix_literal; [reflexivity | now rewrite IH].
Qed.

Lemma metachar_false c :
  metachar c = false ->
  Ascii.eqb c "(" = false /\ Ascii.eqb c ")" = false
  /\ Ascii.eqb c "|" = false /\ Ascii.eqb c "." = false
  /\ uninterpreted c = false.
Proof.
  unfold metachar. intros H. apply orb_false_iff in H as (Hu & H).
  cbn in H.
  destruct (Ascii.eqb c "."), (Ascii.eqb c "|"), (Ascii.eqb c "("),
    (Ascii.eqb c ")"); try discriminate.
  auto.
Qed.

Lemma metachar_uninterpreted p :
  string_exists metachar p = false -> string_exists uninterpreted p = false.
Proof.
  induction p as [|c p IH]; simpl; [reflexivity|].
  intros H. apply orb_false_iff in H as (Hc & Hp).
  apply metachar_false in Hc as (_ & _ & _ & _ & Hu).
  now rewrite Hu, IH.
Qed.

Lemma parse_literal p acc :
  string_exists metachar p = false ->
  parse p (mkFrame [] acc) []
  = Parsed (fold_left (fun r x => Seq x r) acc (literal p)).
Proof.
  revert acc. induction p as [|c p IH]; intros acc H; simpl in *.
  - reflexivity.
  - apply orb_false_iff in H as (Hc & Hp).
    apply metachar_false in Hc as (H1 & H2 & H3 & H4 & H5).
    rewrite H1, H2, H3, H4, H5. unfold push. cbn [alts items].
    rewrite IH by exact Hp. reflexivity.
Qed.

(** A pattern without metacharacters tests for itself as a substring,
    letters compared without regard to case. *)
Lemma mongo_regex_plain (p : string) :
  string_exists metachar p = false ->
  exists test, mongo_regex L p = Some test
               /\ forall s, test s = ci_contains L p s.
Proof.
  intros H. unfold mongo_regex, compile.
  rewrite metachar_uninterpreted by exact H.
  unfold empty_frame. rewrite parse_literal by exact H. cbn [fold_left].
  eexists. split; [reflexivity|]. apply search_literal.
Qed.

(** [.] tests for a character other than a line feed. *)
Lemma search_dot s :
  search L (Seq Any Empty) s = string_exists not_line_feed s.
Proof.
  induction s as [|x s IH]; [reflexivity|].
  cbn [search string_exists]. rewrite IH. f_equal.
  cbn [matches_prefix nullable andb orb deriv]. unfold not_line_feed.
  destruct (Ascii.eqb x line_feed); cbn [negb].
  - apply matches_prefix_never_seq.
  - rewrite matches_prefix_empty_seq. now destruct s.
Qed.

Lemma mongo_regex_dot : mongo_regex L "." = Some (search L (Seq Any Empty)).
Proof. reflexivity. Qed.

Lemma mongo_regex_open_paren : mongo_regex L "(" = None.
Proof. reflexivity. Qed.

End Patterns.

Section Listing.

Variable L : Runtime.

Lemma js_truthy_string (o : option string) :
  js_truthy (option_map JStr o) = truthy o.
Proof. now destruct o. Qed.

(** The filter the handlers build from parameters that are strings. *)
Lemma string_query (specialty search_ : option string) :
  mkDoctorQuery
    (if js_truthy (option_map JStr specialty)
     then option_map JStr specialty else None)
    (if js_truthy (option_map JStr search_)
     then option_map JStr search_ else None)
  = mkDoctorQuery
      (option_map JStr (if truthy specialty then specialty else None))
      (option_map JStr (if truthy search_ then search_ else None)).
Proof.
  rewrite !js_truthy_string.
  now destruct (truthy specialty), (truthy search_).
Qed.

(** What [Doctor.find] returns for the query the handlers build from
    parameters that are strings. *)
Lemma Doctor_find_query (specialty search_ : option string) db tr :
  Doctor_find L
    (mkDoctorQuery
       (option_map JStr (if truthy specialty then specialty else None))
       (option_map JStr (if truthy search_ then search_ else None))) db tr
  = match (if truthy search_ then search_ else None) with
    | None => (inr (filter (specialty_wanted specialty) (doctors db)), db,
               (tr ++ [DbRead Doctors])%list)
    | Some p =>
        match mongo_regex L p with
        | None => (inl RegexError, db, (tr ++ [DbRead Doctors])%list)
        | Some test =>
            (inr (filter (fun d => specialty_wanted specialty d
                                   && test (d_name d)) (doctors db)),
             db, (tr ++ [DbRead Doctors])%list)
        end
    end.
Proof.
  assert (Hsp : forall d,
    specialty_matches (if truthy specialty then specialty else None) d
    = specialty_wanted specialty d).
  { intros d. unfold specialty_matches, specialty_wanted, truthy.
    destruct specialty as [sp|]; [|reflexivity].
    destruct (sp =? ""); reflexivity. }
  unfold Doctor_find, call, bind, read_db. cbn [q_name q_specialty].
  replace (string_condition
             (option_map JStr (if truthy specialty then specialty else None)))
    with (Some (if truthy specialty then specialty else None))
    by (now destruct (if truthy specialty then specialty else None)).
  destruct (if truthy search_ then search_ else None) as [p|];
    cbn [option_map string_condition].
  - destruct (mongo_regex L p) as [test|]; [|reflexivity].
    unfold ret. f_equal. f_equal. f_equal. apply filter_ext. intros d.
    now rewrite Hsp.
  - unfold ret. f_equal. f_equal. f_equal. apply filter_ext. exact Hsp.
Qed.

Lemma listing_plain (specialty search_ : option string) db :
  plain_search search_ = true ->
  run (V1.get_doctors L (option_map JStr specialty) (option_map JStr search_))
    db
  = (listing_response (literal_listing L specialty search_ db), db,
     [DbRead Doctors])
  /\ run (V2.get_doctors L (option_map JStr specialty)
            (option_map JStr search_)) db
     = (listing_response (literal_listing L specialty search_ db), db,
        [DbRead Doctors]).
Proof.
  intros Hp.
  assert (Hfind :
    Doctor_find L
      (mkDoctorQuery
         (option_map JStr (if truthy specialty then specialty else None))
         (option_map JStr (if truthy search_ then search_ else None))) db []
    = (inr (literal_listing L specialty search_ db), db, [DbRead Doctors])).
  { rewrite Doctor_find_query. unfold literal_listing.
    destruct search_ as [s|]; cbn [truthy].
    - destruct (s =? "") eqn:Hs; cbn [negb].
      + apply String.eqb_eq in Hs. subst s. cbn [app]. do 3 f_equal.
        apply filter_ext. intros d.
        replace (ci_contains L "" (d_name d)) with true
          by (destruct (d_name d); reflexivity).
        now rewrite andb_true_r.
      + cbn [plain_search] in Hp. apply negb_true_iff in Hp.
        destruct (mongo_regex_plain L s Hp) as (test & -> & Htest).
        cbn [app]. do 3 f_equal. apply filter_ext. intros d.
        now rewrite Htest.
    - cbn [app]. do 3 f_equal. apply filter_ext. intros d.
      now rewrite andb_true_r. }
  split.
  - unfold run, V1.get_doctors, try_catch, bind.
    rewrite string_query, Hfind. reflexivity.
  - unfold run, V2.get_doctors, bind.
    rewrite string_query, Hfind. reflexivity.
Qed.

Lemma listing_dot (specialty : option string) db :
  run (V1.get_doctors L (option_map JStr specialty) (Some (JStr "."))) db
  = (listing_response (dot_listing specialty db), db, [DbRead Doctors])
  /\ run (V2.get_doctors L (option_map JStr specialty) (Some (JStr "."))) db
     = (listing_response (dot_listing specialty db), db, [DbRead Doctors]).
Proof.
  assert (Hfind :
    Doctor_find L
      (mkDoctorQuery
         (option_map JStr (if truthy specialty then specialty else None))
         (option_map JStr (if truthy (Some ".") then Some "." else None)))
      db []
    = (inr (dot_listing specialty db), db, [DbRead Doctors])).
  { rewrite Doctor_find_query. cbn [truthy String.eqb negb].
    change (truthy (Some ".")) with true. cbn iota.
    rewrite mongo_regex_dot. cbn [app]. do 3 f_equal.
    apply filter_ext. intros d. now rewrite search_dot. }
  change (Some (JStr ".")) with (option_map JStr (Some ".")).
  split.
  - unfold run, V1.get_doctors, try_catch, bind.
    rewrite string_query, Hfind. reflexivity.
  - unfold run, V2.get_doctors, bind.
    rewrite string_query, Hfind. reflexivity.
Qed.

Lemma listing_open_paren (specialty : option string) db :
  run (V1.get_doctors L (option_map JStr specialty) (Some (JStr "("))) db
  = (Sent (mkResponse 500
             (JObj [("error", JStr "Server error");
                    ("details", JStr (errMessage L RegexError))])),
     db, [DbRead Doctors])
  /\ run (V2.get_doctors L (option_map JStr specialty) (Some (JStr "("))) db
     = (Unhandled RegexError, db, [DbRead Doctors]).
Proof.
  assert (Hfind :
    Doctor_find L
      (mkDoctorQuery
         (option_map JStr (if truthy specialty then specialty else None))
         (option_map JStr (if truthy (Some "(") then Some "(" else None)))
      db []
    = (inl RegexError, db, [DbRead Doctors])).
  { rewrite Doctor_find_query. change (truthy (Some "(")) with true.
    cbn iota. rewrite mongo_regex_open_paren. reflexivity. }
  change (Some (JStr "(")) with (option_map JStr (Some "(")).
  split.
  - unfold run, V1.get_doctors, try_catch, bind.
    rewrite string_query, Hfind. reflexivity.
  - unfold run, V2.get_doctors, bind.
    rewrite string_query, Hfind. reflexivity.
Qed.

(** A parameter of the query string that is no string, an array or an
    object, goes into the filter as it is, and the listing is what
    [mongoFilter] makes of the filter. *)
Lemma listing_other (specialty search_ : option json) db :
  let q := mkDoctorQuery (if js_truthy specialty then specialty else None)
             (if js_truthy search_ then search_ else None) in
  string_condition (q_specialty q) = None
  \/ string_condition (q_name q) = None ->
  run (V1.get_doctors L specialty search_) db
  = (match mongoFilter L (query_doc q) with
     | inl e =>
         Sent (mkResponse 500
                 (JObj [("error", JStr "Server error");
                        ("details", JStr (errMessage L e))]))
     | inr test => listing_response (filter test (doctors db))
     end, db, [DbRead Doctors])
  /\ run (V2.get_doctors L specialty search_) db
     = (match mongoFilter L (query_doc q) with
        | inl e => Unhandled e
        | inr test => listing_response (filter test (doctors db))
        end, db, [DbRead Doctors]).
Proof.
  intros q Hq.
  assert (Hfind :
    Doctor_find L q db []
    = (match mongoFilter L (query_doc q) with
       | inl e => inl e
       | inr test => inr (filter test (doctors db))
       end, db, [DbRead Doctors])).
  { unfold Doctor_find, call, bind, read_db.
    destruct (string_condition (q_specialty q)) as [sp|],
      (string_condition (q_name q)) as [[p|]|];
      try (destruct Hq; discriminate);
      destruct (mongoFilter L (query_doc q)); reflexivity. }
  split.
  - unfold run, V1.get_doctors, try_catch, bind. fold q. rewrite Hfind.
    destruct (mongoFilter L (query_doc q)); reflexivity.
  - unfold run, V2.get_doctors, bind. fold q. rewrite Hfind.
    destruct (mongoFilter L (query_doc q)); reflexivity.
Qed.

End Listing.

(** C8, as the code has it, for parameters that are strings.  A listing
    answers 200 with all the doctors that meet the conditions, in one
    array.  A non-empty [specialty] keeps the doctors with exactly that
    specialty; a [search] of ordinary characters (no PCRE metacharacter,
    no NUL) keeps the doctors whose name contains it as a substring,
    letters compared without regard to case; absent or empty parameters
    put no condition, so that a listing without parameters returns every
    doctor. *)
Theorem listing_plain_search
    (L : Runtime) (specialty search_ : option string) (db : DB)
    (Hplain : plain_search search_ = true) :
  (outcome (V1.get_doctors L (option_map JStr specialty)
              (option_map JStr search_)) db
   = listing_response (literal_listing L specialty search_ db)
   /\ outcome (V2.get_doctors L (option_map JStr specialty)
                 (option_map JStr search_)) db
      = listing_response (literal_listing L specialty search_ db))
  /\ (forall sp,
        specialty = Some sp -> sp <> "" -> search_ = None ->
        outcome (V1.get_doctors L (Some (JStr sp)) None) db
        = listing_response (filter (fun d => d_specialty d =? sp) (doctors db))
        /\ outcome (V2.get_doctors L (Some (JStr sp)) None) db
           = listing_response
               (filter (fun d => d_specialty d =? sp) (doctors db)))
  /\ (forall s,
        specialty = None -> search_ = Some s ->
        outcome (V1.get_doctors L None (Some (JStr s))) db
        = listing_response
            (filter (fun d => ci_contains L s (d_name d)) (doctors db))
        /\ outcome (V2.get_doctors L None (Some (JStr s))) db
           = listing_response
               (filter (fun d => ci_contains L s (d_name d)) (doctors db)))
  /\ (specialty = None -> search_ = None ->
      outcome (V1.get_doctors L None None) db = listing_response (doctors db)
      /\ outcome (V2.get_doctors L None None) db
         = listing_response (doctors db)).
Proof.
  destruct (listing_plain L specialty search_ db Hplain) as (H1 & H2).
  assert (Hall : forall l : list Doctor, filter (fun _ => true && true) l = l).
  { induction l as [|d l IH]; [reflexivity|]. cbn [filter andb]. now f_equal. }
  unfold outcome. rewrite H1, H2. cbn [fst].
  split; [split; reflexivity|]. split; [|split].
  - intros sp -> Hsp ->. apply String.eqb_neq in Hsp.
    cbn [option_map] in H1, H2. rewrite H1, H2. cbn [fst].
    assert (E : literal_listing L (Some sp) None db
                = filter (fun d => d_specialty d =? sp) (doctors db)).
    { apply filter_ext. intros d. unfold specialty_wanted.
      now rewrite Hsp, andb_true_r. }
    now rewrite E.
  - intros s -> ->. cbn [option_map] in H1, H2. rewrite H1, H2. cbn [fst].
    split; reflexivity.
  - intros -> ->. cbn [option_map] in H1, H2. rewrite H1, H2. cbn [fst].
    unfold literal_listing, specialty_wanted. now rewrite Hall.
Qed.

Lemma listing_plain_search_witness :
  outcome (V1.get_doctors sample_runtime None (Some (JStr "john"))) sample_db
  = listing_response [sarah]
  /\ outcome (V2.get_doctors sample_runtime (Some (JStr "Pediatrics")) None)
       sample_db
     = listing_response [amy].
Proof.
  split.
  - exact (proj1 (proj1 (@listing_plain_search sample_runtime None
                           (Some "john") sample_db eq_refl))).
  - exact (proj2 (proj1 (@listing_plain_search sample_runtime
                           (Some "Pediatrics") None sample_db eq_refl))).
Defined.

(** C8 as stated fails: [search = "."] returns a doctor whose name does
    not contain a full stop. *)
Lemma listing_dot_is_not_literal :
  ci_contains sample_runtime "." (d_name amy) = false
  /\ literal_listing sample_runtime None (Some ".") sample_db = [sarah]
  /\ outcome (V1.get_doctors sample_runtime None (Some (JStr "."))) sample_db
     = listing_response [sarah; amy]
  /\ outcome (V2.get_doctors sample_runtime None (Some (JStr "."))) sample_db
     = listing_response [sarah; amy].
Proof. vm_compute. repeat split. Qed.

(** An empty [specialty] puts no condition, where no doctor has the empty
    specialty; and a [specialty] that is an object of the query string,
    as in [?specialty[$ne]=Cardiology], is an operator: on a server that
    reads it as MongoDB does, the listing is the doctors of the other
    specialties. *)
Lemma listing_specialty_empty_or_operator :
  filter (fun d => d_specialty d =? "") (doctors sample_db) = []
  /\ outcome (V1.get_doctors sample_runtime (Some (JStr "")) None) sample_db
     = listing_response [sarah; amy]
  /\ outcome (V2.get_doctors sample_runtime (Some (JStr "")) None) sample_db
     = listing_response [sarah; amy]
  /\ outcome
       (V1.get_doctors sample_runtime
          (Some (JObj [("$ne", JStr "Cardiology")])) None) sample_db
     = listing_response [amy]
  /\ outcome
       (V2.get_doctors sample_runtime
          (Some (JObj [("$ne", JStr "Cardiology")])) None) sample_db
     = listing_response [amy].
Proof. vm_compute. repeat split. Qed.

(** C10, as the code has it.  [search] is a pattern.  [search = "."]
    returns the doctors (of the wanted specialty) whose name has a
    character other than a line feed, which on [sample_db] is not what the
    literal reading returns.  [search = "("] is no pattern: the query
    fails, the first variant answers 500 and the second variant's handler
    rejects without an answer, where the literal reading would answer 200
    with the doctors whose name contains a parenthesis. *)
Theorem search_is_a_pattern
    (L : Runtime) (specialty : option string) (db : DB) :
  (outcome (V1.get_doctors L (option_map JStr specialty) (Some (JStr "."))) db
   = listing_response (dot_listing specialty db)
   /\ outcome (V2.get_doctors L (option_map JStr specialty) (Some (JStr ".")))
        db
      = listing_response (dot_listing specialty db))
  /\ dot_listing None sample_db <> literal_listing L None (Some ".") sample_db
  /\ (outcome (V1.get_doctors L (option_map JStr specialty) (Some (JStr "(")))
        db
      = Sent (mkResponse 500
                (JObj [("error", JStr "Server error");
                       ("details", JStr (errMessage L RegexError))]))
      /\ outcome (V2.get_doctors L (option_map JStr specialty)
                    (Some (JStr "("))) db
         = Unhandled RegexError)
  /\ outcome (V1.get_doctors L (option_map JStr specialty) (Some (JStr "(")))
       db
     <> listing_response (literal_listing L specialty (Some "(") db)
  /\ outcome (V2.get_doctors L (option_map JStr specialty) (Some (JStr "(")))
       db
     <> listing_response (literal_listing L specialty (Some "(") db).
Proof.
  destruct (listing_dot L specialty db) as (D1 & D2).
  destruct (listing_open_paren L specialty db) as (P1 & P2).
  unfold outcome. rewrite D1, D2, P1, P2. cbn [fst].
  repeat split; discriminate.
Qed.

Lemma search_is_a_pattern_witness :
  outcome (V1.get_doctors sample_runtime None (Some (JStr "."))) sample_db
  = listing_response [sarah; amy]
  /\ outcome (V2.get_doctors sample_runtime (Some (JStr "Cardiology"))
                (Some (JStr "("))) sample_db
     = Unhandled RegexError.
Proof.
  pose proof (search_is_a_pattern sample_runtime None sample_db)
    as ((H & _) & _).
  pose proof (search_is_a_pattern sample_runtime (Some "Cardiology") sample_db)
    as (_ & _ & (_ & H') & _).
  split; [exact H | exact H'].
Defined.

(** C10 as stated fails: a doctor whose name is a line feed has a
    non-empty name and [search = "."] does not return it. *)
Lemma dot_misses_line_feed_name :
  len (d_name line_feed_doctor) = 1%nat
  /\ outcome (V1.get_doctors sample_runtime None (Some (JStr "."))) line_feed_db
     = listing_response []
  /\ outcome (V2.get_doctors sample_runtime None (Some (JStr "."))) line_feed_db
     = listing_response [].
Proof. vm_compute. repeat split. Qed.

(* ================================================================= *)
(** * Passwords: what is stored and what is sent *)

Section MonadFacts.

Variable I : DB -> Prop.

Lemma keeps_ret {A : Type} (a : A) : keeps I (ret a).
Proof. intros db tr H. exact H. Qed.

Lemma keeps_throw {A : Type} (e : Err) : keeps I (@throw A e).
Proof. intros db tr H. exact H. Qed.

Lemma keeps_call op : keeps I (call op).
Proof. intros db tr H. exact H. Qed.

Lemma keeps_read_db : keeps I read_db.
Proof. intros db tr H. exact H. Qed.

Lemma keeps_lift {A : Type} (r : Err + A) : keeps I (lift r).
Proof. destruct r; intros db tr H; exact H. Qed.

Lemma keeps_bind {A B : Type} (m : M A) (k : A -> M B) :
  keeps I m -> (forall a, keeps I (k a)) -> keeps I (bind m k).
Proof.
  intros Hm Hk db tr H. unfold bind. specialize (Hm db tr H).
  destruct (m db tr) as ((r, db'), tr'). cbn in Hm.
  destruct r as [e|a]; [exact Hm | apply Hk; exact Hm].
Qed.

Lemma keeps_try_catch {A : Type} (m : M A) (h : Err -> M A) :
  keeps I m -> (forall e, keeps I (h e)) -> keeps I (try_catch m h).
Proof.
  intros Hm Hh db tr H. unfold try_catch. specialize (Hm db tr H).
  destruct (m db tr) as ((r, db'), tr'). cbn in Hm.
  destruct r as [e|a]; [apply Hh; exact Hm | exact Hm].
Qed.

Variable P : Response -> Prop.






End MonadFacts.

Lemma db_after_run (h : M Response) db : db_after h db = snd (fst (h db [])).
Proof.
  unfold db_after, run. now destruct (h db []) as ((res, db'), tr').
Qed.

(** ** The persistence operations keep the passwords hashed and the
    e-mails distinct *)

Lemma NoDup_snoc {A : Type} (l : list A) (x : A) :
  NoDup l -> ~ In x l -> NoDup (l ++ [x]).
Proof.
  induction l as [|a l IH]; intros Hl Hx; cbn.
  - constructor; [intros [] | constructor].
  - inversion Hl as [|? ? Ha Hl']; subst. constructor.
    + rewrite in_app_iff. intros [H | [H | []]]; [now apply Ha|].
      subst. apply Hx. now left.
    + apply IH; [exact Hl'|]. intros H. apply Hx. now right.
Qed.

Lemma existsb_email_false email (l : list User) :
  existsb (fun v => u_email v =? email) l = false ->
  ~ In email (map u_email l).
Proof.
  induction l as [|u l IH]; cbn; [tauto|].
  intros H. apply orb_false_iff in H as (Hu & Hl).
  intros [E | Hin]; [|now apply IH].
  rewrite E, String.eqb_refl in Hu. discriminate.
Qed.

Lemma keeps_User_create env name email phone password role :
  is_hashed password = true ->
  keeps users_ok (User_create env name email phone password role).
Proof.
  intros Hp db tr (Hh & Hu).
  unfold User_create, bind, call, read_db, throw, write_db, ret.
  cbn [fst snd]. cbv zeta.
  repeat match goal with
  | |- context [if ?c then _ else _] =>
      destruct c eqn:?; [split; assumption|]
  end.
  cbn. split.
  - unfold all_hashed in *. cbn. rewrite forallb_app, Hh. cbn. now rewrite Hp.
  - unfold emails_unique in *. cbn. rewrite map_app. cbn.
    apply NoDup_snoc; [exact Hu|]. now apply existsb_email_false.
Qed.

Lemma keeps_insert_doctor d : keeps users_ok (insert_doctor d).
Proof.
  intros db tr H.
  unfold insert_doctor, bind, call, read_db, throw, write_db, ret.
  cbn [fst snd].
  repeat match goal with
  | |- context [if ?c then _ else _] => destruct c; [exact H|]
  end.
  exact H.
Qed.

Lemma keeps_insert_doctors se docs n :
  keeps users_ok (insert_doctors se n docs).
Proof.
  revert n. induction docs as [|doc docs IH]; intros n; cbn [insert_doctors].
  - apply keeps_ret.
  - apply keeps_bind; [apply keeps_insert_doctor | intros _; apply IH].
Qed.

Lemma keeps_Appointment_create env doctor doctorName specialty patient_
    patientName date time symptoms phone st :
  keeps users_ok
    (Appointment_create env doctor doctorName specialty patient_ patientName
       date time symptoms phone st).
Proof.
  intros db tr H.
  unfold Appointment_create, bind, call, read_db, throw, write_db, ret.
  cbn [fst snd]. destruct date as [d|]; [|exact H].
  repeat match goal with
  | |- context [if ?c then _ else _] => destruct c; [exact H|]
  end.
  exact H.
Qed.

Lemma keeps_Appointment_save a : keeps users_ok (Appointment_save a).
Proof. intros db tr H. exact H. Qed.

Lemma keeps_Feedback_create L env strict patient_ doctor rating comment :
  keeps users_ok
    (Feedback_create L env strict patient_ doctor rating comment).
Proof.
  intros db tr H.
  unfold Feedback_create, bind, call, read_db, lift, throw, write_db, ret.
  cbn [fst snd].
  destruct (feedback_of L env strict patient_ doctor rating comment)
    as [e|f]; [exact H|].
  destruct (id_in (f_id f) (map f_id (feedbacks db))); exact H.
Qed.

Lemma keeps_Doctor_create L env name specialty rating reviews location
    availability fee image :
  keeps users_ok
    (Doctor_create L env name specialty rating reviews location availability
       fee image).
Proof.
  unfold Doctor_create.
  apply keeps_bind; [apply keeps_call | intros _].
  apply keeps_bind; [apply keeps_lift | intros d].
  apply keeps_insert_doctor.
Qed.

(** ** So do the handlers and the seeding *)

Ltac unfold_persistence :=
  unfold User_findOne, User_findById, User_find_patients, User_count,
    User_count_patients, Doctor_findById, Doctor_find,
    Doctor_count, Doctor_insertMany, Appointment_findById,
    Appointment_find_patient, Appointment_find_all, Appointment_count,
    Feedback_find_all.

Ltac keeps_auto :=
  repeat first
    [ apply keeps_ret | apply keeps_throw | apply keeps_call
    | apply keeps_read_db | apply keeps_lift
    | apply keeps_Appointment_save | apply keeps_Appointment_create
    | apply keeps_Feedback_create | apply keeps_Doctor_create
    | apply keeps_insert_doctor
    | apply keeps_insert_doctors
    | apply keeps_User_create; reflexivity
    | apply keeps_bind; [|intros ?]
    | apply keeps_try_catch; [|intros ?]
    | progress cbv beta zeta
    | match goal with
      | |- keeps _ (match ?x with _ => _ end) => destruct x
      end ].

Section Invariant.

Variable L : Runtime.

Lemma V1_handle_keeps_ok env req : keeps users_ok (V1.handle L env req).
Proof.
  destruct req; cbn [V1.handle];
    unfold V1.get_ping, V1.post_auth_register, V1.post_auth_login,
      V1.post_auth_refresh, V1.get_doctors, V1.post_admin_doctors,
      V1.post_appointments, V1.get_appointments, V1.patch_appointments_cancel,
      V1.get_admin_stats, V1.get_admin_appointments, V1.get_admin_users,
      V1.post_feedback, V1.get_feedback, V1.authenticate, V1.adminOnly,
      V1.on_error, V1.on_fault;
    unfold_persistence; keeps_auto.
Qed.

Lemma V2_handle_keeps_ok env req : keeps users_ok (V2.handle L env req).
Proof.
  destruct req; cbn [V2.handle];
    unfold V2.post_auth_register, V2.post_auth_login, V2.post_auth_refresh,
      V2.get_doctors, V2.post_appointments, V2.get_appointments,
      V2.admin_route, V2.get_admin_stats, V2.get_admin_appointments,
      V2.get_admin_users, V2.get_admin_feedback, V2.post_feedback,
      V2.authenticate, V2.adminOnly;
    unfold_persistence; keeps_auto.
Qed.

Lemma V1_seedData_keeps_ok se : keeps users_ok (V1.seedData se).
Proof. unfold V1.seedData. unfold_persistence. keeps_auto. Qed.

Lemma V2_seedData_keeps_ok se : keeps users_ok (V2.seedData se).
Proof. unfold V2.seedData. unfold_persistence. keeps_auto. Qed.

Lemma V1_reachable_ok db : V1.reachable L db -> users_ok db.
Proof.
  induction 1 as [|db ev _ IH]; [split; [reflexivity | constructor]|].
  destruct ev as [se|env req]; cbn [V1.step].
  - apply V1_seedData_keeps_ok. exact IH.
  - rewrite db_after_run. apply V1_handle_keeps_ok. exact IH.
Qed.

Lemma V2_reachable_ok db : V2.reachable L db -> users_ok db.
Proof.
  induction 1 as [|db ev _ IH]; [split; [reflexivity | constructor]|].
  destruct ev as [se|env req]; cbn [V2.step].
  - apply V2_seedData_keeps_ok. exact IH.
  - rewrite db_after_run. apply V2_handle_keeps_ok. exact IH.
Qed.

(** No database the server reaches has two users with one e-mail. *)
Lemma reachable_emails_unique db :
  V1.reachable L db \/ V2.reachable L db -> NoDup (map u_email (users db)).
Proof.
  intros [H | H]; [apply V1_reachable_ok in H | apply V2_reachable_ok in H];
    exact (proj2 H).
Qed.

End Invariant.

(** ** No response discloses a password *)





Section Responses.

Variable L : Runtime.



End Responses.

Section Disclosure.

Variable L : Runtime.












End Disclosure.



(* ================================================================= *)
(** * What a request may change *)

Lemma outcome_run (h : M Response) db :
  outcome h db = outcome_of (fst (fst (h db []))).
Proof. unfold outcome, run. now destruct (h db []) as ((r, db'), tr). Qed.

Lemma log_of_run (h : M Response) db : log_of h db = snd (h db []).
Proof. unfold log_of, run. now destruct (h db []) as ((r, db'), tr). Qed.

Section Quiet.

Lemma quiet_ret {A : Type} (a : A) : quiet (ret a).
Proof.
  intros db tr. split; [reflexivity|]. exists []. cbn.
  now rewrite app_nil_r.
Qed.

Lemma quiet_throw {A : Type} (e : Err) : quiet (@throw A e).
Proof.
  intros db tr. split; [reflexivity|]. exists []. cbn.
  now rewrite app_nil_r.
Qed.

Lemma quiet_lift {A : Type} (r : Err + A) : quiet (lift r).
Proof. destruct r; [apply quiet_throw | apply quiet_ret]. Qed.

Lemma quiet_read_db : quiet read_db.
Proof.
  intros db tr. split; [reflexivity|]. exists []. cbn.
  now rewrite app_nil_r.
Qed.

Lemma quiet_call_read c : quiet (call (DbRead c)).
Proof.
  intros db tr. split; [reflexivity|]. exists [DbRead c]. now cbn.
Qed.

Lemma quiet_bind {A B : Type} (m : M A) (k : A -> M B) :
  quiet m -> (forall a, quiet (k a)) -> quiet (bind m k).
Proof.
  intros Hm Hk db tr. unfold bind.
  destruct (Hm db tr) as (Hdb & e1 & Htr & Hw).
  destruct (m db tr) as ((r, db1), tr1). cbn in Hdb, Htr. subst db1 tr1.
  destruct r as [e|a].
  - cbn. split; [reflexivity|]. now exists e1.
  - destruct (Hk a db (tr ++ e1)%list) as (Hdb' & e2 & Htr' & Hw').
    split; [exact Hdb'|]. exists (e1 ++ e2)%list.
    rewrite Htr', app_assoc. split; [reflexivity|].
    unfold no_write in *. now rewrite forallb_app, Hw, Hw'.
Qed.

Lemma quiet_try_catch {A : Type} (m : M A) (h : Err -> M A) :
  quiet m -> (forall e, quiet (h e)) -> quiet (try_catch m h).
Proof.
  intros Hm Hh db tr. unfold try_catch.
  destruct (Hm db tr) as (Hdb & e1 & Htr & Hw).
  destruct (m db tr) as ((r, db1), tr1). cbn in Hdb, Htr. subst db1 tr1.
  destruct r as [e|a].
  - destruct (Hh e db (tr ++ e1)%list) as (Hdb' & e2 & Htr' & Hw').
    split; [exact Hdb'|]. exists (e1 ++ e2)%list.
    rewrite Htr', app_assoc. split; [reflexivity|].
    unfold no_write in *. now rewrite forallb_app, Hw, Hw'.
  - cbn. split; [reflexivity|]. now exists e1.
Qed.

Lemma quiet_run (h : M Response) db :
  quiet h -> db_after h db = db /\ no_write (log_of h db) = true.
Proof.
  intros Hq. rewrite db_after_run, log_of_run.
  destruct (Hq db []) as (Hdb & ext & Htr & Hw).
  split; [exact Hdb|]. rewrite Htr. exact Hw.
Qed.

End Quiet.

Ltac unfold_reads :=
  unfold User_findOne, User_findById, User_find_patients, User_count,
    User_count_patients, Doctor_findById, Doctor_find, Doctor_count,
    Appointment_findById, Appointment_find_patient, Appointment_find_all,
    Appointment_count, Feedback_find_all.

Ltac quiet_auto :=
  repeat first
    [ apply quiet_ret | apply quiet_throw | apply quiet_lift
    | apply quiet_call_read | apply quiet_read_db
    | apply quiet_bind; [|intros ?]
    | apply quiet_try_catch; [|intros ?]
    | progress cbv beta zeta
    | match goal with
      | |- quiet (match ?x with _ => _ end) => destruct x
      end ].

Section AllOrNothing.

Lemma aon_quiet (m : M Response) : quiet m -> all_or_nothing m.
Proof. intros Hq db tr _. exact (proj1 (Hq db tr)). Qed.

Lemma aon_bind_quiet {A : Type} (m : M A) (k : A -> M Response) :
  quiet m -> (forall a, all_or_nothing (k a)) -> all_or_nothing (bind m k).
Proof.
  intros Hm Hk db tr. unfold bind.
  destruct (Hm db tr) as (Hdb & _).
  destruct (m db tr) as ((r, db1), tr1). cbn in Hdb. subst db1.
  destruct r as [e|a]; [reflexivity | apply Hk].
Qed.

Lemma aon_bind_write {A : Type} (m : M A) (k : A -> M Response) :
  fails_clean m -> (forall a, answers_200 (k a)) -> all_or_nothing (bind m k).
Proof.
  intros Hm Hk db tr. unfold bind. specialize (Hm db tr).
  destruct (m db tr) as ((r, db1), tr1). cbn in Hm.
  destruct r as [e|a]; [intros _; exact Hm|].
  destruct (Hk a db1 tr1) as (r & Hr & Hs). rewrite Hr. cbn.
  rewrite Hs. discriminate.
Qed.

Lemma aon_try_catch (m : M Response) (h : Err -> M Response) :
  all_or_nothing m -> (forall e, quiet (h e)) ->
  all_or_nothing (try_catch m h).
Proof.
  intros Hm Hh db tr. unfold try_catch. specialize (Hm db tr).
  destruct (m db tr) as ((r, db1), tr1). cbn in Hm.
  destruct r as [e|a]; [|exact Hm].
  intros _. rewrite (proj1 (Hh e db1 tr1)). now apply Hm.
Qed.

Lemma answers_200_ret code b : code = 200%nat -> answers_200 (ret (mkResponse code b)).
Proof. intros -> db tr. eexists. split; reflexivity. Qed.

Lemma fails_clean_User_create env name email phone password role :
  fails_clean (User_create env name email phone password role).
Proof.
  intros db tr.
  unfold User_create, bind, call, read_db, throw, write_db, ret.
  cbn [fst snd]. cbv zeta.
  repeat match goal with
  | |- context [if ?c then _ else _] => destruct c; [reflexivity|]
  end.
  exact I.
Qed.

Lemma fails_clean_Doctor_create L env name specialty rating reviews location
    availability fee image :
  fails_clean
    (Doctor_create L env name specialty rating reviews location availability
       fee image).
Proof.
  intros db tr.
  unfold Doctor_create, insert_doctor, bind, call, read_db, lift, throw,
    write_db, ret.
  cbn [fst snd].
  destruct (doctor_of L env name specialty rating reviews location
              availability fee image) as [e|d]; [reflexivity|].
  repeat match goal with
  | |- context [if ?c then _ else _] => destruct c; [reflexivity|]
  end.
  exact I.
Qed.

Lemma fails_clean_Appointment_create env doctor doctorName specialty patient_
    patientName date time symptoms phone st :
  fails_clean
    (Appointment_create env doctor doctorName specialty patient_ patientName
       date time symptoms phone st).
Proof.
  intros db tr.
  unfold Appointment_create, bind, call, read_db, throw, write_db, ret.
  cbn [fst snd]. destruct date as [d|]; [|reflexivity].
  repeat match goal with
  | |- context [if ?c then _ else _] => destruct c; [reflexivity|]
  end.
  exact I.
Qed.

Lemma fails_clean_Appointment_save a : fails_clean (Appointment_save a).
Proof. intros db tr. exact I. Qed.

Lemma fails_clean_Feedback_create L env strict patient_ doctor rating
    comment :
  fails_clean (Feedback_create L env strict patient_ doctor rating comment).
Proof.
  intros db tr.
  unfold Feedback_create, bind, call, read_db, lift, throw, write_db, ret.
  cbn [fst snd].
  destruct (feedback_of L env strict patient_ doctor rating comment)
    as [e|f]; [reflexivity|].
  destruct (id_in (f_id f) (map f_id (feedbacks db))); [reflexivity|].
  exact I.
Qed.

End AllOrNothing.

Ltac aon_auto :=
  repeat first
    [ apply aon_quiet; solve [quiet_auto]
    | apply aon_try_catch; [|intros ?; solve [quiet_auto]]
    | apply aon_bind_write;
      [ first [ apply fails_clean_User_create | apply fails_clean_Doctor_create
              | apply fails_clean_Appointment_create
              | apply fails_clean_Appointment_save
              | apply fails_clean_Feedback_create ]
      | intros ?; cbv beta zeta; apply answers_200_ret; reflexivity ]
    | apply aon_bind_quiet; [solve [quiet_auto] | intros ?]
    | progress cbv beta zeta
    | match goal with
      | |- all_or_nothing (match ?x with _ => _ end) => destruct x
      end ].

Section Changes.

Variable L : Runtime.

Lemma V1_handle_all_or_nothing env req : all_or_nothing (V1.handle L env req).
Proof.
  destruct req; cbn [V1.handle];
    unfold V1.get_ping, V1.post_auth_register, V1.post_auth_login,
      V1.post_auth_refresh, V1.get_doctors, V1.post_admin_doctors,
      V1.post_appointments, V1.get_appointments, V1.patch_appointments_cancel,
      V1.get_admin_stats, V1.get_admin_appointments, V1.get_admin_users,
      V1.post_feedback, V1.get_feedback, V1.authenticate, V1.adminOnly,
      V1.on_error, V1.on_fault;
    unfold_reads; aon_auto.
Qed.

Lemma V2_handle_all_or_nothing env req : all_or_nothing (V2.handle L env req).
Proof.
  destruct req; cbn [V2.handle];
    unfold V2.post_auth_register, V2.post_auth_login, V2.post_auth_refresh,
      V2.get_doctors, V2.post_appointments, V2.get_appointments,
      V2.admin_route, V2.get_admin_stats, V2.get_admin_appointments,
      V2.get_admin_users, V2.get_admin_feedback, V2.post_feedback,
      V2.authenticate, V2.adminOnly;
    unfold_reads; aon_auto.
Qed.

Lemma V1_reads_only_quiet env req :
  V1_reads_only req = true -> quiet (V1.handle L env req).
Proof.
  destruct req; try discriminate; intros _; cbn [V1.handle];
    unfold V1.get_ping, V1.post_auth_login, V1.post_auth_refresh,
      V1.get_doctors, V1.get_appointments, V1.get_admin_stats,
      V1.get_admin_appointments, V1.get_admin_users, V1.get_feedback,
      V1.authenticate, V1.adminOnly, V1.on_error, V1.on_fault;
    unfold_reads; quiet_auto.
Qed.

Lemma V2_reads_only_quiet env req :
  V2_reads_only req = true -> quiet (V2.handle L env req).
Proof.
  destruct req; try discriminate; intros _; cbn [V2.handle];
    unfold V2.post_auth_login, V2.post_auth_refresh, V2.get_doctors,
      V2.get_appointments, V2.admin_route, V2.get_admin_stats,
      V2.get_admin_appointments, V2.get_admin_users, V2.get_admin_feedback,
      V2.authenticate, V2.adminOnly;
    unfold_reads; quiet_auto.
Qed.

End Changes.

(** X1.  A request that is not answered with 200, whether it is answered
    with an error or not answered at all, leaves the database exactly as
    it was: no route of either variant writes and then fails. *)
Theorem failed_request_changes_nothing (L : Runtime) (env : Env) (db : DB) :
  (forall req,
     has_status 200 (outcome (V1.handle L env req) db) = false ->
     db_after (V1.handle L env req) db = db)
  /\ (forall req,
        has_status 200 (outcome (V2.handle L env req) db) = false ->
        db_after (V2.handle L env req) db = db).
Proof.
  split; intros req H; rewrite outcome_run in H; rewrite db_after_run.
  - now apply V1_handle_all_or_nothing.
  - now apply V2_handle_all_or_nothing.
Qed.

Lemma failed_request_changes_nothing_witness :
  db_after (V1.handle sample_runtime sample_env
              (V1.Book (Bearer (access_token alice)) malformed_id_body))
    sample_db = sample_db
  /\ db_after (V2.handle sample_runtime sample_env
                 (V2.PostFeedback (mkFeedbackBody None None None None)))
       sample_db = sample_db.
Proof.
  destruct (failed_request_changes_nothing sample_runtime sample_env sample_db)
    as (H1 & H2).
  split; [apply H1 | apply H2]; reflexivity.
Defined.

(** X2.  The routes that read (ping, login, refresh, the listings, the
    statistics) never change the database and never issue a write,
    whatever they are sent and whatever they answer. *)
Theorem reading_routes_write_nothing
    (L : Runtime) (env : Env) (db : DB) :
  (forall req, V1_reads_only req = true ->
     db_after (V1.handle L env req) db = db
     /\ no_write (log_of (V1.handle L env req) db) = true)
  /\ (forall req, V2_reads_only req = true ->
        db_after (V2.handle L env req) db = db
        /\ no_write (log_of (V2.handle L env req) db) = true).
Proof.
  split; intros req H; apply quiet_run.
  - now apply V1_reads_only_quiet.
  - now apply V2_reads_only_quiet.
Qed.

Lemma reading_routes_write_nothing_witness :
  db_after (V1.handle sample_runtime sample_env
              (V1.Login (mkLoginBody (Some "a@x.com") (Some "secret1"))))
    sample_db = sample_db
  /\ no_write
       (log_of (V2.handle sample_runtime sample_env
                  (V2.AdminUsers (Bearer (access_token root)))) sample_db)
     = true.
Proof.
  destruct (reading_routes_write_nothing sample_runtime sample_env sample_db)
    as (H1 & H2).
  split.
  - apply (H1 (V1.Login (mkLoginBody (Some "a@x.com") (Some "secret1")))).
    reflexivity.
  - apply (H2 (V2.AdminUsers (Bearer (access_token root)))). reflexivity.
Defined.

(** X3.  A route behind [authenticate] called without a header, with a
    header that is no bearer token, or with a token that does not verify
    (forged, signed with another key, expired) answers 401 before any
    persistence call: the log is empty and the database is as it was. *)
Theorem protected_routes_need_a_token
    (L : Runtime) (env : Env) (db : DB) (auth : Authorization)
    (Hno : verified L env auth = None) :
  (forall req, V1_authorization req = Some auth ->
     has_status 401 (outcome (V1.handle L env req) db) = true
     /\ log_of (V1.handle L env req) db = []
     /\ db_after (V1.handle L env req) db = db)
  /\ (forall req, V2_authorization req = Some auth ->
        has_status 401 (outcome (V2.handle L env req) db) = true
        /\ log_of (V2.handle L env req) db = []
        /\ db_after (V2.handle L env req) db = db).
Proof.
  split; intros req Hreq.
  - assert (Hrun : exists m, run (V1.handle L env req) db
                             = (Sent (json_error 401 m), db, [])).
    { destruct req; try discriminate Hreq; injection Hreq as ->;
        cbn [V1.handle];
        unfold run, V1.post_admin_doctors, V1.post_appointments,
          V1.get_appointments, V1.patch_appointments_cancel,
          V1.get_admin_stats, V1.get_admin_appointments, V1.get_admin_users,
          V1.authenticate;
        destruct auth as [| |token]; try (eexists; reflexivity);
        cbn in Hno; rewrite Hno; eexists; reflexivity. }
    destruct Hrun as (m & Hrun). unfold outcome, log_of, db_after.
    rewrite Hrun. repeat split.
  - assert (Hrun : exists m, run (V2.handle L env req) db
                             = (Sent (json_error 401 m), db, [])).
    { destruct req; try discriminate Hreq; injection Hreq as ->;
        cbn [V2.handle];
        unfold run, V2.post_appointments, V2.get_appointments,
          V2.admin_route, V2.authenticate;
        destruct auth as [| |token]; try (eexists; reflexivity);
        cbn in Hno; rewrite Hno; eexists; reflexivity. }
    destruct Hrun as (m & Hrun). unfold outcome, log_of, db_after.
    rewrite Hrun. repeat split.
Qed.

Lemma protected_routes_need_a_token_witness :
  has_status 401
    (outcome (V1.handle sample_runtime later_env
                (V1.AdminUsers (Bearer (Garbage "not a token")))) sample_db)
  = true
  /\ log_of (V2.handle sample_runtime later_env
               (V2.Book NoHeader booking_body)) sample_db = [].
Proof.
  split.
  - apply (@protected_routes_need_a_token sample_runtime later_env sample_db
             (Bearer (Garbage "not a token")) eq_refl).
    reflexivity.
  - apply (@protected_routes_need_a_token sample_runtime later_env sample_db
             NoHeader eq_refl).
    reflexivity.
Defined.

(** X4.  A route behind [adminOnly] called with a valid access token
    whose role is not [admin] answers 403 "Admin access required" before
    any persistence call. *)
Theorem admin_routes_need_the_admin_role
    (L : Runtime) (env : Env) (db : DB) (auth : Authorization) (user : Claims)
    (Hv : verified L env auth = Some user)
    (Hrole : c_role user <> Some admin) :
  (forall req, V1_admin_route req = true -> V1_authorization req = Some auth ->
     run (V1.handle L env req) db
     = (Sent (json_error 403 "Admin access required"), db, []))
  /\ (forall req, V2_admin_route req = true -> V2_authorization req = Some auth ->
        run (V2.handle L env req) db
        = (Sent (json_error 403 "Admin access required"), db, [])).
Proof.
  assert (H1 : V1.is_admin user = false).
  { unfold V1.is_admin. destruct (c_role user) as [[]|]; congruence. }
  assert (H2 : V2.is_admin user = false).
  { unfold V2.is_admin. destruct (c_role user) as [[]|]; congruence. }
  destruct auth as [| |token]; try discriminate Hv. cbn in Hv.
  split; intros req Hadm Hreq.
  - destruct req; try discriminate Hadm; injection Hreq as ->;
      cbn [V1.handle];
      unfold run, V1.post_admin_doctors, V1.get_admin_stats,
        V1.get_admin_appointments, V1.get_admin_users, V1.authenticate,
        V1.adminOnly;
      rewrite Hv, H1; reflexivity.
  - destruct req; try discriminate Hadm; injection Hreq as ->;
      cbn [V2.handle];
      unfold run, V2.admin_route, V2.authenticate, V2.adminOnly;
      rewrite Hv, H2; reflexivity.
Qed.

Lemma admin_routes_need_the_admin_role_witness :
  run (V1.handle sample_runtime sample_env
         (V1.AdminUsers (Bearer (access_token alice)))) sample_db
  = (Sent (json_error 403 "Admin access required"), sample_db, [])
  /\ run (V2.handle sample_runtime later_env
            (V2.AdminStats (Bearer refreshed_token))) sample_db
     = (Sent (json_error 403 "Admin access required"), sample_db, []).
Proof.
  split.
  - apply (@admin_routes_need_the_admin_role sample_runtime sample_env
             sample_db (Bearer (access_token alice))
             (mkClaims (oid "a1") (Some patient)) eq_refl);
      [discriminate | reflexivity | reflexivity].
  - apply (@admin_routes_need_the_admin_role sample_runtime later_env
             sample_db (Bearer refreshed_token)
             (mkClaims (oid "a0") None) eq_refl);
      [discriminate | reflexivity | reflexivity].
Defined.

(* ================================================================= *)
(** * Tokens *)

(** X5.  An access token is accepted by [authenticate] for 900 seconds
    from the second it was signed in and refused from then on; a refresh
    token is accepted by the refresh route for 604800 seconds.  When the
    two signing secrets differ the classes do not mix: a refresh token is
    no access token, and the refresh route answers 403 to an access
    token.  Both variants. *)
Theorem token_lifetimes
    (L : Runtime) (env env' : Env) (user : User) (db : DB) :
  let issued := (now env / 1000)%Z in
  let clock := (now env' / 1000)%Z in
  let t1 := V1.generateTokens L env user in
  let t2 := V2.generateTokens L env (u_id user) (Some (u_role user)) in
  (verified L env' (Bearer (fst t1))
   = if (clock <? issued + 900)%Z then Some (claims_of user) else None)
  /\ (verified L env' (Bearer (fst t2))
      = if (clock <? issued + 900)%Z then Some (claims_of user) else None)
  /\ (has_status 200 (outcome (V1.post_auth_refresh L env' (Some (snd t1))) db)
      = (clock <? issued + 604800)%Z)
  /\ (has_status 200 (outcome (V2.post_auth_refresh L env' (Some (snd t2))) db)
      = (clock <? issued + 604800)%Z)
  /\ (JWT_SECRET L <> JWT_REFRESH_SECRET L ->
      verified L env' (Bearer (snd t1)) = None
      /\ verified L env' (Bearer (snd t2)) = None
      /\ outcome (V1.post_auth_refresh L env' (Some (fst t1))) db
         = Sent (json_error 403 "Invalid refresh token")
      /\ outcome (V2.post_auth_refresh L env' (Some (fst t2))) db
         = Sent (json_error 403 "Invalid refresh token")).
Proof.
  intros issued clock t1 t2.
  unfold t1, t2, V1.generateTokens, V2.generateTokens, verified, jwt_verify,
    jwt_sign, outcome, run, V1.post_auth_refresh, V2.post_auth_refresh,
    jwt_verify, minutes_15, days_7, claims_of.
  cbn [fst snd token_truthy negb]. rewrite !String.eqb_refl. cbn [andb].
  fold issued clock.
  change (15 * 60)%Z with 900%Z. change (7 * 24 * 60 * 60)%Z with 604800%Z.
  split; [reflexivity|]. split; [reflexivity|].
  split; [destruct (clock <? issued + 604800)%Z; reflexivity|].
  split; [destruct (clock <? issued + 604800)%Z; reflexivity|].
  intros Hneq.
  assert (H1 : (JWT_SECRET L =? JWT_REFRESH_SECRET L) = false)
    by now apply String.eqb_neq.
  assert (H2 : (JWT_REFRESH_SECRET L =? JWT_SECRET L) = false)
    by (apply String.eqb_neq; congruence).
  rewrite H1, H2. cbn. repeat split.
Qed.

Lemma token_lifetimes_witness :
  verified sample_runtime later_env (Bearer (access_token alice))
  = Some (claims_of alice)
  /\ verified sample_runtime later_env
       (Bearer (snd (V1.generateTokens sample_runtime sample_env alice)))
     = None.
Proof.
  pose proof (token_lifetimes sample_runtime sample_env later_env alice
                sample_db) as (H1 & _ & _ & _ & H5).
  split; [exact H1|]. apply H5. discriminate.
Defined.

(* ================================================================= *)
(** * Registration and login *)

Lemma toLowerCase_empty s : toLowerCase s = "" -> s = "".
Proof. destruct s; [reflexivity | discriminate]. Qed.

Lemma find_app_last {A : Type} (f : A -> bool) (l : list A) (x : A) :
  existsb f l = false -> f x = true -> find f (l ++ [x]) = Some x.
Proof.
  induction l as [|a l IH]; cbn; intros Hl Hx.
  - now rewrite Hx.
  - apply orb_false_iff in Hl as (Ha & Hl). rewrite Ha. now apply IH.
Qed.

Section Registration.

Variable L : Runtime.

Lemma User_create_run env db tr d :
  can_register env db d = true ->
  rd_phone d <> "" ->
  User_create env (rd_name d) (rd_email d) (rd_phone d)
    (bcrypt_hash (rd_password d) 10 (salt env)) None db tr
  = (inr (registered_user env d), with_user db (registered_user env d),
     (tr ++ [DbWrite Users])%list).
Proof.
  unfold can_register, email_taken. intros Hc Hp.
  apply andb_true_iff in Hc as (Hc & Hid).
  apply andb_true_iff in Hc as (Hc & Ht).
  apply andb_true_iff in Hc as (Hn & He).
  apply negb_true_iff in Hn, He, Ht, Hid.
  unfold User_create, bind, call, read_db, throw, write_db, ret.
  cbn [fst snd u_name u_email u_phone u_password u_id]. cbv zeta.
  cbn [u_name u_email u_phone u_password u_id bcrypt_hash empty_password].
  rewrite Hn.
  replace (toLowerCase (rd_email d) =? "") with false.
  2:{ symmetry. apply String.eqb_neq. intros E.
      apply toLowerCase_empty in E. rewrite E in He. discriminate. }
  replace (rd_phone d =? "") with false
    by (symmetry; now apply String.eqb_neq).
  rewrite Hid, Ht. reflexivity.
Qed.

Lemma V1_register_phone b d :
  V1.registerSchema L b = inr d -> rd_phone d <> "".
Proof.
  unfold V1.registerSchema.
  destruct (rb_name b), (rb_email b), (rb_phone b) as [ph|], (rb_password b),
    (rb_confirmPassword b); try discriminate.
  unfold z_string. cbn [flat_map check_issue app].
  destruct (6 <=? len ph)%nat eqn:Hph.
  - match goal with |- context [match ?l with [] => _ | _ :: _ => _ end] =>
      destruct l end; intros H; [|discriminate].
    injection H as <-. cbn. intros ->. discriminate Hph.
  - match goal with |- context [match ?l with [] => _ | _ :: _ => _ end] =>
      destruct l eqn:Hl end; intros H; [|discriminate].
    exfalso. repeat (apply app_eq_nil in Hl as (? & Hl)).
    repeat match goal with
    | H' : (_ ++ _)%list = [] |- _ => apply app_eq_nil in H' as (? & ?)
    end.
    discriminate.
Qed.

Lemma V2_register_phone b d :
  V2.registerSchema L b = inr d -> rd_phone d <> "".
Proof.
  unfold V2.registerSchema.
  destruct (rb_name b), (rb_email b), (rb_phone b) as [ph|], (rb_password b),
    (rb_confirmPassword b); try discriminate.
  unfold z_string. cbn [flat_map check_issue app].
  destruct (re_phone ph) eqn:Hph.
  - match goal with |- context [match ?l with [] => _ | _ :: _ => _ end] =>
      destruct l end; intros H; [|discriminate].
    injection H as <-. cbn. intros ->. discriminate Hph.
  - match goal with |- context [match ?l with [] => _ | _ :: _ => _ end] =>
      destruct l eqn:Hl end; intros H; [|discriminate].
    exfalso. repeat (apply app_eq_nil in Hl as (? & Hl)).
    repeat match goal with
    | H' : (_ ++ _)%list = [] |- _ => apply app_eq_nil in H' as (? & ?)
    end.
    discriminate.
Qed.

End Registration.

Lemma find_existsb_false {A : Type} (f : A -> bool) (l : list A) :
  existsb f l = false -> find f l = None.
Proof.
  induction l as [|a l IH]; cbn; [reflexivity|].
  intros H. apply orb_false_iff in H as (Ha & Hl). rewrite Ha. now apply IH.
Qed.

Lemma can_register_free env db d :
  can_register env db d = true -> email_taken db (rd_email d) = false.
Proof.
  unfold can_register. intros H.
  apply andb_true_iff in H as (H & _). apply andb_true_iff in H as (_ & H).
  now apply negb_true_iff in H.
Qed.

Section RegistrationRuns.

Variable L : Runtime.
Variables (env : Env) (db : DB).

Lemma V1_register_run b d :
  V1.registerSchema L b = inr d ->
  can_register env db d = true ->
  let u := registered_user env d in
  run (V1.post_auth_register L env b) db
  = (Sent (mkResponse 200
             (JObj [("message", JStr "Registered");
                    ("user", JObj [("id", JStr (u_id u));
                                   ("name", JStr (u_name u));
                                   ("email", JStr (u_email u))]);
                    ("accessToken", JTok (fst (V1.generateTokens L env u)));
                    ("refreshToken", JTok (snd (V1.generateTokens L env u)))])),
     with_user db u, [DbRead Users; DbWrite Users]).
Proof.
  intros Hs Hc u.
  assert (Hp : rd_phone d <> "") by (eapply V1_register_phone; exact Hs).
  assert (Hf := can_register_free env db d Hc).
  unfold run, V1.post_auth_register, try_catch.
  unfold bind at 1. unfold lift. rewrite Hs.
  unfold bind at 1. unfold User_findOne, bind, call, read_db, ret.
  cbn [fst snd app].
  unfold email_taken in Hf. rewrite (find_existsb_false _ _ Hf).
  fold (@bind User Response).
  unfold bind. rewrite (User_create_run env db _ d Hc Hp).
  reflexivity.
Qed.

Lemma V2_register_run b d :
  V2.registerSchema L b = inr d ->
  can_register env db d = true ->
  let u := registered_user env d in
  run (V2.post_auth_register L env b) db
  = (Sent (mkResponse 200
             (JObj [("message", JStr "Registered successfully");
                    ("accessToken",
                     JTok (fst (V2.generateTokens L env (u_id u)
                                  (Some (u_role u)))));
                    ("refreshToken",
                     JTok (snd (V2.generateTokens L env (u_id u)
                                  (Some (u_role u)))));
                    ("user", V2.user_summary u)])),
     with_user db u, [DbRead Users; DbWrite Users]).
Proof.
  intros Hs Hc u.
  assert (Hp : rd_phone d <> "") by (eapply V2_register_phone; exact Hs).
  assert (Hf := can_register_free env db d Hc).
  unfold run, V2.post_auth_register, try_catch.
  unfold bind at 1. unfold lift. rewrite Hs.
  unfold bind at 1. unfold User_findOne, bind, call, read_db, ret.
  cbn [fst snd app].
  unfold email_taken in Hf. rewrite (find_existsb_false _ _ Hf).
  unfold bind. rewrite (User_create_run env db _ d Hc Hp).
  reflexivity.
Qed.

End RegistrationRuns.

Lemma trim_start_blank s :
  string_forall is_space s = true -> trim_start s = "".
Proof.
  induction s as [|c s IH]; cbn; [reflexivity|].
  intros H. apply andb_true_iff in H as (Hc & Hs). rewrite Hc. now apply IH.
Qed.

Lemma trim_blank s : string_forall is_space s = true -> trim s = "".
Proof. intros H. unfold trim. now rewrite (trim_start_blank _ H). Qed.

(** X6.  A registration that passes the schema, with a name that is not
    blank and an e-mail nobody holds, answers 200 and appends exactly one
    user: the name trimmed, the e-mail in lower case, the password as its
    bcrypt digest of cost 10, the role [patient].  The access token of the
    answer is accepted by [authenticate] at once, for that user and that
    role.  Both variants. *)
Theorem registration_creates_a_patient
    (L : Runtime) (env : Env) (db : DB) (b : RegisterBody)
    (d : RegisterData) :
  can_register env db d = true ->
  let u :=
    mkUser (fresh env) (trim (rd_name d)) (toLowerCase (rd_email d))
      (rd_phone d) (Bcrypt 10 (salt env) (rd_password d)) patient (now env)
      true in
  (V1.registerSchema L b = inr d ->
   exists access refresh_,
     run (V1.post_auth_register L env b) db
     = (Sent (mkResponse 200
                (JObj [("message", JStr "Registered");
                       ("user", JObj [("id", JStr (fresh env));
                                      ("name", JStr (trim (rd_name d)));
                                      ("email",
                                       JStr (toLowerCase (rd_email d)))]);
                       ("accessToken", JTok access);
                       ("refreshToken", JTok refresh_)])),
        set_users db (users db ++ [u])%list, [DbRead Users; DbWrite Users])
     /\ verified L env (Bearer access)
        = Some (mkClaims (fresh env) (Some patient)))
  /\ (V2.registerSchema L b = inr d ->
      exists access refresh_,
        run (V2.post_auth_register L env b) db
        = (Sent (mkResponse 200
                   (JObj [("message", JStr "Registered successfully");
                          ("accessToken", JTok access);
                          ("refreshToken", JTok refresh_);
                          ("user",
                           JObj [("id", JStr (fresh env));
                                 ("name", JStr (trim (rd_name d)));
                                 ("email", JStr (toLowerCase (rd_email d)));
                                 ("role", JStr "patient")])])),
           set_users db (users db ++ [u])%list, [DbRead Users; DbWrite Users])
        /\ verified L env (Bearer access)
           = Some (mkClaims (fresh env) (Some patient))).
Proof.
  intros Hc u.
  assert (Hlt : (now env / 1000 <? now env / 1000 + minutes_15)%Z = true)
    by (apply Z.ltb_lt; unfold minutes_15; lia).
  split; intros Hs.
  - eexists _, _. split.
    + rewrite (V1_register_run L env db b Hs Hc). reflexivity.
    + unfold verified, V1.generateTokens, jwt_sign, jwt_verify.
      cbn [fst]. rewrite String.eqb_refl, Hlt. reflexivity.
  - eexists _, _. split.
    + rewrite (V2_register_run L env db b Hs Hc). reflexivity.
    + unfold verified, V2.generateTokens, jwt_sign, jwt_verify.
      cbn [fst]. rewrite String.eqb_refl, Hlt. reflexivity.
Qed.

Lemma registration_creates_a_patient_witness :
  db_after (V1.post_auth_register sample_runtime sample_env alice_body)
    empty_db
  = mkDB [registered_alice] [] [] [].
Proof.
  destruct (registration_creates_a_patient sample_runtime sample_env empty_db
              alice_body alice_data eq_refl) as (H1 & _).
  destruct (H1 eq_refl) as (a & r & Hrun & _).
  unfold db_after. rewrite Hrun. reflexivity.
Defined.

Section BcryptKey.

Lemma code_lt c : (code c < 256)%nat.
Proof. apply nat_ascii_bounded. Qed.

Lemma code_inj a b : code a = code b -> a = b.
Proof.
  unfold code. intros H.
  rewrite <- (ascii_nat_embedding a), <- (ascii_nat_embedding b).
  now rewrite H.
Qed.

Lemma code_lead c : code (utf8_lead c) = (192 + code c / 64)%nat.
Proof.
  pose proof (code_lt c).
  assert (code c / 64 < 4)%nat by (apply Nat.Div0.div_lt_upper_bound; lia).
  unfold utf8_lead, code. apply nat_ascii_embedding. fold (code c). lia.
Qed.

Lemma code_trail c : code (utf8_trail c) = (128 + code c mod 64)%nat.
Proof.
  assert (code c mod 64 < 64)%nat by (apply Nat.mod_upper_bound; lia).
  unfold utf8_trail, code. apply nat_ascii_embedding. fold (code c). lia.
Qed.

Lemma utf8_inj s t : utf8 s = utf8 t -> s = t.
Proof.
  revert t. induction s as [|c s IH]; intros [|d t]; cbn [utf8].
  - reflexivity.
  - destruct (code d <? 128)%nat; discriminate.
  - destruct (code c <? 128)%nat; discriminate.
  - destruct (code c <? 128)%nat eqn:Ec, (code d <? 128)%nat eqn:Ed.
    + intros H. injection H as -> H. f_equal. now apply IH.
    + apply Nat.ltb_lt in Ec. intros H. injection H as H _. exfalso.
      apply (f_equal code) in H. rewrite code_lead in H. lia.
    + apply Nat.ltb_lt in Ed. intros H. injection H as H _. exfalso.
      apply (f_equal code) in H. rewrite code_lead in H. lia.
    + intros H. injection H as H1 H2 H3.
      apply (f_equal code) in H1, H2.
      rewrite !code_lead in H1. rewrite !code_trail in H2.
      f_equal; [|now apply IH]. apply code_inj.
      rewrite (Nat.div_mod_eq (code c) 64), (Nat.div_mod_eq (code d) 64).
      lia.
Qed.

Lemma utf8_nul s :
  string_exists is_nul s = false -> Forall (fun c => c <> zero) (utf8 s).
Proof.
  induction s as [|c s IH]; cbn [utf8 string_exists]; [constructor|].
  intros H. apply orb_false_iff in H as (Hc & Hs).
  unfold is_nul in Hc. apply Nat.eqb_neq in Hc.
  destruct (code c <? 128)%nat.
  - constructor; [|now apply IH]. intros ->. now apply Hc.
  - constructor; [|constructor; [|now apply IH]].
    + intros E. apply (f_equal code) in E. rewrite code_lead in E.
      cbn in E. lia.
    + intros E. apply (f_equal code) in E. rewrite code_trail in E.
      cbn in E. lia.
Qed.

Lemma cycled_prefix n period cur :
  (List.length cur <= n)%nat -> period <> [] ->
  exists rest, cycled n period cur = (cur ++ rest)%list.
Proof.
  revert cur. induction n as [|n IH]; intros cur Hl Hp.
  - destruct cur; [|cbn in Hl; lia]. now exists [].
  - destruct cur as [|c cur]; cbn.
    + destruct period as [|c rest]; [contradiction|]. eexists. reflexivity.
    + destruct (IH cur) as (rest & ->); [cbn in Hl; lia | exact Hp|].
      now exists rest.
Qed.

Lemma cycled_long n period cur :
  (n <= List.length cur)%nat -> cycled n period cur = firstn n cur.
Proof.
  revert cur. induction n as [|n IH]; intros cur Hl; [reflexivity|].
  destruct cur as [|c cur]; [cbn in Hl; lia|]. cbn. f_equal. apply IH.
  cbn in Hl. lia.
Qed.

Lemma nul_free_prefix (l l' r r' : list ascii) :
  Forall (fun c => c <> zero) l -> Forall (fun c => c <> zero) l' ->
  (l ++ zero :: r = l' ++ zero :: r')%list -> l = l'.
Proof.
  intros Hl. revert l'. induction Hl as [|c l Hc Hl IH]; intros l' Hl' E.
  - destruct Hl' as [|c' l' Hc' Hl']; [reflexivity|].
    cbn in E. injection E as E _. now elim Hc'.
  - destruct Hl' as [|c' l' Hc' Hl'].
    + cbn in E. injection E as E _. now elim Hc.
    + cbn in E. injection E as -> E. f_equal. now apply IH.
Qed.

Lemma firstn_nul_free n (l : list ascii) :
  Forall (fun c => c <> zero) l -> Forall (fun c => c <> zero) (firstn n l).
Proof.
  intros H. revert n. induction H; intros [|n]; cbn; constructor; auto.
Qed.

Lemma key_head p :
  (List.length (utf8 p) <= 71)%nat ->
  exists rest,
    list_ascii_of_string (bcrypt_key p) = (utf8 p ++ zero :: rest)%list.
Proof.
  intros Hlen. unfold bcrypt_key.
  rewrite list_ascii_of_string_of_list_ascii.
  destruct (@cycled_prefix 72%nat (utf8 p ++ [zero])%list
              (utf8 p ++ [zero])%list) as (rp & Ep).
  { rewrite length_app. change (List.length [zero]) with 1%nat. lia. }
  { destruct (utf8 p); discriminate. }
  exists rp. rewrite Ep, <- app_assoc. reflexivity.
Qed.

Lemma key_long q :
  (71 < List.length (utf8 q))%nat ->
  list_ascii_of_string (bcrypt_key q) = firstn 72%nat (utf8 q).
Proof.
  intros Hq72. unfold bcrypt_key.
  rewrite list_ascii_of_string_of_list_ascii.
  rewrite cycled_long
    by (rewrite length_app; change (List.length [zero]) with 1%nat; lia).
  rewrite firstn_app.
  replace (72 - List.length (utf8 q))%nat with 0%nat by lia.
  rewrite firstn_O. apply app_nil_r.
Qed.

(** Among passwords without a NUL, one of at most 71 bytes has a key of
    its own. *)
Lemma bcrypt_key_short p q :
  string_exists is_nul p = false -> string_exists is_nul q = false ->
  (List.length (utf8 p) <= 71)%nat ->
  bcrypt_key p = bcrypt_key q -> p = q.
Proof.
  intros Hp Hq Hlen E.
  apply (f_equal list_ascii_of_string) in E.
  apply utf8_nul in Hp, Hq.
  destruct (key_head p Hlen) as (rp & Ep). rewrite Ep in E.
  destruct (Nat.le_gt_cases (List.length (utf8 q)) 71) as [Hq71|Hq72].
  - destruct (key_head q Hq71) as (rq & Eq). rewrite Eq in E.
    apply utf8_inj. eapply nul_free_prefix; eassumption.
  - exfalso. rewrite (key_long q Hq72) in E.
    assert (Hin : In zero (firstn 72%nat (utf8 q)))
      by (rewrite <- E; apply in_or_app; right; now left).
    pose proof (@firstn_nul_free 72%nat (utf8 q) Hq) as Hf.
    rewrite Forall_forall in Hf.
    exact (Hf zero Hin eq_refl).
Qed.

(** Two passwords of 72 bytes or more that start with the same 72 bytes
    have the same key. *)
Lemma bcrypt_key_long p q :
  (71 < List.length (utf8 p))%nat ->
  firstn 72%nat (utf8 p) = firstn 72%nat (utf8 q) ->
  bcrypt_key p = bcrypt_key q.
Proof.
  intros Hp E.
  assert (Hq : (71 < List.length (utf8 q))%nat).
  { apply (f_equal (@List.length ascii)) in E.
    rewrite !length_firstn in E. lia. }
  rewrite <- (string_of_list_ascii_of_string (bcrypt_key p)),
    <- (string_of_list_ascii_of_string (bcrypt_key q)).
  now rewrite (key_long p Hp), (key_long q Hq), E.
Qed.

End BcryptKey.

(** X7.  Round trip of registration and login.  On the database a
    successful registration leaves, a login under the same address, in any
    letter case, answers 200 with tokens for the new user exactly when
    its password has the bcrypt key of the registered one, and 401
    [Invalid credentials] otherwise; it changes nothing.  The registered
    password itself is accepted.  When the registered password takes at
    most 71 bytes, no other password is, passwords with a NUL apart; when
    it takes 72 bytes or more, so is every password that starts with the
    same 72 bytes.  Both variants. *)
Theorem registered_user_logs_in
    (L : Runtime) (env env' : Env) (db : DB) (b : RegisterBody)
    (d : RegisterData) (lb : LoginBody) (ld : LoginData) :
  can_register env db d = true ->
  toLowerCase (ld_email ld) = toLowerCase (rd_email d) ->
  let u := registered_user env d in
  let same_key := bcrypt_key (ld_password ld) =? bcrypt_key (rd_password d) in
  (V1.registerSchema L b = inr d ->
   V1.loginSchema L lb = inr ld ->
   let db' := db_after (V1.post_auth_register L env b) db in
   run (V1.post_auth_login L env' lb) db'
   = (Sent
        (if same_key
         then mkResponse 200
                (JObj [("message", JStr "Logged in");
                       ("user", JObj [("id", JStr (fresh env));
                                      ("name", JStr (trim (rd_name d)));
                                      ("email",
                                       JStr (toLowerCase (rd_email d)));
                                      ("role", JStr "patient")]);
                       ("accessToken",
                        JTok (fst (V1.generateTokens L env' u)));
                       ("refreshToken",
                        JTok (snd (V1.generateTokens L env' u)))])
         else json_error 401 "Invalid credentials"),
      db', [DbRead Users]))
  /\ (V2.registerSchema L b = inr d ->
      V2.loginSchema L lb = inr ld ->
      let db' := db_after (V2.post_auth_register L env b) db in
      run (V2.post_auth_login L env' lb) db'
      = (Sent
           (if same_key
            then mkResponse 200
                   (JObj [("accessToken",
                           JTok (fst (V2.generateTokens L env' (fresh env)
                                        (Some patient))));
                          ("refreshToken",
                           JTok (snd (V2.generateTokens L env' (fresh env)
                                        (Some patient))));
                          ("user",
                           JObj [("id", JStr (fresh env));
                                 ("name", JStr (trim (rd_name d)));
                                 ("email", JStr (toLowerCase (rd_email d)));
                                 ("role", JStr "patient")])])
            else json_error 401 "Invalid credentials"),
         db', [DbRead Users]))
  /\ (ld_password ld = rd_password d -> same_key = true)
  /\ (ld_password ld <> rd_password d ->
      (List.length (utf8 (rd_password d)) <= 71)%nat ->
      string_exists is_nul (rd_password d) = false ->
      string_exists is_nul (ld_password ld) = false ->
      same_key = false)
  /\ ((71 < List.length (utf8 (rd_password d)))%nat ->
      firstn 72%nat (utf8 (ld_password ld))
      = firstn 72%nat (utf8 (rd_password d)) ->
      same_key = true).
Proof.
  intros Hc He u same_key.
  assert (Hf := can_register_free env db d Hc). unfold email_taken in Hf.
  assert (Hfind :
    find (fun v => u_email v =? toLowerCase (ld_email ld))
      (users db ++ [u]) = Some u).
  { apply find_app_last.
    - rewrite He. exact Hf.
    - rewrite He. cbn. apply String.eqb_refl. }
  split; [|split; [|split; [|split]]].
  - intros Hs Hl db'.
    unfold db', db_after. rewrite (V1_register_run L env db b Hs Hc).
    cbn [fst snd]. fold u.
    unfold run, V1.post_auth_login, try_catch.
    unfold bind at 1. unfold lift. rewrite Hl.
    unfold User_findOne, bind, call, read_db, ret.
    cbn [fst snd app with_user users set_users]. rewrite Hfind.
    cbn [u_password u registered_user bcrypt_hash bcrypt_compare].
    fold same_key. destruct same_key; reflexivity.
  - intros Hs Hl db'.
    unfold db', db_after. rewrite (V2_register_run L env db b Hs Hc).
    cbn [fst snd]. fold u.
    unfold run, V2.post_auth_login, try_catch.
    unfold bind at 1. unfold lift. rewrite Hl.
    unfold User_findOne, bind, call, read_db, ret.
    cbn [fst snd app with_user users set_users]. rewrite Hfind.
    cbn [u_password u registered_user bcrypt_hash bcrypt_compare].
    fold same_key. destruct same_key; reflexivity.
  - intros E. unfold same_key. rewrite E. apply String.eqb_refl.
  - intros Hne Hlen Hp Hq. unfold same_key. apply String.eqb_neq.
    intros E. apply Hne. symmetry. now apply bcrypt_key_short.
  - intros Hlen E. unfold same_key. apply String.eqb_eq. symmetry.
    apply bcrypt_key_long; [exact Hlen | now symmetry].
Qed.

Lemma registered_user_logs_in_witness :
  has_status 200
    (outcome (V1.post_auth_login sample_runtime later_env alice_login)
       (db_after (V1.post_auth_register sample_runtime sample_env alice_body)
          empty_db))
  = true
  /\ len pass_phrase = 72%nat
  /\ has_status 200
       (outcome (V2.post_auth_login sample_runtime later_env long_login)
          (db_after
             (V2.post_auth_register sample_runtime sample_env long_body)
             empty_db))
     = true.
Proof.
  split; [|split; [reflexivity|]].
  - destruct (registered_user_logs_in sample_runtime sample_env later_env
                empty_db alice_body alice_data alice_login alice_login_data
                eq_refl eq_refl) as (H1 & _).
    unfold outcome. rewrite (H1 eq_refl eq_refl). reflexivity.
  - destruct (registered_user_logs_in sample_runtime sample_env later_env
                empty_db long_body long_data long_login long_login_data
                eq_refl eq_refl) as (_ & H2 & _).
    unfold outcome. rewrite (H2 eq_refl eq_refl). reflexivity.
Defined.

(** X8.  A name made of white space only passes the schema's length test
    but not the model's [required] after [trim]: the registration creates
    nothing, and the first variant answers 500 [Server error], the second
    400 with the message of the validation error. *)
Theorem blank_name_is_not_registered
    (L : Runtime) (env : Env) (db : DB) (b : RegisterBody)
    (d : RegisterData) :
  string_forall is_space (rd_name d) = true ->
  email_taken db (rd_email d) = false ->
  (V1.registerSchema L b = inr d ->
   outcome (V1.post_auth_register L env b) db
   = Sent (mkResponse 500
             (JObj [("error", JStr "Server error");
                    ("details",
                     JStr (errMessage L (ValidationError "name")))]))
   /\ db_after (V1.post_auth_register L env b) db = db)
  /\ (V2.registerSchema L b = inr d ->
      outcome (V2.post_auth_register L env b) db
      = Sent (json_error 400 (errMessage L (ValidationError "name")))
      /\ db_after (V2.post_auth_register L env b) db = db).
Proof.
  intros Hb Hf. pose proof (trim_blank _ Hb) as Ht.
  unfold email_taken in Hf.
  split; intros Hs.
  - unfold outcome, db_after, run, V1.post_auth_register, try_catch.
    unfold bind at 1. unfold lift. rewrite Hs.
    unfold User_findOne, User_create, bind, call, read_db, ret, throw.
    cbn [fst snd app]. rewrite (find_existsb_false _ _ Hf).
    cbn [u_name]. rewrite Ht. cbn. split; reflexivity.
  - unfold outcome, db_after, run, V2.post_auth_register, try_catch.
    unfold bind at 1. unfold lift. rewrite Hs.
    unfold User_findOne, User_create, bind, call, read_db, ret, throw.
    cbn [fst snd app]. rewrite (find_existsb_false _ _ Hf).
    cbn [u_name]. rewrite Ht. cbn. split; reflexivity.
Qed.

Lemma blank_name_is_not_registered_witness :
  has_status 500
    (outcome (V1.post_auth_register sample_runtime sample_env blank_body)
       sample_db) = true
  /\ has_status 400
       (outcome (V2.post_auth_register sample_runtime sample_env blank_body)
          sample_db) = true.
Proof.
  destruct (blank_name_is_not_registered sample_runtime sample_env sample_db
              blank_body blank_data eq_refl eq_refl) as (H1 & H2).
  destruct (H1 eq_refl) as (E1 & _). destruct (H2 eq_refl) as (E2 & _).
  rewrite E1, E2. split; reflexivity.
Defined.

(* ================================================================= *)
(** * Booking *)

Section BookingRuns.

Variable L : Runtime.

Lemma V1_booking_data b d :
  V1.appointmentZ L b = inr d ->
  ad_time d <> "" /\ ad_symptoms d <> "" /\ ad_phone d <> "".
Proof.
  intros Hs.
  pose proof (V1_appointmentZ_accepts L b) as Ha. rewrite Hs in Ha.
  destruct (V1_appointmentZ_inr L b Hs) as (_ & _ & Ht & Hy & Hp).
  unfold V1_booking_constraints in Ha. rewrite Ht, Hy, Hp in Ha.
  cbn [accepted field_ok] in Ha. symmetry in Ha.
  apply andb_true_iff in Ha as (Ha & H3).
  apply andb_true_iff in Ha as (Ha & H2).
  apply andb_true_iff in Ha as (_ & H1).
  repeat split; intros E; rewrite E in *; discriminate.
Qed.

Lemma V2_booking_data b d :
  V2.appointmentSchema L b = inr d ->
  ad_time d <> "" /\ ad_symptoms d <> "" /\ ad_phone d <> "".
Proof.
  intros Hs.
  pose proof (V2_appointmentSchema_accepts L b) as Ha. rewrite Hs in Ha.
  destruct (V2_appointmentSchema_inr L b Hs) as (_ & _ & Ht & Hy & Hp).
  unfold V2_booking_constraints in Ha. rewrite Ht, Hy, Hp in Ha.
  cbn [accepted field_ok] in Ha. symmetry in Ha.
  apply andb_true_iff in Ha as (Ha & H3).
  apply andb_true_iff in Ha as (Ha & H2).
  apply andb_true_iff in Ha as (_ & H1).
  repeat split; intros E; rewrite E in *; discriminate.
Qed.

Lemma Appointment_create_run env db tr doctor pid pname d date st :
  ad_time d <> "" -> ad_symptoms d <> "" -> ad_phone d <> "" ->
  Appointment_create env (d_id doctor) (d_name doctor) (d_specialty doctor)
    pid pname date (ad_time d) (ad_symptoms d) (ad_phone d) st db tr
  = match date with
    | None => (inl (ValidationError "date"), db,
               (tr ++ [DbWrite Appointments])%list)
    | Some t =>
        let a := booked env doctor pid pname d t
                   (match st with Some s => s | None => pending end) in
        if id_in (fresh env) (map a_id (appointments db))
        then (inl (DuplicateKey "_id"), db,
              (tr ++ [DbWrite Appointments])%list)
        else (inr a, with_appointment db a,
              (tr ++ [DbWrite Appointments])%list)
    end.
Proof.
  intros Ht Hy Hp.
  unfold Appointment_create, bind, call, read_db, throw, write_db, ret.
  cbn [fst snd]. destruct date as [t|]; [|reflexivity].
  cbv zeta. cbn [a_id].
  replace (ad_time d =? "") with false
    by (symmetry; now apply String.eqb_neq).
  replace (ad_symptoms d =? "") with false
    by (symmetry; now apply String.eqb_neq).
  replace (ad_phone d =? "") with false
    by (symmetry; now apply String.eqb_neq).
  destruct (id_in (fresh env) (map a_id (appointments db))); reflexivity.
Qed.

Variables (env : Env) (db : DB) (token : Token) (user : Claims).
Hypothesis Hverified : jwt_verify token (JWT_SECRET L) (now env) = Some user.

Lemma V1_booking_run b d oid doctor patient_ :
  V1.appointmentZ L b = inr d ->
  castObjectId L (ad_doctorId d) = Some oid ->
  find (fun x => d_id x =? oid) (doctors db) = Some doctor ->
  find (fun u => u_id u =? c_id user) (users db) = Some patient_ ->
  run (V1.post_appointments L env (Bearer token) b) db
  = match parseDate L (ad_date d ++ "T00:00:00") with
    | None =>
        (Sent (server_error L (ValidationError "date")), db,
         [DbRead Doctors; DbRead Users; DbWrite Appointments])
    | Some t =>
        let a := booked env doctor (u_id patient_) (u_name patient_) d t
                   confirmed in
        if id_in (fresh env) (map a_id (appointments db))
        then (Sent (server_error L (DuplicateKey "_id")), db,
              [DbRead Doctors; DbRead Users; DbWrite Appointments])
        else (Sent (booked_response a), with_appointment db a,
              [DbRead Doctors; DbRead Users; DbWrite Appointments])
    end.
Proof.
  intros Hs Hc Hd Hu.
  destruct (V1_booking_data _ Hs) as (Ht & Hy & Hp).
  unfold run, V1.post_appointments, V1.authenticate. rewrite Hverified.
  unfold try_catch. unfold bind at 1. unfold lift. rewrite Hs.
  unfold bind at 1.
  unfold Doctor_findById, User_findById, bind, call, read_db, ret.
  rewrite Hc. cbn [fst snd app]. rewrite Hd. cbn [fst snd app]. rewrite Hu.
  rewrite (Appointment_create_run env db _ doctor _ _ d _ _ Ht Hy Hp).
  destruct (parseDate L (ad_date d ++ "T00:00:00")) as [t|]; [|reflexivity].
  cbv zeta.
  destruct (id_in (fresh env) (map a_id (appointments db))); reflexivity.
Qed.

Lemma V2_booking_run b d oid doctor patient_ :
  V2.appointmentSchema L b = inr d ->
  castObjectId L (ad_doctorId d) = Some oid ->
  find (fun x => d_id x =? oid) (doctors db) = Some doctor ->
  find (fun u => u_id u =? c_id user) (users db) = Some patient_ ->
  run (V2.post_appointments L env (Bearer token) b) db
  = match parseDate L (ad_date d) with
    | None =>
        (Sent (json_error 400 (errMessage L (ValidationError "date"))), db,
         [DbRead Doctors; DbRead Users; DbWrite Appointments])
    | Some t =>
        let a := booked env doctor (c_id user) (u_name patient_) d t
                   pending in
        if id_in (fresh env) (map a_id (appointments db))
        then (Sent (json_error 400 (errMessage L (DuplicateKey "_id"))), db,
              [DbRead Doctors; DbRead Users; DbWrite Appointments])
        else (Sent (booked_response a), with_appointment db a,
              [DbRead Doctors; DbRead Users; DbWrite Appointments])
    end.
Proof.
  intros Hs Hc Hd Hu.
  destruct (V2_booking_data _ Hs) as (Ht & Hy & Hp).
  unfold run, V2.post_appointments, V2.authenticate. rewrite Hverified.
  unfold try_catch. unfold bind at 1. unfold lift. rewrite Hs.
  unfold bind at 1.
  unfold Doctor_findById, User_findById, bind, call, read_db, ret.
  rewrite Hc. cbn [fst snd app]. rewrite Hd. cbn [fst snd app]. rewrite Hu.
  rewrite (Appointment_create_run env db _ doctor _ _ d _ _ Ht Hy Hp).
  destruct (parseDate L (ad_date d)) as [t|]; [|reflexivity].
  cbv zeta.
  destruct (id_in (fresh env) (map a_id (appointments db))); reflexivity.
Qed.

Lemma V1_booking_orphan_run b d oid doctor :
  V1.appointmentZ L b = inr d ->
  castObjectId L (ad_doctorId d) = Some oid ->
  find (fun x => d_id x =? oid) (doctors db) = Some doctor ->
  find (fun u => u_id u =? c_id user) (users db) = None ->
  run (V1.post_appointments L env (Bearer token) b) db
  = (Sent (json_error 404 "Patient not found"), db,
     [DbRead Doctors; DbRead Users]).
Proof.
  intros Hs Hc Hd Hu.
  unfold run, V1.post_appointments, V1.authenticate. rewrite Hverified.
  unfold try_catch. unfold bind at 1. unfold lift. rewrite Hs.
  unfold bind at 1.
  unfold Doctor_findById, User_findById, bind, call, read_db, ret.
  rewrite Hc. cbn [fst snd app]. rewrite Hd. cbn [fst snd app]. rewrite Hu.
  reflexivity.
Qed.

Lemma V2_booking_orphan_run b d oid doctor :
  V2.appointmentSchema L b = inr d ->
  castObjectId L (ad_doctorId d) = Some oid ->
  find (fun x => d_id x =? oid) (doctors db) = Some doctor ->
  find (fun u => u_id u =? c_id user) (users db) = None ->
  run (V2.post_appointments L env (Bearer token) b) db
  = (Sent (json_error 400 (errMessage L TypeError)), db,
     [DbRead Doctors; DbRead Users]).
Proof.
  intros Hs Hc Hd Hu.
  unfold run, V2.post_appointments, V2.authenticate. rewrite Hverified.
  unfold try_catch. unfold bind at 1. unfold lift. rewrite Hs.
  unfold bind at 1.
  unfold Doctor_findById, User_findById, bind, call, read_db, ret, throw.
  rewrite Hc. cbn [fst snd app]. rewrite Hd. cbn [fst snd app]. rewrite Hu.
  reflexivity.
Qed.

Lemma V1_booking_cast_run b d :
  V1.appointmentZ L b = inr d ->
  castObjectId L (ad_doctorId d) = None ->
  run (V1.post_appointments L env (Bearer token) b) db
  = (Sent (server_error L (CastError "_id")), db, [DbRead Doctors]).
Proof.
  intros Hs Hc.
  unfold run, V1.post_appointments, V1.authenticate. rewrite Hverified.
  unfold try_catch. unfold bind at 1. unfold lift. rewrite Hs.
  unfold bind at 1.
  unfold Doctor_findById, bind, call, read_db, ret, throw.
  rewrite Hc. reflexivity.
Qed.

Lemma V2_booking_cast_run b d :
  V2.appointmentSchema L b = inr d ->
  castObjectId L (ad_doctorId d) = None ->
  run (V2.post_appointments L env (Bearer token) b) db
  = (Sent (json_error 400 (errMessage L (CastError "_id"))), db,
     [DbRead Doctors]).
Proof.
  intros Hs Hc.
  unfold run, V2.post_appointments, V2.authenticate. rewrite Hverified.
  unfold try_catch. unfold bind at 1. unfold lift. rewrite Hs.
  unfold bind at 1.
  unfold Doctor_findById, bind, call, read_db, ret, throw.
  rewrite Hc. reflexivity.
Qed.

End BookingRuns.

(** X9.  A booking goes through when the token verifies, the body passes
    the schema, the doctor and the caller's user record exist, the date
    parses and the new ObjectId is unused.  It answers 200 with the stored
    document and appends exactly that document: the doctor's name and
    specialty and the caller's name copied in, the status [confirmed] in
    the first variant and [pending] in the second.  No other appointment
    is looked at. *)
Theorem booking_stores_the_appointment
    (L : Runtime) (env : Env) (db : DB) (token : Token) (user : Claims)
    (b : AppointmentBody) (d : AppointmentData) (oid : ObjectId)
    (doctor : Doctor) (patient_ : User) (t : Z)
    (Hverified : jwt_verify token (JWT_SECRET L) (now env) = Some user)
    (Hcast : castObjectId L (ad_doctorId d) = Some oid)
    (Hdoctor : find (fun x => d_id x =? oid) (doctors db) = Some doctor)
    (Hpatient :
       find (fun u => u_id u =? c_id user) (users db) = Some patient_)
    (Hfresh : id_in (fresh env) (map a_id (appointments db)) = false) :
  (V1.appointmentZ L b = inr d ->
   parseDate L (ad_date d ++ "T00:00:00") = Some t ->
   let a :=
     mkAppointment (fresh env) (d_id doctor) (d_name doctor)
       (d_specialty doctor) (u_id patient_) (u_name patient_) t (ad_time d)
       (ad_symptoms d) (ad_phone d) confirmed (now env) in
   run (V1.post_appointments L env (Bearer token) b) db
   = (Sent (mkResponse 200
              (JObj [("message", JStr "Appointment booked");
                     ("appointment", appointment_doc a)])),
      set_appointments db (appointments db ++ [a])%list,
      [DbRead Doctors; DbRead Users; DbWrite Appointments]))
  /\ (V2.appointmentSchema L b = inr d ->
      parseDate L (ad_date d) = Some t ->
      let a :=
        mkAppointment (fresh env) (d_id doctor) (d_name doctor)
          (d_specialty doctor) (c_id user) (u_name patient_) t (ad_time d)
          (ad_symptoms d) (ad_phone d) pending (now env) in
      run (V2.post_appointments L env (Bearer token) b) db
      = (Sent (mkResponse 200
                 (JObj [("message", JStr "Appointment booked");
                        ("appointment", appointment_doc a)])),
         set_appointments db (appointments db ++ [a])%list,
         [DbRead Doctors; DbRead Users; DbWrite Appointments])).
Proof.
  split; intros Hs Hdate a.
  - rewrite (V1_booking_run L env db token Hverified b Hs Hcast Hdoctor
               Hpatient).
    rewrite Hdate. cbv zeta. rewrite Hfresh. reflexivity.
  - rewrite (V2_booking_run L env db token Hverified b Hs Hcast Hdoctor
               Hpatient).
    rewrite Hdate. cbv zeta. rewrite Hfresh. reflexivity.
Qed.

Lemma booking_stores_the_appointment_witness :
  appointments
    (db_after (V2.post_appointments sample_runtime sample_env
                 (Bearer (access_token alice)) booking_body) sample_db)
  = [pending_visit].
Proof.
  destruct (@booking_stores_the_appointment sample_runtime sample_env
              sample_db (access_token alice) (claims_of alice) booking_body
              booking_data (oid "d1") sarah alice 1748736000000%Z
              eq_refl eq_refl eq_refl eq_refl eq_refl) as (_ & H2).
  unfold db_after. rewrite (H2 eq_refl eq_refl). reflexivity.
Defined.

(** X10.  Neither variant checks a slot: after a booking went through,
    the same body sent again by the same caller is booked again, and the
    collection then holds two appointments with the same doctor, patient,
    date and time. *)
Theorem same_slot_can_be_booked_twice
    (L : Runtime) (env env' : Env) (db : DB) (token token' : Token)
    (user : Claims) (b : AppointmentBody) (d : AppointmentData)
    (oid : ObjectId) (doctor : Doctor) (patient_ : User) (t : Z)
    (Hverified : jwt_verify token (JWT_SECRET L) (now env) = Some user)
    (Hverified' : jwt_verify token' (JWT_SECRET L) (now env') = Some user)
    (Hcast : castObjectId L (ad_doctorId d) = Some oid)
    (Hdoctor : find (fun x => d_id x =? oid) (doctors db) = Some doctor)
    (Hpatient :
       find (fun u => u_id u =? c_id user) (users db) = Some patient_)
    (Hfresh : id_in (fresh env) (map a_id (appointments db)) = false)
    (Hfresh' : id_in (fresh env') (map a_id (appointments db)) = false)
    (Hdistinct : fresh env' <> fresh env) :
  (V1.appointmentZ L b = inr d ->
   parseDate L (ad_date d ++ "T00:00:00") = Some t ->
   let h := V1.post_appointments L env (Bearer token) b in
   let h' := V1.post_appointments L env' (Bearer token') b in
   has_status 200 (outcome h' (db_after h db)) = true
   /\ exists a a',
        appointments (db_after h' (db_after h db))
        = (appointments db ++ [a; a'])%list
        /\ a_id a <> a_id a'
        /\ a_doctor a = a_doctor a' /\ a_patient a = a_patient a'
        /\ a_date a = a_date a' /\ a_time a = a_time a'
        /\ a_status a = confirmed /\ a_status a' = confirmed)
  /\ (V2.appointmentSchema L b = inr d ->
      parseDate L (ad_date d) = Some t ->
      let h := V2.post_appointments L env (Bearer token) b in
      let h' := V2.post_appointments L env' (Bearer token') b in
      has_status 200 (outcome h' (db_after h db)) = true
      /\ exists a a',
           appointments (db_after h' (db_after h db))
           = (appointments db ++ [a; a'])%list
           /\ a_id a <> a_id a'
           /\ a_doctor a = a_doctor a' /\ a_patient a = a_patient a'
           /\ a_date a = a_date a' /\ a_time a = a_time a'
           /\ a_status a = pending /\ a_status a' = pending).
Proof.
  assert (Hid : forall a : Appointment, a_id a = fresh env ->
            id_in (fresh env')
              (map a_id (appointments (with_appointment db a))) = false).
  { intros a Ha. unfold with_appointment, set_appointments.
    cbn [appointments]. unfold id_in. rewrite map_app, existsb_app.
    apply orb_false_iff. split; [exact Hfresh'|].
    cbn. rewrite Ha, orb_false_r. now apply String.eqb_neq. }
  split; intros Hs Hdate h h'.
  - unfold h, h', outcome, db_after.
    rewrite (V1_booking_run L env db token Hverified b Hs Hcast Hdoctor
               Hpatient).
    rewrite Hdate. cbv zeta. rewrite Hfresh. cbn [fst snd].
    rewrite (V1_booking_run L env' _ token' Hverified' b Hs Hcast
               (doctor := doctor) (patient_ := patient_));
      [|exact Hdoctor|exact Hpatient].
    rewrite Hdate. cbv zeta.
    rewrite Hid by reflexivity. cbn [fst snd].
    split; [reflexivity|]. eexists _, _. split.
    + unfold with_appointment, set_appointments. cbn [appointments].
      rewrite <- app_assoc. reflexivity.
    + cbn. repeat split; congruence.
  - unfold h, h', outcome, db_after.
    rewrite (V2_booking_run L env db token Hverified b Hs Hcast Hdoctor
               Hpatient).
    rewrite Hdate. cbv zeta. rewrite Hfresh. cbn [fst snd].
    rewrite (V2_booking_run L env' _ token' Hverified' b Hs Hcast
               (doctor := doctor) (patient_ := patient_));
      [|exact Hdoctor|exact Hpatient].
    rewrite Hdate. cbv zeta.
    rewrite Hid by reflexivity. cbn [fst snd].
    split; [reflexivity|]. eexists _, _. split.
    + unfold with_appointment, set_appointments. cbn [appointments].
      rewrite <- app_assoc. reflexivity.
    + cbn. repeat split; congruence.
Qed.

Lemma same_slot_can_be_booked_twice_witness :
  has_status 200
    (outcome (V1.post_appointments sample_runtime later_env
                (Bearer (access_token alice)) booking_body)
       (db_after (V1.post_appointments sample_runtime sample_env
                    (Bearer (access_token alice)) booking_body) sample_db))
  = true.
Proof.
  assert (Hd : fresh later_env <> fresh sample_env) by discriminate.
  destruct (@same_slot_can_be_booked_twice sample_runtime sample_env
              later_env sample_db (access_token alice) (access_token alice)
              (claims_of alice) booking_body booking_data (oid "d1") sarah
              alice 1748736000000%Z eq_refl eq_refl eq_refl eq_refl eq_refl
              eq_refl eq_refl Hd) as (H1 & _).
  exact (proj1 (H1 eq_refl eq_refl)).
Defined.

(** X11.  A date that has the schema's shape but does not parse (a
    thirteenth month) is refused only by the model: nothing is stored, and
    the first variant answers 500 [Server error] where the second answers
    400 with the validation error's message. *)
Theorem booking_unparseable_date
    (L : Runtime) (env : Env) (db : DB) (token : Token) (user : Claims)
    (b : AppointmentBody) (d : AppointmentData) (oid : ObjectId)
    (doctor : Doctor) (patient_ : User)
    (Hverified : jwt_verify token (JWT_SECRET L) (now env) = Some user)
    (Hcast : castObjectId L (ad_doctorId d) = Some oid)
    (Hdoctor : find (fun x => d_id x =? oid) (doctors db) = Some doctor)
    (Hpatient :
       find (fun u => u_id u =? c_id user) (users db) = Some patient_) :
  (V1.appointmentZ L b = inr d ->
   parseDate L (ad_date d ++ "T00:00:00") = None ->
   let h := V1.post_appointments L env (Bearer token) b in
   outcome h db
   = Sent (mkResponse 500
             (JObj [("error", JStr "Server error");
                    ("details",
                     JStr (errMessage L (ValidationError "date")))]))
   /\ db_after h db = db)
  /\ (V2.appointmentSchema L b = inr d ->
      parseDate L (ad_date d) = None ->
      let h := V2.post_appointments L env (Bearer token) b in
      outcome h db
      = Sent (json_error 400 (errMessage L (ValidationError "date")))
      /\ db_after h db = db).
Proof.
  split; intros Hs Hdate h; unfold h, outcome, db_after.
  - rewrite (V1_booking_run L env db token Hverified b Hs Hcast Hdoctor
               Hpatient).
    rewrite Hdate. split; reflexivity.
  - rewrite (V2_booking_run L env db token Hverified b Hs Hcast Hdoctor
               Hpatient).
    rewrite Hdate. split; reflexivity.
Qed.

Lemma booking_unparseable_date_witness :
  has_status 500
    (outcome (V1.post_appointments calendar_runtime sample_env
                (Bearer (access_token alice)) month13_body) sample_db)
  = true
  /\ has_status 400
       (outcome (V2.post_appointments calendar_runtime sample_env
                   (Bearer (access_token alice)) month13_body) sample_db)
     = true.
Proof.
  destruct (@booking_unparseable_date calendar_runtime sample_env sample_db
              (access_token alice) (claims_of alice) month13_body
              month13_data (oid "d1") sarah alice eq_refl eq_refl eq_refl
              eq_refl) as (H1 & H2).
  destruct (H1 eq_refl eq_refl) as (E1 & _).
  destruct (H2 eq_refl eq_refl) as (E2 & _).
  rewrite E1, E2. split; reflexivity.
Defined.

(** X12.  A caller whose token verifies but whose user record is gone
    books nothing: the first variant answers 404 [Patient not found]; the
    second dereferences the missing record and answers 400 with the
    message of the type error. *)
Theorem booking_by_a_deleted_user
    (L : Runtime) (env : Env) (db : DB) (token : Token) (user : Claims)
    (b : AppointmentBody) (d : AppointmentData) (oid : ObjectId)
    (doctor : Doctor)
    (Hverified : jwt_verify token (JWT_SECRET L) (now env) = Some user)
    (Hcast : castObjectId L (ad_doctorId d) = Some oid)
    (Hdoctor : find (fun x => d_id x =? oid) (doctors db) = Some doctor)
    (Hgone : find (fun u => u_id u =? c_id user) (users db) = None) :
  (V1.appointmentZ L b = inr d ->
   run (V1.post_appointments L env (Bearer token) b) db
   = (Sent (json_error 404 "Patient not found"), db,
      [DbRead Doctors; DbRead Users]))
  /\ (V2.appointmentSchema L b = inr d ->
      run (V2.post_appointments L env (Bearer token) b) db
      = (Sent (json_error 400 (errMessage L TypeError)), db,
         [DbRead Doctors; DbRead Users])).
Proof.
  split; intros Hs.
  - exact (V1_booking_orphan_run L env db token Hverified b Hs Hcast Hdoctor
             Hgone).
  - exact (V2_booking_orphan_run L env db token Hverified b Hs Hcast Hdoctor
             Hgone).
Qed.

Lemma booking_by_a_deleted_user_witness :
  outcome (V1.post_appointments sample_runtime sample_env
             (Bearer (access_token alice)) booking_body) orphan_db
  = Sent (json_error 404 "Patient not found").
Proof.
  destruct (@booking_by_a_deleted_user sample_runtime sample_env orphan_db
              (access_token alice) (claims_of alice) booking_body
              booking_data (oid "d1") sarah eq_refl eq_refl eq_refl eq_refl)
    as (H1 & _).
  unfold outcome. rewrite (H1 eq_refl). reflexivity.
Defined.

(** X13.  A [doctorId] of 24 characters that are not all hexadecimal
    digits passes both schemas and fails in [Doctor.findById]: nothing is
    written, the first variant answers 500 [Server error] and the second
    400 with the cast error's message, never 404. *)
Theorem booking_doctor_id_not_hex
    (L : Runtime) (env : Env) (db : DB) (token : Token) (user : Claims)
    (b : AppointmentBody) (d : AppointmentData)
    (Hverified : jwt_verify token (JWT_SECRET L) (now env) = Some user)
    (Hhex : string_forall is_hex (ad_doctorId d) = false) :
  (V1.appointmentZ L b = inr d ->
   run (V1.post_appointments L env (Bearer token) b) db
   = (Sent (mkResponse 500
              (JObj [("error", JStr "Server error");
                     ("details", JStr (errMessage L (CastError "_id")))])),
      db, [DbRead Doctors]))
  /\ (V2.appointmentSchema L b = inr d ->
      run (V2.post_appointments L env (Bearer token) b) db
      = (Sent (json_error 400 (errMessage L (CastError "_id"))), db,
         [DbRead Doctors])).
Proof.
  split; intros Hs.
  - assert (Hc : castObjectId L (ad_doctorId d) = None).
    { pose proof (V1_appointmentZ_accepts L b) as Ha. rewrite Hs in Ha.
      destruct (V1_appointmentZ_inr L b Hs) as (Hi & _).
      unfold V1_booking_constraints in Ha. rewrite Hi in Ha.
      cbn [accepted field_ok] in Ha. symmetry in Ha.
      repeat (apply andb_true_iff in Ha as (Ha & _)).
      unfold castObjectId. now rewrite Ha, Hhex. }
    exact (V1_booking_cast_run L env db token Hverified b Hs Hc).
  - assert (Hc : castObjectId L (ad_doctorId d) = None).
    { pose proof (V2_appointmentSchema_accepts L b) as Ha. rewrite Hs in Ha.
      destruct (V2_appointmentSchema_inr L b Hs) as (Hi & _).
      unfold V2_booking_constraints in Ha. rewrite Hi in Ha.
      cbn [accepted field_ok] in Ha. symmetry in Ha.
      repeat (apply andb_true_iff in Ha as (Ha & _)).
      unfold castObjectId. now rewrite Ha, Hhex. }
    exact (V2_booking_cast_run L env db token Hverified b Hs Hc).
Qed.

Lemma booking_doctor_id_not_hex_witness :
  has_status 500
    (outcome (V1.post_appointments sample_runtime sample_env
                (Bearer (access_token alice)) malformed_id_body) sample_db)
  = true.
Proof.
  destruct (@booking_doctor_id_not_hex sample_runtime sample_env sample_db
              (access_token alice) (claims_of alice) malformed_id_body
              malformed_id_data eq_refl eq_refl) as (H1 & _).
  unfold outcome. rewrite (H1 eq_refl). reflexivity.
Defined.

(* ================================================================= *)
(** * Listings *)

Section Sorting.

Context {A : Type} (gt : A -> A -> bool).

Lemma insert_desc_perm x l : Permutation (insert_desc gt x l) (x :: l).
Proof.
  induction l as [|y l IH]; cbn; [reflexivity|].
  destruct (gt y x); [|reflexivity].
  rewrite IH. apply perm_swap.
Qed.

Lemma sort_desc_perm l : Permutation (sort_desc gt l) l.
Proof.
  induction l as [|x l IH]; cbn; [reflexivity|].
  rewrite insert_desc_perm. now constructor.
Qed.

(** [before a b]: [b] does not sort strictly before [a]. *)
Let before (a b : A) : Prop := gt b a = false.

Hypothesis gt_asym : forall a b, gt a b = true -> gt b a = false.

Lemma insert_desc_sorted x l :
  Sorted before l -> Sorted before (insert_desc gt x l).
Proof.
  induction l as [|y l IH]; cbn; intros Hs.
  - repeat constructor.
  - destruct (gt y x) eqn:Hyx.
    + inversion Hs as [|? ? Hl Hhd]; subst. constructor; [now apply IH|].
      destruct l as [|z l]; cbn.
      * constructor. now apply gt_asym.
      * destruct (gt z x); constructor.
        -- now inversion Hhd.
        -- now apply gt_asym.
    + constructor; [exact Hs|]. constructor. exact Hyx.
Qed.

Lemma sort_desc_sorted l : Sorted before (sort_desc gt l).
Proof.
  induction l as [|x l IH]; cbn; [constructor|].
  now apply insert_desc_sorted.
Qed.

End Sorting.

Lemma Sorted_impl {A : Type} (R R' : A -> A -> Prop) (l : list A) :
  (forall a b, R a b -> R' a b) -> Sorted R l -> Sorted R' l.
Proof.
  intros HR. induction 1 as [|a l Hs IH Hhd]; constructor; [exact IH|].
  destruct Hhd; constructor. now apply HR.
Qed.

(** X14.  The listing of a caller's appointments answers 200 with the
    caller's appointments and no others, each exactly once, the latest
    date first (in the first variant, the latest booked first among those
    of one date), and changes nothing. *)
Theorem my_appointments_are_mine_newest_first
    (L : Runtime) (env : Env) (db : DB) (token : Token) (user : Claims)
    (Hverified : jwt_verify token (JWT_SECRET L) (now env) = Some user) :
  (exists l,
     run (V1.get_appointments L env (Bearer token)) db
     = (Sent (mkResponse 200
                (JArr (map (fun a =>
                              appointment_doc_with
                                (populated_doctor
                                   ["name"; "specialty"; "image"] db a)
                                (JStr (a_patient a)) a) l))),
        db, [DbRead Appointments; DbRead Doctors])
     /\ Permutation l (mine user db)
     /\ Sorted newest_first l
     /\ Forall (fun a => a_patient a = c_id user) l)
  /\ (exists l,
        run (V2.get_appointments L env (Bearer token)) db
        = (Sent (mkResponse 200
                   (JArr (map (fun a =>
                                 appointment_doc_with
                                   (populated_doctor ["name"; "specialty"]
                                      db a)
                                   (JStr (a_patient a)) a) l))),
           db, [DbRead Appointments; DbRead Doctors])
        /\ Permutation l (mine user db)
        /\ Sorted latest_date_first l
        /\ Forall (fun a => a_patient a = c_id user) l).
Proof.
  assert (Hmine : forall l, Permutation l (mine user db) ->
            Forall (fun a => a_patient a = c_id user) l).
  { intros l Hp. apply Forall_forall. intros a Ha.
    apply (Permutation_in _ Hp) in Ha. unfold mine in Ha.
    apply filter_In in Ha as (_ & Ha). now apply String.eqb_eq. }
  split.
  - exists (sort_desc V1.later (mine user db)).
    split; [|split; [apply sort_desc_perm|split]].
    + unfold run, V1.get_appointments, V1.authenticate. rewrite Hverified.
      reflexivity.
    + apply Sorted_impl with (R := fun a b => V1.later b a = false).
      * unfold V1.later, newest_first. intros a b H.
        apply orb_false_iff in H as (H1 & H2).
        apply Z.ltb_ge in H1.
        apply andb_false_iff in H2 as [H2|H2].
        -- apply Z.eqb_neq in H2. left. lia.
        -- apply Z.ltb_ge in H2.
           destruct (Z.eq_dec (a_date a) (a_date b)); [right|left]; lia.
      * apply sort_desc_sorted. unfold V1.later. intros a b H.
        apply orb_true_iff in H as [H|H].
        -- apply Z.ltb_lt in H. apply orb_false_iff. split.
           ++ apply Z.ltb_ge. lia.
           ++ apply andb_false_iff. left. apply Z.eqb_neq. lia.
        -- apply andb_true_iff in H as (H1 & H2).
           apply Z.eqb_eq in H1. apply Z.ltb_lt in H2.
           apply orb_false_iff. split.
           ++ apply Z.ltb_ge. lia.
           ++ apply andb_false_iff. right. apply Z.ltb_ge. lia.
    + apply Hmine, sort_desc_perm.
  - exists (sort_desc (fun a b => (a_date b <? a_date a)%Z) (mine user db)).
    split; [|split; [apply sort_desc_perm|split]].
    + unfold run, V2.get_appointments, V2.authenticate. rewrite Hverified.
      reflexivity.
    + apply Sorted_impl
        with (R := fun a b => (a_date a <? a_date b)%Z = false).
      * unfold latest_date_first. intros a b H. apply Z.ltb_ge in H. lia.
      * apply (sort_desc_sorted (fun a b => (a_date b <? a_date a)%Z)).
        intros a b H. apply Z.ltb_lt in H. apply Z.ltb_ge. lia.
    + apply Hmine, sort_desc_perm.
Qed.

Lemma my_appointments_are_mine_newest_first_witness :
  log_of (V1.get_appointments sample_runtime sample_env
            (Bearer (access_token alice))) booked_db
  = [DbRead Appointments; DbRead Doctors].
Proof.
  destruct (@my_appointments_are_mine_newest_first sample_runtime sample_env
              booked_db (access_token alice) (claims_of alice) eq_refl)
    as ((l & Hrun & _) & _).
  unfold log_of. rewrite Hrun. reflexivity.
Defined.

(* ================================================================= *)
(** * Booking, then cancelling *)

Lemma id_in_appointments (oid : ObjectId) (l : list Appointment) :
  id_in oid (map a_id l) = existsb (fun b => a_id b =? oid) l.
Proof.
  induction l as [|b l IH]; cbn; [reflexivity|].
  unfold id_in in IH. now rewrite IH, String.eqb_sym.
Qed.

Lemma find_app_fresh (oid : ObjectId) (l : list Appointment) (a : Appointment) :
  id_in oid (map a_id l) = false -> a_id a = oid ->
  find (fun b => a_id b =? oid) (l ++ [a]) = Some a.
Proof.
  intros Hf Ha. apply find_app_last.
  - now rewrite <- id_in_appointments.
  - rewrite Ha. apply String.eqb_refl.
Qed.

Lemma replace_appointment_fresh (l : list Appointment) (a a' : Appointment) :
  id_in (a_id a) (map a_id l) = false -> a_id a' = a_id a ->
  replace_appointment a' (l ++ [a]) = (l ++ [a'])%list.
Proof.
  intros Hf Ha. induction l as [|b l IH]; cbn.
  - now rewrite Ha, String.eqb_refl.
  - cbn in Hf. apply orb_false_iff in Hf as (Hb & Hl).
    rewrite Ha, String.eqb_sym, Hb. now rewrite IH.
Qed.

(** X15.  Round trip of booking and cancelling, first variant.  The
    appointment a booking stored is found under the id the answer gave;
    its patient cancels it with any token of theirs that still verifies:
    the answer is 200 with the document, now [cancelled], and the
    collection differs from the one before the booking by exactly that
    cancelled appointment at its end. *)
Theorem booked_appointment_can_be_cancelled
    (L : Runtime) (env env' : Env) (db : DB) (token token' : Token)
    (user : Claims) (b : AppointmentBody) (d : AppointmentData)
    (oid : ObjectId) (doctor : Doctor) (patient_ : User) (t : Z)
    (Hverified : jwt_verify token (JWT_SECRET L) (now env) = Some user)
    (Hverified' : jwt_verify token' (JWT_SECRET L) (now env') = Some user)
    (Hschema : V1.appointmentZ L b = inr d)
    (Hcast : castObjectId L (ad_doctorId d) = Some oid)
    (Hdoctor : find (fun x => d_id x =? oid) (doctors db) = Some doctor)
    (Hpatient :
       find (fun u => u_id u =? c_id user) (users db) = Some patient_)
    (Hdate : parseDate L (ad_date d ++ "T00:00:00") = Some t)
    (Hfresh : id_in (fresh env) (map a_id (appointments db)) = false)
    (Hid : castObjectId L (fresh env) = Some (fresh env)) :
  let book := V1.post_appointments L env (Bearer token) b in
  let cancel_ :=
    V1.patch_appointments_cancel L env' (Bearer token') (fresh env) in
  let a st :=
    mkAppointment (fresh env) (d_id doctor) (d_name doctor)
      (d_specialty doctor) (u_id patient_) (u_name patient_) t (ad_time d)
      (ad_symptoms d) (ad_phone d) st (now env) in
  outcome cancel_ (db_after book db)
  = Sent (mkResponse 200
            (JObj [("message", JStr "Appointment cancelled");
                   ("appointment", appointment_doc (a cancelled))]))
  /\ db_after cancel_ (db_after book db)
     = set_appointments db (appointments db ++ [a cancelled])%list.
Proof.
  intros book cancel_ a. unfold book, cancel_, outcome, db_after.
  rewrite (V1_booking_run L env db token Hverified b Hschema Hcast Hdoctor
             Hpatient).
  rewrite Hdate. cbv zeta. rewrite Hfresh. cbn [fst snd].
  change (booked env doctor (u_id patient_) (u_name patient_) d t confirmed)
    with (a confirmed).
  assert (Hfound :
    find (fun x => a_id x =? fresh env)
      (appointments (with_appointment db (a confirmed)))
    = Some (a confirmed)).
  { unfold with_appointment, set_appointments. cbn [appointments].
    now apply find_app_fresh. }
  rewrite (cancel_run L env' token' (fresh env) _ Hverified' Hid Hfound).
  assert (Hmay : may_cancel user (a confirmed) = true).
  { unfold may_cancel. apply find_some in Hpatient as (_ & Hp).
    cbn [a a_patient]. now rewrite Hp. }
  rewrite Hmay. cbn [fst snd]. split; [reflexivity|].
  unfold with_appointment, set_appointments.
  cbn [appointments users doctors feedbacks].
  rewrite replace_appointment_fresh; [reflexivity|exact Hfresh|reflexivity].
Qed.

Lemma booked_appointment_can_be_cancelled_witness :
  has_status 200
    (outcome (V1.patch_appointments_cancel sample_runtime later_env
                (Bearer (access_token alice)) (oid "01"))
       (db_after (V1.post_appointments sample_runtime sample_env
                    (Bearer (access_token alice)) booking_body) sample_db))
  = true.
Proof.
  destruct (@booked_appointment_can_be_cancelled sample_runtime sample_env
              later_env sample_db (access_token alice) (access_token alice)
              (claims_of alice) booking_body booking_data (oid "d1") sarah
              alice 1748736000000%Z eq_refl eq_refl eq_refl eq_refl eq_refl
              eq_refl eq_refl eq_refl eq_refl) as (H1 & _).
  cbn [fresh sample_env] in H1. rewrite H1. reflexivity.
Defined.

(** X16.  Cancelling what is not there.  With a token that verifies, an
    id that casts to an ObjectId no appointment has answers 404
    [Appointment not found]; an id that does not cast, such as 24
    characters that are not all hexadecimal digits, answers 500 [Server
    error].  Either way nothing is written. *)
Theorem cancel_missing_appointment
    (L : Runtime) (env : Env) (db : DB) (token : Token) (user : Claims)
    (id : string)
    (Hverified : jwt_verify token (JWT_SECRET L) (now env) = Some user) :
  let h := V1.patch_appointments_cancel L env (Bearer token) id in
  (forall oid,
     castObjectId L id = Some oid ->
     id_in oid (map a_id (appointments db)) = false ->
     run h db = (Sent (json_error 404 "Appointment not found"), db,
                 [DbRead Appointments]))
  /\ (castObjectId L id = None ->
      run h db
      = (Sent (mkResponse 500
                 (JObj [("error", JStr "Server error");
                        ("details",
                         JStr (errMessage L (CastError "_id")))])),
         db, [DbRead Appointments]))
  /\ (len id = 24%nat -> string_forall is_hex id = false ->
      castObjectId L id = None).
Proof.
  intros h. unfold h, run, V1.patch_appointments_cancel, V1.authenticate.
  rewrite Hverified.
  unfold try_catch, Appointment_findById, bind, call, read_db, ret, throw.
  split; [|split].
  - intros oid Hc Hf. rewrite Hc. cbn [fst snd].
    rewrite find_existsb_false; [reflexivity|].
    now rewrite <- id_in_appointments.
  - intros Hc. rewrite Hc. reflexivity.
  - intros Hl Hh. unfold castObjectId. now rewrite Hl, Hh.
Qed.

Lemma cancel_missing_appointment_witness :
  outcome (V1.patch_appointments_cancel sample_runtime sample_env
             (Bearer (access_token alice)) (oid "b9")) booked_db
  = Sent (json_error 404 "Appointment not found").
Proof.
  destruct (@cancel_missing_appointment sample_runtime sample_env booked_db
              (access_token alice) (claims_of alice) (oid "b9") eq_refl)
    as (H1 & _).
  unfold outcome. rewrite (H1 (oid "b9") eq_refl eq_refl). reflexivity.
Defined.

(* ================================================================= *)
(** * What one request does to the database *)

Section Ends.

Context {A : Type} (db0 : DB) (P : DB -> Prop).

Lemma ends_quiet (m : M A) : quiet m -> P db0 -> ends db0 m P.
Proof. intros Hq HP tr. now rewrite (proj1 (Hq db0 tr)). Qed.

Lemma ends_bind_quiet {B : Type} (m : M B) (k : B -> M A) :
  quiet m -> P db0 ->
  (forall b tr, fst (fst (m db0 tr)) = inr b -> ends db0 (k b) P) ->
  ends db0 (bind m k) P.
Proof.
  intros Hq HP Hk tr. unfold bind.
  pose proof (proj1 (Hq db0 tr)) as Hdb.
  destruct (m db0 tr) as ((r, db1), tr1) eqn:Hm. cbn in Hdb. subst db1.
  destruct r as [e|b]; [exact HP|]. apply (Hk b tr). now rewrite Hm.
Qed.

Lemma ends_bind_write {B : Type} (m : M B) (k : B -> M A) :
  ends db0 m P -> (forall b, quiet (k b)) -> ends db0 (bind m k) P.
Proof.
  intros Hm Hk tr. unfold bind. specialize (Hm tr).
  destruct (m db0 tr) as ((r, db1), tr1). cbn in Hm.
  destruct r as [e|b]; [exact Hm|]. now rewrite (proj1 (Hk b db1 tr1)).
Qed.

Lemma ends_try_catch (m : M A) (h : Err -> M A) :
  ends db0 m P -> (forall e, quiet (h e)) -> ends db0 (try_catch m h) P.
Proof.
  intros Hm Hh tr. unfold try_catch. specialize (Hm tr).
  destruct (m db0 tr) as ((r, db1), tr1). cbn in Hm.
  destruct r as [e|a]; [|exact Hm]. now rewrite (proj1 (Hh e db1 tr1)).
Qed.

End Ends.

Lemma ends_run (h : M Response) (db : DB) (P : DB -> Prop) :
  ends db h P -> P (db_after h db).
Proof. intros H. rewrite db_after_run. apply H. Qed.

Section Found.

Variable L : Runtime.

Lemma found_doctor id db tr d :
  fst (fst (Doctor_findById L id db tr)) = inr (Some d) -> In d (doctors db).
Proof.
  unfold Doctor_findById, bind, call, read_db, throw, ret. cbn [fst snd].
  destruct (castObjectId L id); cbn [fst snd]; [|discriminate].
  intros H. injection H as H. now apply find_some in H.
Qed.

Lemma found_user id db tr u :
  fst (fst (User_findById id db tr)) = inr (Some u) ->
  In u (users db) /\ u_id u = id.
Proof.
  unfold User_findById, bind, call, read_db, throw, ret. cbn [fst snd].
  intros H. injection H as H. apply find_some in H as (Hin & He).
  split; [exact Hin | now apply String.eqb_eq].
Qed.

Lemma found_appointment id db tr a :
  fst (fst (Appointment_findById L id db tr)) = inr (Some a) ->
  find (fun b => a_id b =? a_id a) (appointments db) = Some a.
Proof.
  unfold Appointment_findById, bind, call, read_db, throw, ret.
  cbn [fst snd].
  destruct (castObjectId L id) as [oid|]; cbn [fst snd]; [|discriminate].
  intros H. injection H as H.
  now rewrite (find_appointment_id _ _ H).
Qed.

End Found.

Section Writes.

Variables (st : Status) (cancels : bool) (db0 : DB).

Lemma ends_User_create env name email phone password :
  ends db0 (User_create env name email phone password None)
    (change st cancels db0).
Proof.
  intros tr.
  unfold User_create, bind, call, read_db, throw, write_db, ret.
  cbn [fst snd]. cbv zeta.
  repeat match goal with
  | |- context [if ?c then _ else _] =>
      destruct c eqn:?; [apply no_change|]
  end.
  cbn [fst snd]. now apply user_added.
Qed.

Lemma ends_Doctor_create L env name specialty rating reviews location
    availability fee image :
  ends db0
    (Doctor_create L env name specialty rating reviews location availability
       fee image)
    (change st cancels db0).
Proof.
  intros tr.
  unfold Doctor_create, insert_doctor, bind, call, read_db, lift, throw,
    write_db, ret.
  cbn [fst snd].
  destruct (doctor_of L env name specialty rating reviews location
              availability fee image) as [e|d]; [apply no_change|].
  repeat match goal with
  | |- context [if ?c then _ else _] =>
      destruct c eqn:?; [apply no_change|]
  end.
  cbn [fst snd]. now apply doctor_added.
Qed.

Lemma ends_Appointment_create env doctor patient_ pid date time symptoms
    phone o :
  In doctor (doctors db0) -> In patient_ (users db0) ->
  pid = u_id patient_ ->
  match o with Some s => s | None => pending end = st ->
  ends db0
    (Appointment_create env (d_id doctor) (d_name doctor)
       (d_specialty doctor) pid (u_name patient_) date time
       symptoms phone o)
    (change st cancels db0).
Proof.
  intros Hd Hu Hp Hst tr.
  unfold Appointment_create, bind, call, read_db, throw, write_db, ret.
  cbn [fst snd]. destruct date as [t|]; [|apply no_change].
  cbv zeta.
  repeat match goal with
  | |- context [if ?c then _ else _] =>
      destruct c eqn:?; [apply no_change|]
  end.
  cbn [fst snd].
  eapply appointment_added with (doctor := doctor) (patient_ := patient_);
    try reflexivity; assumption.
Qed.

Lemma ends_Appointment_save a :
  cancels = true ->
  find (fun b => a_id b =? a_id a) (appointments db0) = Some a ->
  ends db0 (Appointment_save (V1.cancel a)) (change st cancels db0).
Proof.
  intros Hc Ha tr. unfold Appointment_save, bind, call, read_db, write_db.
  cbn [fst snd]. now apply appointment_cancelled.
Qed.

Lemma ends_Feedback_create L env strict patient_ doctor rating comment :
  ends db0 (Feedback_create L env strict patient_ doctor rating comment)
    (change st cancels db0).
Proof.
  intros tr.
  unfold Feedback_create, bind, call, read_db, lift, throw, write_db, ret.
  cbn [fst snd].
  destruct (feedback_of L env strict patient_ doctor rating comment)
    as [e|f]; [apply no_change|].
  repeat match goal with
  | |- context [if ?c then _ else _] =>
      destruct c eqn:?; [apply no_change|]
  end.
  cbn [fst snd]. now apply feedback_added.
Qed.

End Writes.

Ltac ends_reads :=
  repeat first
    [ apply ends_quiet; [solve [quiet_auto] | apply no_change]
    | apply ends_try_catch; [|intros ?; solve [quiet_auto]]
    | apply ends_bind_quiet;
      [solve [quiet_auto] | apply no_change | intros ? ? ?]
    | progress cbv beta zeta
    | match goal with
      | |- ends _ (match ?x with _ => _ end) _ => destruct x
      end ].

Ltac ends_write lemma :=
  apply ends_bind_write; [lemma | intros ?; solve [quiet_auto]].

Section RequestChanges.

Variable L : Runtime.

Lemma V1_handle_change env req db :
  change confirmed true db (db_after (V1.handle L env req) db).
Proof.
  destruct (V1_reads_only req) eqn:Hr.
  { rewrite (proj1 (quiet_run db (V1_reads_only_quiet L env req Hr))).
    apply no_change. }
  apply ends_run.
  destruct req; try discriminate; cbn [V1.handle];
    unfold V1.post_auth_register, V1.post_admin_doctors, V1.post_appointments,
      V1.patch_appointments_cancel, V1.post_feedback, V1.authenticate,
      V1.adminOnly, V1.on_error, V1.on_fault;
    ends_reads.
  - ends_write ltac:(apply ends_User_create).
  - ends_write ltac:(apply ends_Doctor_create).
  - match goal with
    | Hd : fst (fst (Doctor_findById _ _ _ _)) = inr (Some _),
      Hu : fst (fst (User_findById _ _ _)) = inr (Some _) |- _ =>
        apply found_doctor in Hd; apply found_user in Hu as (Hu & _)
    end.
    ends_write ltac:(now apply ends_Appointment_create).
  - match goal with
    | Ha : fst (fst (Appointment_findById _ _ _ _)) = inr (Some _) |- _ =>
        apply found_appointment in Ha
    end.
    ends_write ltac:(now apply ends_Appointment_save).
  - ends_write ltac:(apply ends_Feedback_create).
Qed.

Lemma V2_handle_change env req db :
  change pending false db (db_after (V2.handle L env req) db).
Proof.
  destruct (V2_reads_only req) eqn:Hr.
  { rewrite (proj1 (quiet_run db (V2_reads_only_quiet L env req Hr))).
    apply no_change. }
  apply ends_run.
  destruct req; try discriminate; cbn [V2.handle];
    unfold V2.post_auth_register, V2.post_appointments, V2.post_feedback,
      V2.authenticate;
    ends_reads.
  - ends_write ltac:(apply ends_User_create).
  - match goal with
    | Hd : fst (fst (Doctor_findById _ _ _ _)) = inr (Some _),
      Hu : fst (fst (User_findById _ _ _)) = inr (Some _) |- _ =>
        apply found_doctor in Hd; apply found_user in Hu as (Hu & Hid)
    end.
    ends_write ltac:(now apply ends_Appointment_create).
  - ends_write ltac:(apply ends_Feedback_create).
Qed.

End RequestChanges.

(* ================================================================= *)
(** * Seeding *)

Lemma insert_doctors_frame se docs n db tr :
  let db' := snd (fst (insert_doctors se n docs db tr)) in
  users db' = users db /\ appointments db' = appointments db
  /\ feedbacks db' = feedbacks db
  /\ exists ds, doctors db' = (doctors db ++ ds)%list.
Proof.
  revert n db tr. induction docs as [|doc docs IH]; intros n db tr.
  - cbn. repeat split. exists []. now rewrite app_nil_r.
  - cbn [insert_doctors]. unfold bind at 1.
    unfold insert_doctor, bind, read_db, throw, write_db, ret.
    cbn [fst snd].
    repeat match goal with
    | |- context [if ?c then _ else _] =>
        destruct c;
        [cbn; repeat split; exists []; now rewrite app_nil_r|]
    end.
    cbn [fst snd].
    destruct (IH (S n) (set_doctors db (doctors db ++ [doc (s_fresh se n)]))
                tr) as (Hu & Ha & Hf & ds & Hd).
    cbv zeta. rewrite Hu, Ha, Hf, Hd. cbn. repeat split.
    eexists. now rewrite <- app_assoc.
Qed.

Lemma seeding_shape se docs k db tr :
  seeded db
    (snd (fst
      ((docCount <- Doctor_count ;;
        (if (docCount =? 0)%nat then Doctor_insertMany se docs
         else ret tt) ;;
        userCount <- User_count ;;
        if (userCount =? 0)%nat then
          User_create (seed_env se k) "Admin" "admin@medicare.com"
            "9999999999" (bcrypt_hash "admin123" 10 (s_salt se))
            (Some admin) ;;
          ret tt
        else ret tt) db tr))).
Proof.
  unfold Doctor_count, Doctor_insertMany. unfold bind at 1 2.
  unfold call at 1. unfold bind at 1. unfold read_db at 1. unfold ret at 1.
  cbn [fst snd].
  assert (Hmid : exists r db1 tr1,
    (if (List.length (doctors db) =? 0)%nat
     then call (DbWrite Doctors) ;; insert_doctors se 0 docs
     else ret tt) db (tr ++ [DbRead Doctors])%list = (r, db1, tr1)
    /\ users db1 = users db /\ appointments db1 = appointments db
    /\ feedbacks db1 = feedbacks db
    /\ exists ds, doctors db1 = (doctors db ++ ds)%list
                  /\ (doctors db <> [] -> ds = [])).
  { destruct (doctors db) as [|d0 ds0] eqn:Hds; cbn [List.length Nat.eqb].
    - unfold bind, call. cbn [fst snd].
      pose proof (insert_doctors_frame se docs 0 db
                    ((tr ++ [DbRead Doctors]) ++ [DbWrite Doctors])%list)
        as (Hu & Ha & Hf & ds & Hd).
      destruct (insert_doctors se 0 docs db _) as ((r, db1), tr1).
      cbn [fst snd] in *. exists r, db1, tr1. repeat split; try assumption.
      exists ds. rewrite Hd, Hds. split; [reflexivity | congruence].
    - exists (inr tt), db, (tr ++ [DbRead Doctors])%list.
      repeat split. exists []. rewrite Hds, app_nil_r. now split. }
  destruct Hmid as (r & db1 & tr1 & Hrun & Hu & Ha & Hf & Hd).
  unfold bind at 1. rewrite Hrun.
  assert (Hsame : seeded db db1)
    by (split; [exact Ha|]; split; [exact Hf|]; split; [exact Hd|];
        left; exact Hu).
  destruct r as [e|[]]; [exact Hsame|].
  unfold User_count, bind, call, read_db, ret. cbn [fst snd].
  destruct (users db1) as [|u0 us0] eqn:Hus; cbn [List.length Nat.eqb];
    [|exact Hsame].
  unfold User_create, bind, call, read_db, throw, write_db, ret.
  cbn [fst snd]. cbv zeta.
  repeat match goal with
  | |- context [if ?c then _ else _] => destruct c; [exact Hsame|]
  end.
  cbn [fst snd]. unfold set_users.
  split; [exact Ha|]. split; [exact Hf|]. split; [exact Hd|].
  right. split; [congruence|].
  eexists. cbn [users]. rewrite Hus. cbn [app].
  split; [reflexivity|]. repeat split.
Qed.

Lemma V1_seedData_seeded se db :
  seeded db (snd (fst (V1.seedData se db []))).
Proof.
  unfold V1.seedData, try_catch.
  pose proof (seeding_shape se V1.seedDoctors 5 db []) as H.
  match goal with
  | H : seeded db (snd (fst ?m)) |- context [match ?m' with _ => _ end] =>
      change m' with m; destruct m as (([e|[]], db1), tr1)
  end; exact H.
Qed.

Lemma V2_seedData_seeded se db :
  seeded db (snd (fst (V2.seedData se db []))).
Proof. exact (seeding_shape se V2.doctors_seed 2 db []). Qed.

(* ================================================================= *)
(** * Invariants of the reachable databases *)

Lemma replace_appointment_Forall (P : Appointment -> Prop) a l :
  Forall P l -> P a -> Forall P (replace_appointment a l).
Proof.
  intros Hl Ha. induction Hl as [|b l Hb Hl IH]; cbn; [constructor|].
  destruct (a_id b =? a_id a); constructor; assumption.
Qed.

Lemma replace_found a l :
  find (fun b => a_id b =? a_id a) l = Some a ->
  exists before after,
    l = (before ++ a :: after)%list
    /\ replace_appointment (V1.cancel a) l
       = (before ++ V1.cancel a :: after)%list.
Proof.
  induction l as [|b l IH]; cbn; [discriminate|].
  change (a_id (V1.cancel a)) with (a_id a).
  destruct (a_id b =? a_id a).
  - intros H. injection H as ->. now exists [], l.
  - intros H. destruct (IH H) as (before & after & -> & E).
    exists (b :: before), after. cbn. now rewrite E.
Qed.

Lemma change_only_appends st c db db' :
  change st c db db' -> only_appends c db db'.
Proof.
  intros H. unfold only_appends.
  destruct H as [ |u _ _|d _|a doctor patient_ _ _ _ _ _ _ _ _ _|a Hc Hf|f _].
  - now left.
  - right; left. now exists u.
  - right; right; left. now exists d.
  - right; right; right; left. now exists a.
  - do 5 right. split; [exact Hc|].
    destruct (@replace_found a (appointments db) Hf)
      as (before & after & E & E').
    exists before, a, after. split; [exact E | now rewrite E'].
  - right; right; right; right; left. now exists f.
Qed.

Lemma change_keeps_appointments st db db' :
  change st false db db' ->
  exists new, appointments db' = (appointments db ++ new)%list.
Proof.
  intros H.
  destruct H as [ |u _ _|d _|a doctor patient_ _ _ _ _ _ _ _ _ _|a Hc _|f _];
    try discriminate;
    try (exists []; cbn; now rewrite app_nil_r).
  now exists [a].
Qed.

Lemma refers_mono db db' a :
  (forall d, In d (doctors db) -> In d (doctors db')) ->
  (forall u, In u (users db) -> In u (users db')) ->
  refers db a -> refers db' a.
Proof.
  intros Hd Hu ((d & Hin & H1) & (u & Hin' & H2)). split.
  - exists d. split; [now apply Hd | exact H1].
  - exists u. split; [now apply Hu | exact H2].
Qed.

Lemma references_mono db db' :
  (forall d, In d (doctors db) -> In d (doctors db')) ->
  (forall u, In u (users db) -> In u (users db')) ->
  Forall (refers db) (appointments db) ->
  Forall (refers db') (appointments db).
Proof.
  intros Hd Hu H. eapply Forall_impl; [|exact H].
  intros a. now apply refers_mono.
Qed.

Section Soundness.

Variables (ok : Status -> Prop) (st : Status) (cancels : bool).
Hypothesis ok_new : ok st.
Hypothesis ok_cancelled : cancels = true -> ok cancelled.

Lemma sound_change db db' :
  sound ok db -> change st cancels db db' -> sound ok db'.
Proof.
  intros (Hs & Ha & Hr) H.
  unfold sound, statuses, admins_seeded, references_ok.
  destruct H as [ |u Hrole _|d _|a doctor patient_ Hd Hu H1 H2 H3 H4 H5 H6 _
                 |a Hc Hf|f _]; cbn [users doctors appointments feedbacks
                   with_user with_appointment set_users set_doctors
                   set_appointments set_feedbacks].
  - now repeat split.
  - split; [exact Hs|]. split.
    + apply Forall_app. split; [exact Ha|]. constructor; [|constructor].
      rewrite Hrole. discriminate.
    + apply references_mono with (db := db); cbn; auto using in_or_app.
  - split; [exact Hs|]. split; [exact Ha|].
    apply references_mono with (db := db); cbn; auto using in_or_app.
  - split; [|split; [exact Ha|]].
    + apply Forall_app. split; [exact Hs|]. constructor; [|constructor].
      now rewrite H6.
    + apply Forall_app. split.
      * apply references_mono with (db := db); cbn; auto.
      * constructor; [|constructor]. split.
        -- exists doctor. cbn. now repeat split.
        -- exists patient_. cbn. now repeat split.
  - apply find_some in Hf as (Hin & _). split; [|split; [exact Ha|]].
    + apply replace_appointment_Forall; [exact Hs|]. now apply ok_cancelled.
    + apply replace_appointment_Forall.
      * apply references_mono with (db := db); cbn; auto.
      * unfold references_ok in Hr. rewrite Forall_forall in Hr.
        exact (Hr a Hin).
  - now repeat split.
Qed.

Lemma sound_seeded db db' : sound ok db -> seeded db db' -> sound ok db'.
Proof.
  intros (Hs & Ha & Hr) (Eap & _ & (ds & Eds & _) & Hus).
  unfold sound, statuses, admins_seeded, references_ok in *. rewrite Eap.
  split; [exact Hs|].
  destruct Hus as [Eus | (Hnone & u & Eus & Hu)].
  - rewrite Eus. split; [exact Ha|].
    eapply Forall_impl; [|exact Hr]. intros a. apply refers_mono.
    + intros d Hd. rewrite Eds. now apply in_or_app; left.
    + intros v Hv. now rewrite Eus.
  - rewrite Eus. split; [constructor; [intros _; exact Hu | constructor]|].
    eapply Forall_impl; [|exact Hr].
    intros a (_ & v & Hv & _). rewrite Hnone in Hv. destruct Hv.
Qed.

End Soundness.

Lemma sound_empty ok : sound ok empty_db.
Proof. repeat split; constructor. Qed.

Section Reachable.

Variable L : Runtime.

Lemma V1_reachable_sound db :
  V1.reachable L db -> sound (fun s => s <> pending) db.
Proof.
  induction 1 as [|db ev _ IH]; [apply sound_empty|].
  destruct ev as [se|env req]; cbn [V1.step].
  - eapply sound_seeded; [exact IH | apply V1_seedData_seeded].
  - eapply sound_change with (st := confirmed) (cancels := true);
      [discriminate | discriminate | exact IH | apply V1_handle_change].
Qed.

Lemma V2_reachable_sound db :
  V2.reachable L db -> sound (fun s => s = pending) db.
Proof.
  induction 1 as [|db ev _ IH]; [apply sound_empty|].
  destruct ev as [se|env req]; cbn [V2.step].
  - eapply sound_seeded; [exact IH | apply V2_seedData_seeded].
  - eapply sound_change with (st := pending) (cancels := false);
      [reflexivity | discriminate | exact IH | apply V2_handle_change].
Qed.

Lemma V1_reachable_fold evs db :
  V1.reachable L db -> V1.reachable L (fold_left (V1.step L) evs db).
Proof.
  revert db. induction evs as [|ev evs IH]; intros db H; [exact H|].
  cbn. apply IH. now constructor.
Defined.

Lemma V2_reachable_fold evs db :
  V2.reachable L db -> V2.reachable L (fold_left (V2.step L) evs db).
Proof.
  revert db. induction evs as [|ev evs IH]; intros db H; [exact H|].
  cbn. apply IH. now constructor.
Defined.

End Reachable.

Lemma NoDup_map_eq {A B : Type} (f : A -> B) (l : list A) (x y : A) :
  NoDup (map f l) -> In x l -> In y l -> f x = f y -> x = y.
Proof.
  induction l as [|a l IH]; cbn; [contradiction|].
  intros Hn Hx Hy E. inversion Hn as [|? ? Hnot Hn']; subst.
  destruct Hx as [->|Hx], Hy as [->|Hy]; try reflexivity.
  - exfalso. apply Hnot. rewrite E. now apply in_map.
  - exfalso. apply Hnot. rewrite <- E. now apply in_map.
  - now apply IH.
Qed.

(** X17.  No request removes a document or edits a user, a doctor or a
    feedback.  A request leaves the database as it was, or adds one
    document at the end of one collection and leaves everything else in
    place, or, in the first variant only, replaces one appointment by its
    cancelled self, every other appointment and every other collection
    in place.  In the second variant the appointments are only appended
    to. *)
Theorem requests_only_append (L : Runtime) (env : Env) (db : DB) :
  (forall req, only_appends true db (db_after (V1.handle L env req) db))
  /\ (forall req,
        only_appends false db (db_after (V2.handle L env req) db)
        /\ exists new,
             appointments (db_after (V2.handle L env req) db)
             = (appointments db ++ new)%list).
Proof.
  split; intros req.
  - eapply change_only_appends, V1_handle_change.
  - split.
    + eapply change_only_appends, V2_handle_change.
    + eapply change_keeps_appointments, V2_handle_change.
Qed.

(** X18.  In the first variant no appointment of a reachable database is
    [pending]: each is [confirmed] or [cancelled].  In the second variant
    every appointment of a reachable database is [pending]: no route
    confirms or cancels. *)
Theorem appointment_statuses (L : Runtime) (db : DB) (a : Appointment) :
  In a (appointments db) ->
  (V1.reachable L db ->
   a_status a = confirmed \/ a_status a = cancelled)
  /\ (V2.reachable L db -> a_status a = pending).
Proof.
  intros Hin. split; intros Hr.
  - destruct (V1_reachable_sound Hr) as (Hs & _).
    unfold statuses in Hs. rewrite Forall_forall in Hs.
    specialize (Hs a Hin). destruct (a_status a); auto. now elim Hs.
  - destruct (V2_reachable_sound Hr) as (Hs & _).
    unfold statuses in Hs. rewrite Forall_forall in Hs. exact (Hs a Hin).
Qed.

Lemma appointment_statuses_witness :
  a_status (hd visit (appointments V1_clinic)) = confirmed
  \/ a_status (hd visit (appointments V1_clinic)) = cancelled.
Proof.
  assert (Hin : In (hd visit (appointments V1_clinic))
                  (appointments V1_clinic)) by (left; reflexivity).
  apply (proj1 (@appointment_statuses sample_runtime V1_clinic _ Hin)).
  apply V1_reachable_fold. constructor.
Defined.

(** X19.  Registration never makes an administrator.  In a reachable
    database of either variant every user with the role [admin] is the
    one the seeding creates, named [Admin], with the address
    [admin@medicare.com] and the password [admin123]; there is at most
    one. *)
Theorem only_the_seeded_admin (L : Runtime) (db : DB) :
  V1.reachable L db \/ V2.reachable L db ->
  (forall u, In u (users db) -> u_role u = admin ->
     u_name u = "Admin" /\ u_email u = "admin@medicare.com"
     /\ bcrypt_compare "admin123" (u_password u) = true)
  /\ (forall u v, In u (users db) -> In v (users db) ->
        u_role u = admin -> u_role v = admin -> u = v).
Proof.
  intros Hr.
  assert (Ha : admins_seeded db).
  { destruct Hr as [Hr|Hr].
    - exact (proj1 (proj2 (V1_reachable_sound Hr))).
    - exact (proj1 (proj2 (V2_reachable_sound Hr))). }
  unfold admins_seeded in Ha. rewrite Forall_forall in Ha.
  split.
  - intros u Hin Hrole. destruct (Ha u Hin Hrole) as (_ & H). exact H.
  - intros u v Hu Hv Ru Rv.
    destruct (Ha u Hu Ru) as (_ & _ & Eu & _).
    destruct (Ha v Hv Rv) as (_ & _ & Ev & _).
    eapply NoDup_map_eq with (f := u_email);
      [exact (reachable_emails_unique Hr) | exact Hu | exact Hv | congruence].
Qed.

Lemma only_the_seeded_admin_witness :
  u_name (hd alice (users V1_clinic)) = "Admin"
  /\ u_email (hd alice (users V1_clinic)) = "admin@medicare.com".
Proof.
  assert (Hr : V1.reachable sample_runtime V1_clinic)
    by (apply V1_reachable_fold; constructor).
  assert (Hin : In (hd alice (users V1_clinic)) (users V1_clinic))
    by (left; reflexivity).
  destruct (@only_the_seeded_admin sample_runtime V1_clinic (or_introl Hr))
    as (H & _).
  destruct (H _ Hin eq_refl) as (H1 & H2 & _). split; [exact H1 | exact H2].
Defined.

(** X20.  In a reachable database of either variant every appointment
    refers to a doctor and to a user that exist, and carries the name and
    specialty of that doctor and the name of that user. *)
Theorem appointments_refer_to_documents
    (L : Runtime) (db : DB) (a : Appointment) :
  V1.reachable L db \/ V2.reachable L db ->
  In a (appointments db) ->
  (exists d, In d (doctors db) /\ d_id d = a_doctor a
             /\ d_name d = a_doctorName a /\ d_specialty d = a_specialty a)
  /\ (exists u, In u (users db) /\ u_id u = a_patient a
                /\ u_name u = a_patientName a).
Proof.
  intros Hr Hin.
  assert (Ha : references_ok db).
  { destruct Hr as [Hr|Hr].
    - exact (proj2 (proj2 (V1_reachable_sound Hr))).
    - exact (proj2 (proj2 (V2_reachable_sound Hr))). }
  unfold references_ok in Ha. rewrite Forall_forall in Ha.
  exact (Ha a Hin).
Qed.

Lemma appointments_refer_to_documents_witness :
  exists a d, In a (appointments V2_clinic) /\ In d (doctors V2_clinic)
              /\ d_id d = a_doctor a.
Proof.
  assert (Hr : V2.reachable sample_runtime V2_clinic)
    by (apply V2_reachable_fold; constructor).
  assert (Hin : In (hd visit (appointments V2_clinic)) (appointments V2_clinic))
    by (left; reflexivity).
  destruct (@appointments_refer_to_documents sample_runtime V2_clinic _
              (or_intror Hr) Hin) as ((d & Hd & E & _) & _).
  exists (hd visit (appointments V2_clinic)), d. now repeat split.
Defined.

(* ================================================================= *)
(** * Seeding an empty database *)

Lemma id_in_false (x : ObjectId) (l : list ObjectId) :
  ~ In x l -> id_in x l = false.
Proof.
  intros H. unfold id_in. destruct (existsb (String.eqb x) l) eqn:E;
    [|reflexivity].
  apply existsb_exists in E as (y & Hy & E). apply String.eqb_eq in E.
  subst y. contradiction.
Qed.

Lemma DB_eta (db db' : DB) :
  users db' = users db -> doctors db' = doctors db ->
  appointments db' = appointments db -> feedbacks db' = feedbacks db ->
  db' = db.
Proof. destruct db, db'; cbn; intros; congruence. Qed.

Lemma insert_doctors_run se docs n db tr :
  Forall seedable docs ->
  NoDup (map d_id (doctors db)
         ++ map (s_fresh se) (seq n (List.length docs)))%list ->
  fst (fst (insert_doctors se n docs db tr)) = inr tt
  /\ doctors (snd (fst (insert_doctors se n docs db tr)))
     = (doctors db ++ seeded_doctors se n docs)%list.
Proof.
  intros Hdocs. revert n db tr.
  induction Hdocs as [|doc docs Hdoc _ IH]; intros n db tr Hfresh.
  - cbn. now rewrite app_nil_r.
  - cbn [List.length seq map] in Hfresh.
    destruct (Hdoc (s_fresh se n)) as (Hname & Hsp & Hid).
    assert (Hstep :
      insert_doctor (doc (s_fresh se n)) db tr
      = (inr (doc (s_fresh se n)),
         set_doctors db (doctors db ++ [doc (s_fresh se n)]), tr)).
    { unfold insert_doctor, bind, read_db, throw, write_db, ret.
      cbn [fst snd].
      replace (d_name (doc (s_fresh se n)) =? "") with false
        by (symmetry; now apply String.eqb_neq).
      replace (d_specialty (doc (s_fresh se n)) =? "") with false
        by (symmetry; now apply String.eqb_neq).
      rewrite Hid, id_in_false; [reflexivity|].
      apply NoDup_remove_2 in Hfresh. intros Hin.
      apply Hfresh, in_or_app. now left. }
    cbn [insert_doctors seeded_doctors]. unfold bind. rewrite Hstep.
    destruct (IH (S n)
                (set_doctors db (doctors db ++ [doc (s_fresh se n)])) tr)
      as (Hr & Hd).
    { cbn [doctors set_doctors]. rewrite map_app. cbn [map].
      rewrite Hid, <- app_assoc. exact Hfresh. }
    split; [exact Hr|]. rewrite Hd. cbn [doctors set_doctors].
    now rewrite <- app_assoc.
Qed.

Lemma seeding_shape_fresh se docs k db tr :
  Forall seedable docs ->
  NoDup (map (s_fresh se) (seq 0 (List.length docs))) ->
  doctors db = [] -> users db = [] ->
  exists db' tr',
    (docCount <- Doctor_count ;;
     (if (docCount =? 0)%nat then Doctor_insertMany se docs
      else ret tt) ;;
     userCount <- User_count ;;
     if (userCount =? 0)%nat then
       User_create (seed_env se k) "Admin" "admin@medicare.com"
         "9999999999" (bcrypt_hash "admin123" 10 (s_salt se))
         (Some admin) ;;
       ret tt
     else ret tt) db tr = (inr tt, db', tr')
    /\ doctors db' = seeded_doctors se 0 docs
    /\ users db' = [admin_user se k]
    /\ appointments db' = appointments db /\ feedbacks db' = feedbacks db.
Proof.
  intros Hdocs Hfresh Hd Hu.
  unfold Doctor_count, Doctor_insertMany. unfold bind at 1 2.
  unfold call at 1. unfold bind at 1. unfold read_db at 1. unfold ret at 1.
  cbn [fst snd]. rewrite Hd. cbn [List.length Nat.eqb].
  unfold bind at 1. unfold bind at 1. unfold call at 1. cbn [fst snd].
  pose proof (insert_doctors_frame se docs 0 db
                ((tr ++ [DbRead Doctors]) ++ [DbWrite Doctors])%list)
    as (Fu & Fa & Ff & _).
  destruct (@insert_doctors_run se docs 0 db
              ((tr ++ [DbRead Doctors]) ++ [DbWrite Doctors])%list Hdocs)
    as (Hr & Hds).
  { rewrite Hd. exact Hfresh. }
  destruct (insert_doctors se 0 docs db _) as ((r, db1), tr1).
  cbn [fst snd] in *. subst r.
  unfold User_count, bind, call, read_db, ret. cbn [fst snd].
  rewrite Fu, Hu. cbn [List.length Nat.eqb].
  unfold User_create, bind, call, read_db, throw, write_db, ret.
  cbn [fst snd]. cbv zeta. rewrite Fu, Hu.
  replace (trim "Admin") with "Admin" by (vm_compute; reflexivity).
  replace (toLowerCase "admin@medicare.com") with "admin@medicare.com"
    by (vm_compute; reflexivity).
  cbn. eexists _, _. split; [reflexivity|]. cbn.
  rewrite ?Hds, ?Hd, ?Fu, ?Hu. repeat split; assumption.
Qed.

Lemma seeded_twice db' db'' :
  doctors db' <> [] -> users db' <> [] ->
  seeded db' db'' -> db'' = db'.
Proof.
  intros Hd Hu (Ea & Ef & (ds & Eds & Hds) & Hus).
  apply DB_eta; try assumption.
  - destruct Hus as [E | (E & _)]; [exact E | contradiction].
  - rewrite Eds, (Hds Hd). apply app_nil_r.
Qed.

Lemma V1_seedDoctors_seedable : Forall seedable V1.seedDoctors.
Proof.
  repeat constructor; cbn; discriminate.
Qed.

Lemma V2_doctors_seed_seedable : Forall seedable V2.doctors_seed.
Proof.
  repeat constructor; cbn; discriminate.
Qed.

Lemma V1_seedData_fresh se :
  NoDup (map (s_fresh se) (seq 0 5)) ->
  let db' := snd (fst (V1.seedData se empty_db [])) in
  doctors db' = seeded_doctors se 0 V1.seedDoctors
  /\ users db' = [admin_user se 5]
  /\ appointments db' = [] /\ feedbacks db' = [].
Proof.
  intros Hfresh.
  destruct (@seeding_shape_fresh se V1.seedDoctors 5 empty_db []
              V1_seedDoctors_seedable Hfresh eq_refl eq_refl)
    as (db' & tr' & Hrun & H).
  unfold V1.seedData, try_catch. cbv zeta. rewrite Hrun. exact H.
Qed.

Lemma V2_seedData_fresh se :
  NoDup (map (s_fresh se) (seq 0 2)) ->
  let db' := snd (fst (V2.seedData se empty_db [])) in
  doctors db' = seeded_doctors se 0 V2.doctors_seed
  /\ users db' = [admin_user se 2]
  /\ appointments db' = [] /\ feedbacks db' = [].
Proof.
  intros Hfresh.
  destruct (@seeding_shape_fresh se V2.doctors_seed 2 empty_db []
              V2_doctors_seed_seedable Hfresh eq_refl eq_refl)
    as (db' & tr' & Hrun & H).
  unfold V2.seedData. cbv zeta. rewrite Hrun. exact H.
Qed.

(** X21.  Seeding an empty database under distinct fresh ids stores the
    doctors of the seed list, in their order (five in the first variant,
    two in the second), and one user, the administrator [Admin],
    [admin@medicare.com], with the bcrypt digest of [admin123]; a further
    seeding of that database, under any ids, changes nothing. *)
Theorem seeding_an_empty_database (se se' : SeedEnv) :
  (NoDup (map (s_fresh se) (seq 0 5)) ->
   let db' := snd (fst (V1.seedData se empty_db [])) in
   map d_name (doctors db')
   = ["Dr. Sarah Johnson"; "Dr. Michael Chen"; "Dr. Emily Rodriguez";
      "Dr. James Wilson"; "Dr. Lisa Anderson"]
   /\ map d_id (doctors db') = map (s_fresh se) (seq 0 5)
   /\ users db'
      = [mkUser (s_fresh se 5) "Admin" "admin@medicare.com" "9999999999"
           (Bcrypt 10 (s_salt se) "admin123") admin (s_now se) true]
   /\ appointments db' = [] /\ feedbacks db' = []
   /\ snd (fst (V1.seedData se' db' [])) = db')
  /\ (NoDup (map (s_fresh se) (seq 0 2)) ->
      let db' := snd (fst (V2.seedData se empty_db [])) in
      map d_name (doctors db') = ["Dr. Sarah Johnson"; "Dr. Michael Chen"]
      /\ map d_id (doctors db') = map (s_fresh se) (seq 0 2)
      /\ users db'
         = [mkUser (s_fresh se 2) "Admin" "admin@medicare.com" "9999999999"
              (Bcrypt 10 (s_salt se) "admin123") admin (s_now se) true]
      /\ appointments db' = [] /\ feedbacks db' = []
      /\ snd (fst (V2.seedData se' db' [])) = db').
Proof.
  split; intros Hfresh db'.
  - destruct (@V1_seedData_fresh se Hfresh) as (Hd & Hu & Ha & Hf).
    fold db' in Hd, Hu, Ha, Hf. rewrite Hd, Hu.
    repeat (split; [first [reflexivity | assumption]|]).
    apply seeded_twice; [| |apply V1_seedData_seeded].
    + rewrite Hd. discriminate.
    + rewrite Hu. discriminate.
  - destruct (@V2_seedData_fresh se Hfresh) as (Hd & Hu & Ha & Hf).
    fold db' in Hd, Hu, Ha, Hf. rewrite Hd, Hu.
    repeat (split; [first [reflexivity | assumption]|]).
    apply seeded_twice; [| |apply V2_seedData_seeded].
    + rewrite Hd. discriminate.
    + rewrite Hu. discriminate.
Qed.

Lemma sample_seed_fresh : NoDup (map (s_fresh sample_seed) (seq 0 5)).
Proof.
  repeat (constructor;
          [cbn; intros H;
           repeat (destruct H as [H|H]; [discriminate H|]); exact H|]).
  constructor.
Defined.

Lemma seeding_an_empty_database_witness :
  List.length (doctors V1_seeded) = 5%nat
  /\ snd (fst (V1.seedData sample_seed V1_seeded [])) = V1_seeded.
Proof.
  destruct (seeding_an_empty_database sample_seed sample_seed) as (H1 & _).
  destruct (H1 sample_seed_fresh) as (Hn & _ & _ & _ & _ & Htwice).
  split; [|exact Htwice].
  unfold V1_seeded. rewrite <- (length_map d_name), Hn. reflexivity.
Defined.

(** X22.  The seeding never touches appointments or feedback, adds no
    doctor to a database that has one, and adds no user to a database
    that has one: when a patient registered before the seeding ran, no
    administrator is created.  Both variants. *)
Theorem seeding_skips_what_exists (se : SeedEnv) (db : DB) :
  let db1 := snd (fst (V1.seedData se db [])) in
  let db2 := snd (fst (V2.seedData se db [])) in
  (appointments db1 = appointments db /\ feedbacks db1 = feedbacks db
   /\ (doctors db <> [] -> doctors db1 = doctors db)
   /\ (users db <> [] -> users db1 = users db))
  /\ (appointments db2 = appointments db /\ feedbacks db2 = feedbacks db
      /\ (doctors db <> [] -> doctors db2 = doctors db)
      /\ (users db <> [] -> users db2 = users db)).
Proof.
  assert (H : forall db', seeded db db' ->
            appointments db' = appointments db
            /\ feedbacks db' = feedbacks db
            /\ (doctors db <> [] -> doctors db' = doctors db)
            /\ (users db <> [] -> users db' = users db)).
  { intros db' (Ea & Ef & (ds & Eds & Hds) & Hus).
    split; [exact Ea|]. split; [exact Ef|]. split.
    - intros Hne. rewrite Eds, (Hds Hne). apply app_nil_r.
    - intros Hne. destruct Hus as [E | (E & _)]; [exact E | contradiction]. }
  split; apply H; [apply V1_seedData_seeded | apply V2_seedData_seeded].
Qed.

Lemma seeding_skips_what_exists_witness :
  users (snd (fst (V1.seedData sample_seed (mkDB [alice] [] [] []) [])))
  = [alice].
Proof.
  destruct (seeding_skips_what_exists sample_seed (mkDB [alice] [] [] []))
    as ((_ & _ & _ & H) & _).
  apply H. discriminate.
Defined.

Section SeededAdmin.

Variable L : Runtime.
Hypothesis Hemail : isEmail L "admin@medicare.com" = true.

Lemma admin_loginSchema :
  V1.loginSchema L admin_login
  = inr (mkLoginData "admin@medicare.com" "admin123")
  /\ V2.loginSchema L admin_login
     = inr (mkLoginData "admin@medicare.com" "admin123").
Proof.
  unfold V1.loginSchema, V2.loginSchema, z_string, admin_login.
  cbn [lb_email lb_password flat_map check_issue app]. rewrite Hemail.
  split; reflexivity.
Qed.

Lemma admin_found se k db :
  users db = [admin_user se k] ->
  find (fun u => u_email u =? toLowerCase "admin@medicare.com") (users db)
  = Some (admin_user se k).
Proof.
  intros ->.
  replace (toLowerCase "admin@medicare.com") with "admin@medicare.com"
    by (vm_compute; reflexivity).
  reflexivity.
Qed.

Lemma V1_admin_login_run env se k db :
  users db = [admin_user se k] ->
  run (V1.post_auth_login L env admin_login) db
  = (Sent (mkResponse 200
             (JObj [("message", JStr "Logged in");
                    ("user", JObj [("id", JStr (s_fresh se k));
                                   ("name", JStr "Admin");
                                   ("email", JStr "admin@medicare.com");
                                   ("role", JStr "admin")]);
                    ("accessToken",
                     JTok (fst (V1.generateTokens L env (admin_user se k))));
                    ("refreshToken",
                     JTok (snd (V1.generateTokens L env
                                  (admin_user se k))))])),
     db, [DbRead Users]).
Proof.
  intros Hu. unfold run, V1.post_auth_login, try_catch.
  unfold bind at 1. unfold lift. rewrite (proj1 admin_loginSchema).
  unfold User_findOne, bind, call, read_db, ret. cbn [fst snd app ld_email].
  rewrite (admin_found _ Hu). reflexivity.
Qed.

Lemma V2_admin_login_run env se k db :
  users db = [admin_user se k] ->
  run (V2.post_auth_login L env admin_login) db
  = (Sent (mkResponse 200
             (JObj [("accessToken",
                     JTok (fst (V2.generateTokens L env (s_fresh se k)
                                  (Some admin))));
                    ("refreshToken",
                     JTok (snd (V2.generateTokens L env (s_fresh se k)
                                  (Some admin))));
                    ("user", JObj [("id", JStr (s_fresh se k));
                                   ("name", JStr "Admin");
                                   ("email", JStr "admin@medicare.com");
                                   ("role", JStr "admin")])])),
     db, [DbRead Users]).
Proof.
  intros Hu. unfold run, V2.post_auth_login, try_catch.
  unfold bind at 1. unfold lift. rewrite (proj2 admin_loginSchema).
  unfold User_findOne, bind, call, read_db, ret. cbn [fst snd app ld_email].
  rewrite (admin_found _ Hu). reflexivity.
Qed.

Lemma V1_admin_stats_run env token user db :
  jwt_verify token (JWT_SECRET L) (now env) = Some user ->
  c_role user = Some admin ->
  outcome (V1.get_admin_stats L env (Bearer token)) db
  = Sent (mkResponse 200
            (JObj [("totalUsers",
                    JNum (Z.of_nat
                            (List.length
                               (filter (fun u => role_eqb (u_role u) patient)
                                  (users db))) # 1));
                   ("totalAppointments",
                    JNum (Z.of_nat (List.length (appointments db)) # 1));
                   ("totalDoctors",
                    JNum (Z.of_nat (List.length (doctors db)) # 1))])).
Proof.
  intros Hv Hr.
  unfold outcome, run, V1.get_admin_stats, V1.authenticate, V1.adminOnly,
    V1.is_admin.
  rewrite Hv, Hr. reflexivity.
Qed.

Lemma V2_admin_stats_run env token user db :
  jwt_verify token (JWT_SECRET L) (now env) = Some user ->
  c_role user = Some admin ->
  outcome (V2.admin_route L env (Bearer token) V2.get_admin_stats) db
  = Sent (mkResponse 200
            (JObj [("totalUsers",
                    JNum (Z.of_nat
                            (List.length
                               (filter (fun u => role_eqb (u_role u) patient)
                                  (users db))) # 1));
                   ("totalAppointments",
                    JNum (Z.of_nat (List.length (appointments db)) # 1));
                   ("totalDoctors",
                    JNum (Z.of_nat (List.length (doctors db)) # 1))])).
Proof.
  intros Hv Hr.
  unfold outcome, run, V2.admin_route, V2.get_admin_stats, V2.authenticate,
    V2.adminOnly, V2.is_admin.
  rewrite Hv, Hr. reflexivity.
Qed.

End SeededAdmin.

(** X23.  From seeding to the dashboard.  On the database the seeding of
    an empty one leaves, a login as [admin@medicare.com] with [admin123]
    answers 200, and for 900 seconds the access token it returns opens
    the admin statistics, which count no patient (the administrator is
    not one), no appointment and the seeded doctors.  Both variants. *)
Theorem seeded_admin_reaches_the_dashboard
    (L : Runtime) (se : SeedEnv) (env env' : Env)
    (Hemail : isEmail L "admin@medicare.com" = true)
    (Hfresh : NoDup (map (s_fresh se) (seq 0 5)))
    (Hsoon : (now env' / 1000 < now env / 1000 + 900)%Z) :
  (let db := snd (fst (V1.seedData se empty_db [])) in
   exists access refresh_,
     outcome (V1.post_auth_login L env admin_login) db
     = Sent (mkResponse 200
               (JObj [("message", JStr "Logged in");
                      ("user", JObj [("id", JStr (s_fresh se 5));
                                     ("name", JStr "Admin");
                                     ("email", JStr "admin@medicare.com");
                                     ("role", JStr "admin")]);
                      ("accessToken", JTok access);
                      ("refreshToken", JTok refresh_)]))
     /\ outcome (V1.get_admin_stats L env' (Bearer access)) db
        = Sent (mkResponse 200
                  (JObj [("totalUsers", JNum 0);
                         ("totalAppointments", JNum 0);
                         ("totalDoctors", JNum 5)])))
  /\ (let db := snd (fst (V2.seedData se empty_db [])) in
      exists access refresh_,
        outcome (V2.post_auth_login L env admin_login) db
        = Sent (mkResponse 200
                  (JObj [("accessToken", JTok access);
                         ("refreshToken", JTok refresh_);
                         ("user", JObj [("id", JStr (s_fresh se 2));
                                        ("name", JStr "Admin");
                                        ("email", JStr "admin@medicare.com");
                                        ("role", JStr "admin")])]))
        /\ outcome (V2.admin_route L env' (Bearer access) V2.get_admin_stats)
             db
           = Sent (mkResponse 200
                     (JObj [("totalUsers", JNum 0);
                            ("totalAppointments", JNum 0);
                            ("totalDoctors", JNum 2)]))).
Proof.
  assert (Hlt : (now env' / 1000 <? now env / 1000 + minutes_15)%Z = true)
    by (apply Z.ltb_lt; unfold minutes_15; lia).
  assert (Hfresh2 : NoDup (map (s_fresh se) (seq 0 2))).
  { cbn in Hfresh |- *. inversion Hfresh as [|? ? H1 H2]; subst.
    inversion H2 as [|? ? H3 H4]; subst.
    constructor; [|constructor; [intros []|constructor]].
    intros [E|[]]. apply H1. now left. }
  split; intros db.
  - destruct (@V1_seedData_fresh se Hfresh) as (Hd & Hu & Ha & _).
    fold db in Hd, Hu, Ha. eexists _, _. split.
    + unfold outcome.
      erewrite V1_admin_login_run; [reflexivity | exact Hemail | exact Hu].
    + erewrite V1_admin_stats_run.
      * rewrite Hd, Hu, Ha. reflexivity.
      * unfold V1.generateTokens, jwt_sign, jwt_verify. cbn [fst].
        rewrite String.eqb_refl, Hlt. reflexivity.
      * reflexivity.
  - destruct (@V2_seedData_fresh se Hfresh2) as (Hd & Hu & Ha & _).
    fold db in Hd, Hu, Ha. eexists _, _. split.
    + unfold outcome.
      erewrite V2_admin_login_run; [reflexivity | exact Hemail | exact Hu].
    + erewrite V2_admin_stats_run.
      * rewrite Hd, Hu, Ha. reflexivity.
      * unfold V2.generateTokens, jwt_sign, jwt_verify. cbn [fst].
        rewrite String.eqb_refl, Hlt. reflexivity.
      * reflexivity.
Qed.

Lemma seeded_admin_reaches_the_dashboard_witness :
  has_status 200
    (outcome (V1.post_auth_login sample_runtime sample_env admin_login)
       V1_seeded) = true.
Proof.
  assert (Hsoon : (now later_env / 1000 < now sample_env / 1000 + 900)%Z)
    by (vm_compute; reflexivity).
  destruct (@seeded_admin_reaches_the_dashboard sample_runtime sample_seed
              sample_env later_env eq_refl sample_seed_fresh Hsoon)
    as ((a & r & H & _) & _).
  unfold V1_seeded. rewrite H. reflexivity.
Defined.

(* ================================================================= *)
(** * Doctors created by the administrator, and feedback *)

Lemma filter_all {A : Type} (f : A -> bool) (l : list A) :
  (forall x, f x = true) -> filter f l = l.
Proof.
  intros H. induction l as [|a l IH]; cbn; [reflexivity|].
  now rewrite H, IH.
Qed.

Section Casts.

Variable L : Runtime.

Lemma optional_string_cast v f :
  castString L v = Some f -> optional_string L v = inr f.
Proof. intros H. unfold optional_string. now rewrite H. Qed.

Lemma required_string_cast v s :
  castString L v = Some (Value s) -> s <> "" -> required_string L v = inr s.
Proof.
  intros H Hs. unfold required_string. rewrite H.
  apply String.eqb_neq in Hs. now rewrite Hs.
Qed.

Lemma number_path_free v f :
  castNumber L v = Some f -> number_path L false None None v = inr f.
Proof. intros H. unfold number_path. rewrite H. now destruct f. Qed.

(** A path that passes the schema has been cast. *)
Lemma optional_string_inr v f :
  optional_string L v = inr f -> castString L v = Some f.
Proof.
  unfold optional_string. destruct (castString L v); [|discriminate].
  now intros [= ->].
Qed.

Lemma required_string_inr v s :
  required_string L v = inr s ->
  castString L v = Some (Value s) /\ (s =? "") = false.
Proof.
  unfold required_string. destruct (castString L v) as [[| |s']|];
    try discriminate.
  destruct (s' =? "") eqn:E; [discriminate|]. now intros [= <-].
Qed.

Lemma number_path_inr required min max v f :
  number_path L required min max v = inr f -> castNumber L v = Some f.
Proof.
  unfold number_path. destruct (castNumber L v) as [[| |q]|];
    try discriminate.
  - destruct required; [discriminate | now intros [= <-]].
  - destruct required; [discriminate | now intros [= <-]].
  - repeat match goal with
    | |- context [if ?c then _ else _] => destruct c; [discriminate|]
    end.
    now intros [= <-].
Qed.

(** The rating of a feedback: within 1..5 when it is a number. *)
Lemma rating_path strict v q :
  castNumber L v = Some (Value q) ->
  number_path L strict (Some 1%Q) (Some 5%Q) v
  = if negb (Qle_bool 1 q) then inl (below_min q)
    else if negb (Qle_bool q 5) then inl (above_max q)
    else inr (Value q).
Proof. intros H. unfold number_path. now rewrite H. Qed.

Lemma V1_post_admin_doctors_run env token user b db :
  jwt_verify token (JWT_SECRET L) (now env) = Some user ->
  c_role user = Some admin ->
  run (V1.post_admin_doctors L env (Bearer token) b) db
  = if js_truthy (db_name b) && js_truthy (db_specialty b)
    then
      match doctor_of L env (db_name b) (db_specialty b) (db_rating b)
              (db_reviews b) (db_location b) (db_availability b) (db_fee b)
              (db_image b) with
      | inl e =>
          (Sent (mkResponse 500
                   (JObj [("error", JStr "Server error");
                          ("details", JStr (errMessage L e))])),
           db, [DbWrite Doctors])
      | inr d =>
          if id_in (d_id d) (map d_id (doctors db))
          then (Sent (mkResponse 500
                        (JObj [("error", JStr "Server error");
                               ("details",
                                JStr (errMessage L (DuplicateKey "_id")))])),
                db, [DbWrite Doctors])
          else (Sent (mkResponse 200 (doctor_doc d)),
                set_doctors db (doctors db ++ [d])%list, [DbWrite Doctors])
      end
    else (Sent (json_error 400 "name & specialty required"), db, []).
Proof.
  intros Hv Ha.
  unfold run, V1.post_admin_doctors, V1.authenticate, V1.adminOnly,
    V1.is_admin.
  rewrite Hv, Ha. unfold try_catch. rewrite <- negb_andb.
  destruct (js_truthy (db_name b) && js_truthy (db_specialty b));
    [|reflexivity].
  cbn [negb]. unfold Doctor_create, bind, call, lift.
  pose proof (required_string_inr (db_name b)) as Hn.
  pose proof (required_string_inr (db_specialty b)) as Hs.
  unfold doctor_of in *.
  destruct (required_string L (db_name b)) as [x|n];
    destruct (required_string L (db_specialty b)) as [y|s];
    destruct (number_path L false None None (db_rating b));
    destruct (number_path L false None None (db_reviews b));
    destruct (optional_string L (db_location b));
    destruct (optional_string L (db_availability b));
    destruct (optional_string L (db_fee b));
    destruct (optional_string L (db_image b));
    try reflexivity.
  destruct (Hn n eq_refl) as (_ & Hn'). destruct (Hs s eq_refl) as (_ & Hs').
  unfold insert_doctor, bind, read_db, throw, write_db, ret, V1.on_fault.
  cbn [fst snd d_name d_specialty d_id app]. rewrite Hn', Hs'.
  destruct (id_in (fresh env) (map d_id (doctors db))); reflexivity.
Qed.

Lemma V1_post_feedback_run env b db :
  run (V1.post_feedback L env b) db
  = if js_truthy (fb_rating b) && js_truthy (fb_comment b)
    then
      match feedback_of L env false (fb_patient b) (fb_doctor b)
              (fb_rating b) (fb_comment b) with
      | inl e =>
          (Sent (mkResponse 500
                   (JObj [("error", JStr "Server error");
                          ("details", JStr (errMessage L e))])),
           db, [DbWrite Feedbacks])
      | inr f =>
          if id_in (f_id f) (map f_id (feedbacks db))
          then (Sent (mkResponse 500
                        (JObj [("error", JStr "Server error");
                               ("details",
                                JStr (errMessage L (DuplicateKey "_id")))])),
                db, [DbWrite Feedbacks])
          else (Sent (mkResponse 200 (feedback_doc f)),
                set_feedbacks db (feedbacks db ++ [f])%list,
                [DbWrite Feedbacks])
      end
    else (Sent (json_error 400 "rating and comment required"), db, []).
Proof.
  unfold run, V1.post_feedback, try_catch. rewrite <- negb_andb.
  destruct (js_truthy (fb_rating b) && js_truthy (fb_comment b));
    [|reflexivity].
  cbn [negb].
  unfold Feedback_create, bind, call, lift, read_db, throw, write_db, ret,
    V1.on_fault.
  destruct (feedback_of L env false (fb_patient b) (fb_doctor b)
              (fb_rating b) (fb_comment b)) as [e|f]; [reflexivity|].
  cbn [fst snd app].
  destruct (id_in (f_id f) (map f_id (feedbacks db))); reflexivity.
Qed.

Lemma V2_post_feedback_run env b db :
  run (V2.post_feedback L env b) db
  = match feedback_of L env true (fb_patient b) (fb_doctor b)
            (fb_rating b) (fb_comment b) with
    | inl e => (Unhandled e, db, [DbWrite Feedbacks])
    | inr f =>
        if id_in (f_id f) (map f_id (feedbacks db))
        then (Unhandled (DuplicateKey "_id"), db, [DbWrite Feedbacks])
        else (Sent (mkResponse 200 (feedback_doc f)),
              set_feedbacks db (feedbacks db ++ [f])%list,
              [DbWrite Feedbacks])
    end.
Proof.
  unfold run, V2.post_feedback.
  unfold Feedback_create, bind, call, lift, read_db, throw, write_db, ret.
  destruct (feedback_of L env true (fb_patient b) (fb_doctor b)
              (fb_rating b) (fb_comment b)) as [e|f]; [reflexivity|].
  cbn [fst snd app].
  destruct (id_in (f_id f) (map f_id (feedbacks db))); reflexivity.
Qed.

(** A document is made only of values that were cast. *)
Lemma doctor_of_inr env name specialty rating reviews location availability
    fee image d :
  doctor_of L env name specialty rating reviews location availability fee
    image = inr d ->
  exists n s ra re l a f i,
    castString L name = Some (Value n) /\ (n =? "") = false
    /\ castString L specialty = Some (Value s) /\ (s =? "") = false
    /\ castNumber L rating = Some ra /\ castNumber L reviews = Some re
    /\ castString L location = Some l /\ castString L availability = Some a
    /\ castString L fee = Some f /\ castString L image = Some i
    /\ d = mkDoctor (fresh env) n s (with_default (45 # 10) ra)
             (with_default 0 re) l a f i.
Proof.
  unfold doctor_of.
  destruct (required_string L name) as [?|n] eqn:En; try discriminate.
  destruct (required_string L specialty) as [?|s] eqn:Es; try discriminate.
  destruct (number_path L false None None rating) as [?|ra] eqn:Era;
    try discriminate.
  destruct (number_path L false None None reviews) as [?|re] eqn:Ere;
    try discriminate.
  destruct (optional_string L location) as [?|l] eqn:El; try discriminate.
  destruct (optional_string L availability) as [?|a] eqn:Ea;
    try discriminate.
  destruct (optional_string L fee) as [?|f] eqn:Ef; try discriminate.
  destruct (optional_string L image) as [?|i] eqn:Ei; try discriminate.
  intros [= <-]. exists n, s, ra, re, l, a, f, i.
  apply required_string_inr in En as (En & En').
  apply required_string_inr in Es as (Es & Es').
  apply number_path_inr in Era, Ere.
  apply optional_string_inr in El, Ea, Ef, Ei.
  repeat (split; [assumption|]). reflexivity.
Qed.

Lemma feedback_of_inr env strict patient_ doctor rating comment f :
  feedback_of L env strict patient_ doctor rating comment = inr f ->
  exists p d r c,
    castString L patient_ = Some p /\ castString L doctor = Some d
    /\ castNumber L rating = Some r /\ castString L comment = Some c
    /\ number_path L strict (Some 1%Q) (Some 5%Q) rating = inr r
    /\ (strict = true -> exists s, c = Value s /\ (s =? "") = false)
    /\ f = mkFeedback (fresh env) p d r c (now env).
Proof.
  unfold feedback_of.
  destruct (optional_string L patient_) as [?|p] eqn:Ep; try discriminate.
  destruct (optional_string L doctor) as [?|d] eqn:Ed; try discriminate.
  destruct (number_path L strict (Some 1%Q) (Some 5%Q) rating) as [?|r] eqn:Er;
    try discriminate.
  apply optional_string_inr in Ep, Ed.
  pose proof (number_path_inr _ _ _ _ Er) as Er'.
  destruct strict.
  - destruct (required_string L comment) as [?|s] eqn:Ec; try discriminate.
    apply required_string_inr in Ec as (Ec & Ec').
    intros [= <-]. exists p, d, r, (Value s).
    repeat (split; [assumption || reflexivity|]).
    split; [|reflexivity]. intros _. now exists s.
  - destruct (optional_string L comment) as [?|c] eqn:Ec; try discriminate.
    apply optional_string_inr in Ec.
    intros [= <-]. exists p, d, r, c.
    repeat (split; [assumption || reflexivity|]).
    split; [discriminate | reflexivity].
Qed.

End Casts.

(** X24.  Creating a doctor, first variant.  For an administrator, a
    body whose name or specialty is falsy (absent, [null], empty, zero,
    [false]) is answered 400 with no access to the database.  Otherwise
    the values of the body are cast to the paths of the schema.  When
    each casts, and the name and the specialty to non-empty strings, the
    doctor is appended under the cast values and sent back, an absent
    rating stored as 4.5 and absent reviews as 0, a [null] as [null], and
    the public listing without filter then ends with the new doctor.
    When some value does not cast, or the name or the specialty casts to
    the empty string, the answer is 500 and nothing is stored. *)
Theorem admin_creates_a_doctor
    (L : Runtime) (env : Env) (db : DB) (token : Token) (user : Claims)
    (b : DoctorBody)
    (Hverified : jwt_verify token (JWT_SECRET L) (now env) = Some user)
    (Hadmin : c_role user = Some admin) :
  let h := V1.post_admin_doctors L env (Bearer token) b in
  (js_truthy (db_name b) && js_truthy (db_specialty b) = false ->
   run h db = (Sent (json_error 400 "name & specialty required"), db, []))
  /\ (js_truthy (db_name b) && js_truthy (db_specialty b) = true ->
      forall name specialty rating reviews location availability fee image,
        castString L (db_name b) = Some (Value name) -> name <> "" ->
        castString L (db_specialty b) = Some (Value specialty) ->
        specialty <> "" ->
        castNumber L (db_rating b) = Some rating ->
        castNumber L (db_reviews b) = Some reviews ->
        castString L (db_location b) = Some location ->
        castString L (db_availability b) = Some availability ->
        castString L (db_fee b) = Some fee ->
        castString L (db_image b) = Some image ->
        id_in (fresh env) (map d_id (doctors db)) = false ->
        let d :=
          mkDoctor (fresh env) name specialty
            (match rating with
             | Absent => Some (45 # 10)%Q
             | Null => None
             | Value q => Some q
             end)
            (match reviews with
             | Absent => Some 0%Q
             | Null => None
             | Value q => Some q
             end)
            location availability fee image in
        run h db
        = (Sent (mkResponse 200 (doctor_doc d)),
           set_doctors db (doctors db ++ [d])%list, [DbWrite Doctors])
        /\ outcome (V1.get_doctors L None None) (db_after h db)
           = Sent (mkResponse 200
                     (JArr (map (fun x => deselect "__v" (doctor_doc x))
                              (doctors db ++ [d])%list))))
  /\ (js_truthy (db_name b) && js_truthy (db_specialty b) = true ->
      castString L (db_name b) = None
      \/ castString L (db_name b) = Some (Value "")
      \/ castString L (db_specialty b) = None
      \/ castString L (db_specialty b) = Some (Value "")
      \/ castNumber L (db_rating b) = None
      \/ castNumber L (db_reviews b) = None
      \/ castString L (db_location b) = None
      \/ castString L (db_availability b) = None
      \/ castString L (db_fee b) = None
      \/ castString L (db_image b) = None ->
      (exists e,
         run h db
         = (Sent (mkResponse 500
                    (JObj [("error", JStr "Server error");
                           ("details", JStr (errMessage L e))])),
            db, [DbWrite Doctors]))).
Proof.
  intros h. unfold h.
  pose proof (V1_post_admin_doctors_run L env token b db Hverified Hadmin)
    as Hrun.
  split; [|split].
  - intros Ht. rewrite Hrun, Ht. reflexivity.
  - intros Ht name specialty rating reviews location availability fee image
      Hn Hn' Hs Hs' Hra Hre Hl Ha Hf Hi Hfresh.
    set (d := mkDoctor (fresh env) name specialty _ _ location availability
                fee image).
    assert (Hmade :
      doctor_of L env (db_name b) (db_specialty b) (db_rating b)
        (db_reviews b) (db_location b) (db_availability b) (db_fee b)
        (db_image b) = inr d).
    { unfold doctor_of.
      rewrite (required_string_cast L _ Hn Hn'),
        (required_string_cast L _ Hs Hs'), (number_path_free L _ Hra),
        (number_path_free L _ Hre), (optional_string_cast L _ Hl),
        (optional_string_cast L _ Ha), (optional_string_cast L _ Hf),
        (optional_string_cast L _ Hi).
      reflexivity. }
    assert (Hcreated :
      run (V1.post_admin_doctors L env (Bearer token) b) db
      = (Sent (mkResponse 200 (doctor_doc d)),
         set_doctors db (doctors db ++ [d])%list, [DbWrite Doctors])).
    { rewrite Hrun, Ht, Hmade. unfold d at 1. cbn [d_id].
      now rewrite Hfresh. }
    split; [exact Hcreated|].
    unfold db_after, outcome. rewrite Hcreated. cbn [fst snd].
    change (@None json) with (option_map JStr None).
    rewrite (proj1 (listing_plain L None None _ eq_refl)). cbn [fst].
    unfold listing_response, literal_listing.
    rewrite filter_all by (intros; reflexivity). reflexivity.
  - intros Ht Hbad. rewrite Hrun, Ht.
    destruct (doctor_of L env (db_name b) (db_specialty b) (db_rating b)
                (db_reviews b) (db_location b) (db_availability b) (db_fee b)
                (db_image b)) as [e|d] eqn:Hmade; [now exists e|].
    exfalso. apply doctor_of_inr in Hmade
      as (n & s & ra & re & l & a & f & i & Hn & Hn' & Hs & Hs' & Hra & Hre
          & Hl & Ha & Hf & Hi & _).
    destruct Hbad as [H|[H|[H|[H|[H|[H|[H|[H|[H|H]]]]]]]]];
      try congruence.
    + rewrite Hn in H. injection H as ->. discriminate.
    + rewrite Hs in H. injection H as ->. discriminate.
Qed.

Lemma admin_creates_a_doctor_witness :
  has_status 400
    (outcome (V1.post_admin_doctors sample_runtime sample_env
                (Bearer (access_token root)) nameless_body) sample_db)
  = true
  /\ has_status 200
       (outcome (V1.post_admin_doctors sample_runtime sample_env
                   (Bearer (access_token root)) kim_body) sample_db)
     = true
  /\ outcome (V1.post_admin_doctors sample_runtime sample_env
                (Bearer (access_token root)) unrated_body) sample_db
     = Sent (mkResponse 200
               (JObj [("_id", JStr (oid "01")); ("name", JStr "Dr. Lee");
                      ("specialty", JStr "Urology"); ("rating", JNull);
                      ("reviews", JNum 0); ("location", JStr "Pune");
                      ("__v", JNum 0)])).
Proof.
  split; [|split].
  - destruct (@admin_creates_a_doctor sample_runtime sample_env sample_db
                (access_token root) (claims_of root) nameless_body eq_refl
                eq_refl) as (H & _).
    unfold outcome. rewrite (H eq_refl). reflexivity.
  - destruct (@admin_creates_a_doctor sample_runtime sample_env sample_db
                (access_token root) (claims_of root) kim_body eq_refl
                eq_refl) as (_ & H & _).
    destruct (H eq_refl "Dr. Kim" "Oncology" Absent Absent Absent Absent
                Absent Absent eq_refl ltac:(discriminate) eq_refl
                ltac:(discriminate) eq_refl eq_refl eq_refl eq_refl eq_refl
                eq_refl eq_refl) as (Hrun & _).
    unfold outcome. rewrite Hrun. reflexivity.
  - destruct (@admin_creates_a_doctor sample_runtime sample_env sample_db
                (access_token root) (claims_of root) unrated_body eq_refl
                eq_refl) as (_ & H & _).
    destruct (H eq_refl "Dr. Lee" "Urology" Null Absent (Value "Pune") Absent
                Absent Absent eq_refl ltac:(discriminate) eq_refl
                ltac:(discriminate) eq_refl eq_refl eq_refl eq_refl eq_refl
                eq_refl eq_refl) as (Hrun & _).
    unfold outcome. rewrite Hrun. reflexivity.
Defined.

(** X25.  Feedback, first variant.  Anyone may post, no token is asked
    for.  A rating or a comment that is falsy (absent, [null], zero,
    empty, [false]) is answered 400 with no access to the database.
    Otherwise the values of the body are cast to the paths of the schema:
    a rating that casts to a number outside 1..5 is refused by the model
    with 500 [Server error] and nothing stored, and so is a value that
    does not cast; any other feedback under an unused id is stored under
    the cast values and answered 200. *)
Theorem V1_feedback_validation (L : Runtime) (env : Env) (db : DB)
    (b : FeedbackBody) :
  let h := V1.post_feedback L env b in
  (js_truthy (fb_rating b) && js_truthy (fb_comment b) = false ->
   run h db = (Sent (json_error 400 "rating and comment required"), db, []))
  /\ (js_truthy (fb_rating b) && js_truthy (fb_comment b) = true ->
      forall patient_ doctor rating comment,
        castString L (fb_patient b) = Some patient_ ->
        castString L (fb_doctor b) = Some doctor ->
        castNumber L (fb_rating b) = Some rating ->
        castString L (fb_comment b) = Some comment ->
        (forall q,
           rating = Value q -> Qle_bool 1 q && Qle_bool q 5 = false ->
           outcome h db
           = Sent (mkResponse 500
                     (JObj [("error", JStr "Server error");
                            ("details",
                             JStr (errMessage L
                                     (ValidationFailed
                                        [("rating",
                                          if Qle_bool 1 q then above_max q
                                          else below_min q)])))]))
           /\ db_after h db = db)
        /\ ((forall q, rating = Value q ->
                       Qle_bool 1 q && Qle_bool q 5 = true) ->
            id_in (fresh env) (map f_id (feedbacks db)) = false ->
            let f :=
              mkFeedback (fresh env) patient_ doctor rating comment
                (now env) in
            run h db
            = (Sent (mkResponse 200 (feedback_doc f)),
               set_feedbacks db (feedbacks db ++ [f])%list,
               [DbWrite Feedbacks])))
  /\ (js_truthy (fb_rating b) && js_truthy (fb_comment b) = true ->
      castString L (fb_patient b) = None
      \/ castString L (fb_doctor b) = None
      \/ castNumber L (fb_rating b) = None
      \/ castString L (fb_comment b) = None ->
      exists e,
        run h db
        = (Sent (mkResponse 500
                   (JObj [("error", JStr "Server error");
                          ("details", JStr (errMessage L e))])),
           db, [DbWrite Feedbacks])).
Proof.
  intros h. unfold h, outcome, db_after.
  pose proof (V1_post_feedback_run L env b db) as Hrun.
  split; [|split].
  - intros Ht. rewrite Hrun, Ht. reflexivity.
  - intros Ht patient_ doctor rating comment Hp Hd Hr Hc.
    rewrite Ht in Hrun. unfold feedback_of in Hrun.
    rewrite (optional_string_cast L _ Hp), (optional_string_cast L _ Hd),
      (optional_string_cast L _ Hc) in Hrun.
    split.
    + intros q -> Hout. rewrite (rating_path L false _ Hr) in Hrun.
      rewrite Hrun.
      destruct (Qle_bool 1 q); cbn [negb andb] in *.
      * rewrite Hout. cbn. split; reflexivity.
      * cbn. split; reflexivity.
    + intros Hin Hfresh.
      assert (Hpath :
        number_path L false (Some 1%Q) (Some 5%Q) (fb_rating b) = inr rating).
      { destruct rating as [| |q].
        - unfold number_path. now rewrite Hr.
        - unfold number_path. now rewrite Hr.
        - rewrite (rating_path L false _ Hr).
          specialize (Hin q eq_refl).
          apply andb_true_iff in Hin as (H1 & H5). now rewrite H1, H5. }
      rewrite Hpath in Hrun. cbn [f_id] in Hrun.
      rewrite Hfresh in Hrun. exact Hrun.
  - intros Ht Hbad. rewrite Hrun, Ht.
    destruct (feedback_of L env false (fb_patient b) (fb_doctor b)
                (fb_rating b) (fb_comment b)) as [e|f] eqn:Hmade;
      [now exists e|].
    exfalso. apply feedback_of_inr in Hmade
      as (p & d & r & c & Hp & Hd & Hr & Hc & _).
    destruct Hbad as [H|[H|[H|H]]]; congruence.
Qed.

Lemma V1_feedback_validation_witness :
  has_status 500
    (outcome (V1.post_feedback sample_runtime sample_env six_stars)
       sample_db) = true
  /\ has_status 400
       (outcome (V1.post_feedback sample_runtime sample_env no_comment)
          sample_db) = true
  /\ has_status 200
       (outcome (V1.post_feedback sample_runtime sample_env praise)
          sample_db) = true
  /\ outcome (V1.post_feedback sample_runtime sample_env loose_praise)
       sample_db
     = Sent (mkResponse 200
               (JObj [("_id", JStr (oid "01")); ("rating", JNum 5);
                      ("comment", JStr "7");
                      ("date", JDate 1750000000000); ("__v", JNum 0)])).
Proof.
  split; [|split; [|split]].
  - destruct (V1_feedback_validation sample_runtime sample_env sample_db
                six_stars) as (_ & H & _).
    destruct (H eq_refl (Value "Alice") (Value "Dr. Sarah Johnson")
                (Value (6 # 1)%Q) (Value "Very kind") eq_refl eq_refl eq_refl
                eq_refl) as (H1 & _).
    destruct (H1 (6 # 1)%Q eq_refl eq_refl) as (E & _). rewrite E.
    reflexivity.
  - destruct (V1_feedback_validation sample_runtime sample_env sample_db
                no_comment) as (H & _).
    unfold outcome. rewrite (H eq_refl). reflexivity.
  - destruct (V1_feedback_validation sample_runtime sample_env sample_db
                praise) as (_ & H & _).
    destruct (H eq_refl (Value "Alice") (Value "Dr. Sarah Johnson")
                (Value (5 # 1)%Q) (Value "Very kind") eq_refl eq_refl eq_refl
                eq_refl) as (_ & H2).
    unfold outcome. rewrite H2; [reflexivity | | reflexivity].
    intros q [= <-]. reflexivity.
  - destruct (V1_feedback_validation sample_runtime sample_env sample_db
                loose_praise) as (_ & H & _).
    destruct (H eq_refl Absent Absent (Value 5%Q) (Value "7") eq_refl eq_refl
                eq_refl eq_refl) as (_ & H2).
    unfold outcome. rewrite H2; [reflexivity | | reflexivity].
    intros q [= <-]. reflexivity.
Defined.

(** X26.  Feedback, second variant.  The route has no check and no
    [catch], and the schema requires the rating and the comment.  When
    the values of the body cast to the paths of the schema, the rating to
    a number within 1..5 and the comment to a non-empty string, the
    feedback is stored under the cast values, under an unused id, and
    answered 200.  In every other case (a value that does not cast, a
    rating that is absent, [null] or outside 1..5, a comment that is
    absent, [null] or empty) the handler's promise rejects, so that no
    response is sent, and nothing is stored. *)
Theorem V2_feedback_unanswered (L : Runtime) (env : Env) (db : DB)
    (b : FeedbackBody) :
  let h := V2.post_feedback L env b in
  let rated :=
    match castNumber L (fb_rating b) with
    | Some (Value q) => Qle_bool 1 q && Qle_bool q 5
    | _ => false
    end in
  let commented :=
    match castString L (fb_comment b) with
    | Some (Value c) => negb (c =? "")
    | _ => false
    end in
  let addressed :=
    match castString L (fb_patient b), castString L (fb_doctor b) with
    | Some _, Some _ => true
    | _, _ => false
    end in
  (rated && commented && addressed = false ->
   (exists e, outcome h db = Unhandled e) /\ db_after h db = db)
  /\ (forall patient_ doctor q c,
        castString L (fb_patient b) = Some patient_ ->
        castString L (fb_doctor b) = Some doctor ->
        castNumber L (fb_rating b) = Some (Value q) ->
        Qle_bool 1 q && Qle_bool q 5 = true ->
        castString L (fb_comment b) = Some (Value c) -> c <> "" ->
        id_in (fresh env) (map f_id (feedbacks db)) = false ->
        let f :=
          mkFeedback (fresh env) patient_ doctor (Value q) (Value c)
            (now env) in
        run h db
        = (Sent (mkResponse 200 (feedback_doc f)),
           set_feedbacks db (feedbacks db ++ [f])%list, [DbWrite Feedbacks])).
Proof.
  intros h rated commented addressed.
  unfold h, outcome, db_after.
  pose proof (V2_post_feedback_run L env b db) as Hrun.
  split.
  - intros Hno. rewrite Hrun.
    destruct (feedback_of L env true (fb_patient b) (fb_doctor b)
                (fb_rating b) (fb_comment b)) as [e|f] eqn:Hmade.
    { split; [now exists e | reflexivity]. }
    exfalso. apply feedback_of_inr in Hmade
      as (p & d & r & c & Hp & Hd & Hr & Hc & Hpath & Hreq & _).
    destruct (Hreq eq_refl) as (s & -> & Hs).
    unfold rated, commented, addressed in Hno.
    rewrite Hp, Hd, Hr, Hc, Hs in Hno. cbn [negb andb] in Hno.
    rewrite !andb_true_r in Hno.
    unfold number_path in Hpath. rewrite Hr in Hpath.
    destruct r as [| |q]; try discriminate.
    cbn [negb] in Hpath.
    destruct (Qle_bool 1 q); [|discriminate].
    destruct (Qle_bool q 5); discriminate.
  - intros patient_ doctor q c Hp Hd Hr Hin Hc Hc' Hfresh.
    set (f := mkFeedback (fresh env) patient_ doctor (Value q) (Value c)
                (now env)).
    assert (Hmade :
      feedback_of L env true (fb_patient b) (fb_doctor b) (fb_rating b)
        (fb_comment b) = inr f).
    { unfold feedback_of.
      rewrite (optional_string_cast L _ Hp), (optional_string_cast L _ Hd),
        (required_string_cast L _ Hc Hc'), (rating_path L true _ Hr).
      apply andb_true_iff in Hin as (H1 & H5). now rewrite H1, H5. }
    rewrite Hrun, Hmade. unfold f at 1. cbn [f_id]. now rewrite Hfresh.
Qed.

Lemma V2_feedback_unanswered_witness :
  outcome (V2.post_feedback sample_runtime sample_env six_stars) sample_db
  = Unhandled (ValidationFailed [("rating", above_max (6 # 1)%Q)])
  /\ has_status 200
       (outcome (V2.post_feedback sample_runtime sample_env praise) sample_db)
     = true
  /\ has_status 200
       (outcome (V2.post_feedback sample_runtime sample_env loose_praise)
          sample_db)
     = true.
Proof.
  split; [|split].
  - destruct (V2_feedback_unanswered sample_runtime sample_env sample_db
                six_stars) as (H & _).
    destruct (H eq_refl) as ((e & He) & _). rewrite He.
    vm_compute in He. now injection He as <-.
  - destruct (V2_feedback_unanswered sample_runtime sample_env sample_db
                praise) as (_ & H).
    unfold outcome.
    rewrite (H (Value "Alice") (Value "Dr. Sarah Johnson") (5 # 1)%Q
               "Very kind" eq_refl eq_refl eq_refl eq_refl eq_refl
               ltac:(discriminate) eq_refl).
    reflexivity.
  - destruct (V2_feedback_unanswered sample_runtime sample_env sample_db
                loose_praise) as (_ & H).
    unfold outcome.
    rewrite (H Absent Absent 5%Q "7" eq_refl eq_refl eq_refl eq_refl eq_refl
               ltac:(discriminate) eq_refl).
    reflexivity.
Defined.

(* ================================================================= *)
(** * The listings without a filter *)

(** X27.  The listings that take no filter are complete.  For an
    administrator the appointment listing answers 200 with every
    appointment of the collection, each once, the latest created first;
    the feedback listing (public in the first variant, for the
    administrator in the second) answers 200 with every feedback, each
    once, the latest first. *)
Theorem unfiltered_listings_are_complete
    (L : Runtime) (env : Env) (db : DB) (token : Token) (user : Claims)
    (Hverified : jwt_verify token (JWT_SECRET L) (now env) = Some user)
    (Hadmin : c_role user = Some admin) :
  (exists l,
     Permutation l (appointments db) /\ Sorted latest_created_first l
     /\ outcome (V1.get_admin_appointments L env (Bearer token)) db
        = Sent (mkResponse 200
                  (JArr (map (fun a =>
                                appointment_doc_with
                                  (populated_doctor ["name"; "specialty"]
                                     db a)
                                  (populated_patient
                                     ["name"; "email"; "phone"] db a) a)
                           l)))
     /\ outcome (V2.admin_route L env (Bearer token)
                   V2.get_admin_appointments) db
        = Sent (mkResponse 200
                  (JArr (map (fun a =>
                                appointment_doc_with
                                  (populated_doctor ["name"] db a)
                                  (populated_patient ["name"; "email"] db a)
                                  a)
                           l))))
  /\ (exists l,
        Permutation l (feedbacks db) /\ Sorted latest_feedback_first l
        /\ outcome (V1.get_feedback L) db
           = Sent (mkResponse 200 (JArr (map feedback_doc l)))
        /\ outcome (V2.admin_route L env (Bearer token)
                      V2.get_admin_feedback) db
           = Sent (mkResponse 200 (JArr (map feedback_doc l)))).
Proof.
  split.
  - exists (sort_desc (fun a b => (a_createdAt b <? a_createdAt a)%Z)
              (appointments db)).
    split; [apply sort_desc_perm|]. split.
    + apply Sorted_impl
        with (R := fun a b => (a_createdAt a <? a_createdAt b)%Z = false).
      * unfold latest_created_first. intros a b H. apply Z.ltb_ge in H. lia.
      * apply (sort_desc_sorted
                 (fun a b => (a_createdAt b <? a_createdAt a)%Z)).
        intros a b H. apply Z.ltb_lt in H. apply Z.ltb_ge. lia.
    + split.
      * unfold outcome, run, V1.get_admin_appointments, V1.authenticate,
          V1.adminOnly, V1.is_admin.
        rewrite Hverified, Hadmin. reflexivity.
      * unfold outcome, run, V2.admin_route, V2.get_admin_appointments,
          V2.authenticate, V2.adminOnly, V2.is_admin.
        rewrite Hverified, Hadmin. reflexivity.
  - exists (sort_desc (fun f g => (f_date g <? f_date f)%Z) (feedbacks db)).
    split; [apply sort_desc_perm|]. split.
    + apply Sorted_impl
        with (R := fun f g => (f_date f <? f_date g)%Z = false).
      * unfold latest_feedback_first. intros f g H. apply Z.ltb_ge in H. lia.
      * apply (sort_desc_sorted (fun f g => (f_date g <? f_date f)%Z)).
        intros f g H. apply Z.ltb_lt in H. apply Z.ltb_ge. lia.
    + split.
      * reflexivity.
      * unfold outcome, run, V2.admin_route, V2.get_admin_feedback,
          V2.authenticate, V2.adminOnly, V2.is_admin.
        rewrite Hverified, Hadmin. reflexivity.
Qed.

Lemma unfiltered_listings_are_complete_witness :
  has_status 200
    (outcome (V1.get_admin_appointments sample_runtime sample_env
                (Bearer (access_token root))) booked_db) = true.
Proof.
  destruct (@unfiltered_listings_are_complete sample_runtime sample_env
              booked_db (access_token root) (claims_of root) eq_refl
              eq_refl) as ((l & _ & _ & H & _) & _).
  rewrite H. reflexivity.
Defined.
